(** * INSAT-3D ingest pipeline: a shallow embedding and its properties

    The development follows the three Python modules of the repository:

    - [utils/metadata_handler.py]                      (module [MetadataHandler])
    - [dataset_extraction_scripts/l1bconvertandupload.py] (modules [Subprocess],
      [INSAT3DProcessor])
    - [app.py]                                          (module [App])

    Python values are modelled by the inductive [Py.value]; dictionaries by
    stdpp's [gmap], together with the order of the keys where the source
    lists them; exceptions by an explicit result type; the outside world
    (external tools, object store, key-value store, local file system) by an
    environment record of oracles together with a threaded [world] state.
    Of the libraries, [subprocess.run], the check of the region name by the
    client library and the creation of the thread pool are modelled with
    the faults they raise (modules [Subprocess] and [Boto3],
    [INSAT3DProcessor.ThreadPoolExecutor]). *)

From Stdlib Require Import ZArith NArith Ascii String List Bool Lia.
From stdpp Require Import base option gmap strings list fin_maps pretty.

Open Scope string_scope.
Set Warnings "-register-all".

(* ===================================================================== *)
(** * Python builtins used by the source *)
(* ===================================================================== *)

Module Py.

(** Text.  A Python [str] is modelled as a Rocq [string] whose characters are
    the code points 0..255 (one [ascii] per code point). *)

Definition chr (n : nat) : ascii := ascii_of_nat n.
Definition ord (c : ascii) : nat := nat_of_ascii c.

Definition LF : ascii := chr 10.
Definition CR : ascii := chr 13.
Definition DQUOTE : ascii := chr 34.
Definition SQUOTE : ascii := chr 39.
Definition BACKSLASH : ascii := chr 92.

(** a one-character string *)
Definition char (c : ascii) : string := String c EmptyString.

Definition dquote : string := char DQUOTE.
Definition newline : string := char LF.

Fixpoint rev_onto (s acc : string) : string :=
  match s with
  | EmptyString => acc
  | String c s' => rev_onto s' (String c acc)
  end.

Definition rev (s : string) : string := rev_onto s EmptyString.

(** [sub in s] *)
Fixpoint contains (sub s : string) : bool :=
  String.prefix sub s ||
  match s with
  | EmptyString => false
  | String _ s' => contains sub s'
  end.

(** [c in chars] for a single character *)
Fixpoint mem_char (c : ascii) (chars : string) : bool :=
  match chars with
  | EmptyString => false
  | String d chars' => Ascii.eqb c d || mem_char c chars'
  end.

(** [sep.join(parts)] *)
Fixpoint join (sep : string) (parts : list string) : string :=
  match parts with
  | [] => EmptyString
  | [p] => p
  | p :: rest => p ++ sep ++ join sep rest
  end.

(** [s.split(sep)] for a non-empty separator: left to right, occurrences do
    not overlap.  [skip] counts the characters of a separator that was just
    recognised and is still to be passed over; [cur] is the field being read,
    last character first. *)
Fixpoint split_go (sep : string) (skip : nat) (cur : string) (s : string)
  : list string :=
  match s with
  | EmptyString => [rev cur]
  | String c s' =>
      match skip with
      | S k => split_go sep k cur s'
      | O =>
          if String.prefix sep s
          then rev cur :: split_go sep (String.length sep - 1) EmptyString s'
          else split_go sep 0 (String c cur) s'
      end
  end.

Definition split (sep s : string) : list string := split_go sep 0 EmptyString s.

(** Characters at which [str.splitlines] breaks a line (code points < 256). *)
Definition is_linebreak (c : ascii) : bool :=
  match ord c with
  | 10 | 11 | 12 | 13 | 28 | 29 | 30 | 133 => true
  | _ => false
  end.

(** [s.splitlines()]: a carriage return followed by a line feed is one
    boundary; a final boundary produces no empty last line. *)
Fixpoint splitlines_go (after_cr : bool) (cur : string) (s : string)
  : list string :=
  match s with
  | EmptyString =>
      match cur with EmptyString => [] | _ => [rev cur] end
  | String c s' =>
      if after_cr && Ascii.eqb c LF then splitlines_go false cur s'
      else if is_linebreak c
           then rev cur :: splitlines_go (Ascii.eqb c CR) EmptyString s'
           else splitlines_go false (String c cur) s'
  end.

Definition splitlines (s : string) : list string :=
  splitlines_go false EmptyString s.

(** Characters for which [str.isspace] holds (code points < 256). *)
Definition is_space (c : ascii) : bool :=
  match ord c with
  | 9 | 10 | 11 | 12 | 13 | 28 | 29 | 30 | 31 | 32 | 133 | 160 => true
  | _ => false
  end.

Fixpoint lstrip_by (p : ascii -> bool) (s : string) : string :=
  match s with
  | EmptyString => EmptyString
  | String c s' => if p c then lstrip_by p s' else s
  end.

Definition strip_by (p : ascii -> bool) (s : string) : string :=
  rev (lstrip_by p (rev (lstrip_by p s))).

(** [s.strip()] *)
Definition strip (s : string) : string := strip_by is_space s.

(** [s.strip(chars)] *)
Definition strip_chars (chars s : string) : string :=
  strip_by (fun c => mem_char c chars) s.

(** [os.path.basename(p)] on a POSIX path *)
Definition basename (p : string) : string :=
  List.last (split "/" p) EmptyString.

(** the text before the last dot of [s], if [s] has a dot *)
Fixpoint last_dot_go (cur : string) (s : string) (best : option string)
  : option string :=
  match s with
  | EmptyString => best
  | String c s' =>
      last_dot_go (String c cur) s'
        (if Ascii.eqb c (chr 46) then Some (rev cur) else best)
  end.

(** [os.path.splitext(name)[0]]: the extension starts at the last dot;
    leading dots of the name are not counted *)
Definition splitext_root (name : string) : string :=
  let dots := String.length name - String.length (lstrip_by (Ascii.eqb (chr 46)) name) in
  let lead := String.substring 0 dots name in
  let body := lstrip_by (Ascii.eqb (chr 46)) name in
  match last_dot_go EmptyString body None with
  | Some root => lead ++ root
  | None => name
  end.

(** ** Values

    The values that reach the metadata code are those [json.loads] builds:
    [None], booleans, integers, floats, strings, lists and dictionaries
    with string keys.  The code applies two operations to a float, [str]
    and the truth test; a float is therefore carried as its [repr], the
    shortest decimal text that reads back as the same float, which
    identifies it. *)

Inductive float : Type := Float (repr : string).

Inductive value : Type :=
| VNone
| VBool (b : bool)
| VInt (z : Z)
| VFloat (f : float)
| VStr (s : string)
| VList (l : list value)
| VDict (items : list (string * value)).

Definition float_repr (f : float) : string := let 'Float r := f in r.

Definition hex_digit (n : nat) : ascii :=
  if (n <? 10)%nat then chr (48 + n) else chr (87 + n).

(** [repr] of one character inside a string literal delimited by [quote] *)
Definition repr_char (quote c : ascii) : string :=
  let n := ord c in
  if Ascii.eqb c quote || Ascii.eqb c BACKSLASH then String BACKSLASH (char c)
  else if (n =? 9)%nat then String BACKSLASH "t"
  else if (n =? 10)%nat then String BACKSLASH "n"
  else if (n =? 13)%nat then String BACKSLASH "r"
  else if ((n <? 32) || (n =? 127) || ((128 <=? n) && (n <=? 160)) || (n =? 173))%nat
       then String BACKSLASH
              (String "x" (String (hex_digit (n / 16)) (char (hex_digit (n mod 16)))))
       else char c.

Fixpoint repr_chars (quote : ascii) (s : string) : string :=
  match s with
  | EmptyString => EmptyString
  | String c s' => repr_char quote c ++ repr_chars quote s'
  end.

(** [repr(s)] for a string: single quotes, unless the text has a single
    quote and no double quote *)
Definition repr_str (s : string) : string :=
  let quote :=
    if mem_char SQUOTE s && negb (mem_char DQUOTE s) then DQUOTE else SQUOTE in
  String quote (repr_chars quote s ++ char quote).

Fixpoint repr (v : value) : string :=
  match v with
  | VNone => "None"
  | VBool true => "True"
  | VBool false => "False"
  | VInt z => pretty z
  | VFloat f => float_repr f
  | VStr s => repr_str s
  | VList l => "[" ++ join ", " (List.map repr l) ++ "]"
  | VDict items =>
      "{" ++ join ", "
               (List.map (fun kv => match kv with
                                    | (k, x) => repr_str k ++ ": " ++ repr x
                                    end) items)
          ++ "}"
  end.

(** [str(v)]; also what an f-string field [{v}] renders *)
Definition str (v : value) : string :=
  match v with
  | VStr s => s
  | _ => repr v
  end.

(** the truth test of [if v] *)
Definition truthy (v : value) : bool :=
  match v with
  | VNone => false
  | VBool b => b
  | VInt z => negb (z =? 0)%Z
  | VFloat f => negb (String.eqb (float_repr f) "0.0" || String.eqb (float_repr f) "-0.0")
  | VStr s => negb (String.eqb s EmptyString)
  | VList l => match l with [] => false | _ => true end
  | VDict items => match items with [] => false | _ => true end
  end.

Definition is_str (v : value) : bool :=
  match v with VStr _ => true | _ => false end.

Definition is_list (v : value) : bool :=
  match v with VList _ => true | _ => false end.

Definition is_float (v : value) : bool :=
  match v with VFloat _ => true | _ => false end.

(** ** Exceptions and results *)

Inductive exn : Type :=
| TimeoutExpired (cmd : list string) (timeout : N)
| CalledProcessError (returncode : Z) (cmd : list string) (stdout stderr : string)
| OSError (msg : string)
| KeyError (key : value)
| IndexError (msg : string)
| TypeError (msg : string)
| ValueError (msg : string)
| UnicodeDecodeError (msg : string)
| ClientError (msg : string)
| Exception (msg : string).

Inductive result (A : Type) : Type :=
| Ok (a : A)
| Raise (e : exn).
Arguments Ok {A} a.
Arguments Raise {A} e.

(** [str(e)] of a caught exception *)
Definition str_exn (e : exn) : string :=
  match e with
  | TimeoutExpired cmd t =>
      "Command '" ++ repr (VList (List.map VStr cmd)) ++ "' timed out after "
        ++ pretty t ++ " seconds"
  | CalledProcessError rc cmd _ _ =>
      "Command '" ++ repr (VList (List.map VStr cmd))
        ++ "' returned non-zero exit status " ++ pretty rc ++ "."
  | OSError msg => msg
  | KeyError key => repr key
  | IndexError msg => msg
  | TypeError msg => msg
  | ValueError msg => msg
  | UnicodeDecodeError msg => msg
  | ClientError msg => msg
  | Exception msg => msg
  end.

(** the last binding of [k] in the items of a dictionary *)
Fixpoint dict_get (items : list (string * value)) (k : string) : option value :=
  match items with
  | [] => None
  | (k', v) :: rest =>
      match dict_get rest k with
      | Some v' => Some v'
      | None => if String.eqb k' k then Some v else None
      end
  end.

(** [type(v).__name__] *)
Definition type_name (v : value) : string :=
  match v with
  | VNone => "NoneType"
  | VBool _ => "bool"
  | VInt _ => "int"
  | VFloat _ => "float"
  | VStr _ => "str"
  | VList _ => "list"
  | VDict _ => "dict"
  end.

(** the fault of subscripting a value that has no items *)
Definition not_subscriptable (v : value) : exn :=
  TypeError ("'" ++ type_name v ++ "' object is not subscriptable").

(** [v[k]] for a string key; the texts of the faults are those of
    CPython 3.11 and later *)
Definition getitem (v : value) (k : string) : result value :=
  match v with
  | VDict items =>
      match dict_get items k with
      | Some x => Ok x
      | None => Raise (KeyError (VStr k))
      end
  | VList _ => Raise (TypeError "list indices must be integers or slices, not str")
  | VStr _ => Raise (TypeError "string indices must be integers, not 'str'")
  | _ => Raise (not_subscriptable v)
  end.

(** [v[0]]; the keys of a dictionary are strings here, so that [0] is never
    among them *)
Definition getitem0 (v : value) : result value :=
  match v with
  | VList (x :: _) => Ok x
  | VList [] => Raise (IndexError "list index out of range")
  | VStr (String c _) => Ok (VStr (char c))
  | VStr EmptyString => Raise (IndexError "string index out of range")
  | VDict _ => Raise (KeyError (VInt 0))
  | _ => Raise (not_subscriptable v)
  end.

(** ** Dictionaries that are built key by key

    A dictionary from text to text: its entries, and its keys in the order
    in which they were first inserted, which is the order in which
    [keys()] lists them. *)

Record dict : Type := Dict { entries : gmap string string; order : list string }.

(** [{}] *)
Definition dict_empty : dict := {| entries := ∅; order := [] |}.

(** [d[k] = v]: a key that is already present keeps its place *)
Definition setitem (d : dict) (k v : string) : dict :=
  {| entries := <[k := v]> (entries d);
     order := if bool_decide (is_Some (entries d !! k)) then order d
              else order d ++ [k] |}.

End Py.
Export Py(exn(..), result(..)).

(* ===================================================================== *)
(** * [subprocess.run] and the external tool invoker *)
(* ===================================================================== *)

Module Subprocess.

(** Why a process cannot be created: the program cannot be executed (an
    [OSError] such as [FileNotFoundError] or [PermissionError]), an argument
    has a null byte (a [ValueError]), or there is no argument at all (an
    [IndexError]). *)
Inductive start_fault : Type :=
| StartOSError (msg : string)
| StartValueError (msg : string)
| StartIndexError (msg : string).

Definition start_exn (f : start_fault) : exn :=
  match f with
  | StartOSError msg => Py.OSError msg
  | StartValueError msg => Py.ValueError msg
  | StartIndexError msg => Py.IndexError msg
  end.

(** What an external command does when started: either it cannot be
    started at all, or it runs for [duration] seconds and then exits with
    [returncode].  What it has written is either text in the encoding of
    the locale, [stdout] and [stderr], or bytes that are no such text;
    [reason] then is what the decoder says of them.  Under a timeout a
    process that never exits behaves like one whose duration is larger than
    the timeout, so durations are finite; a call without timeout on a
    process that never exits does not return and has no behaviour here. *)
Inductive behaviour : Type :=
| CannotStart (fault : start_fault)
| Runs (duration : N) (returncode : Z) (stdout stderr : string)
| Undecodable (duration : N) (returncode : Z) (reason : string).

Record CompletedProcess : Type := {
  returncode : Z;
  stdout : string;
  stderr : string
}.

(** the process is still running when [timeout] seconds have passed *)
Definition exceeds (duration : N) (timeout : option N) : bool :=
  match timeout with
  | None => false
  | Some t => (t <? duration)%N
  end.

(** [subprocess.run(cmd, check=check, capture_output=True, text=True,
    timeout=timeout)].  The output is decoded when the process has ended,
    before the exit code is looked at; under a timeout that has passed
    nothing is decoded. *)
Definition run (cmd : list string) (check : bool) (timeout : option N)
    (b : behaviour) : result CompletedProcess :=
  match b with
  | CannotStart fault => Raise (start_exn fault)
  | Runs d rc out err =>
      if exceeds d timeout
      then Raise (Py.TimeoutExpired cmd (default 0%N timeout))
      else if check && negb (rc =? 0)%Z
           then Raise (Py.CalledProcessError rc cmd out err)
           else Ok {| returncode := rc; stdout := out; stderr := err |}
  | Undecodable d rc reason =>
      if exceeds d timeout
      then Raise (Py.TimeoutExpired cmd (default 0%N timeout))
      else Raise (Py.UnicodeDecodeError reason)
  end.

End Subprocess.


(* ===================================================================== *)
(** * The outside world *)
(* ===================================================================== *)

(** A value of the key-value store's item format: an attribute is a type
    tag and the text of the value.  The tags are the store's own. *)
Inductive attribute_tag : Type :=
| S_ | N_ | B_ | BOOL_ | NULL_ | M_ | L_ | SS_ | NS_ | BS_.

Record attribute : Type := Attr { tag : attribute_tag; text : string }.

(** Calls that leave the process, in the order in which they are made. *)
Inductive event : Type :=
| EvRun (cmd : list string)
| EvPutItem (table_name : string) (item : gmap string attribute)
| EvUploadFile (file bucket key acl : string)
| EvRemove (path : string).

Record world : Type := {
  fs : gset string;               (* paths that exist on the local disk *)
  environ : gmap string string;   (* [os.environ] *)
  events : list event
}.

(** The environment answers every outside call as a function of the
    history so far.  [spawn] gives the behaviour of a started command and
    the local disk as it is when [subprocess.run] returns or raises;
    [put_item], [upload_file] and [remove] give the fault raised, if any.
    [json_loads] is [json.loads] on the report of [gdalinfo -json]: that tool
    prints an object whose [metadata] member, when present, maps each
    domain name to an object of items, and the decoded report is typed so
    ([None]: the text is not JSON; [Some None]: no [metadata] member). *)
Record env : Type := {
  spawn : world -> list string -> Subprocess.behaviour * gset string;
  json_loads : string -> option (option (list (string * list (string * Py.value))));
  put_item : world -> string -> gmap string attribute -> option exn;
  upload_file : world -> string -> string -> string -> option exn;
  remove : world -> string -> option exn
}.

(** ** Computations: state passing with exceptions *)

Definition M (A : Type) : Type := world -> result A * world.

Definition ret {A} (a : A) : M A := fun w => (Ok a, w).
Definition raise {A} (e : exn) : M A := fun w => (Raise e, w).
Definition bind {A B} (m : M A) (k : A -> M B) : M B :=
  fun w => match m w with
           | (Ok a, w') => k a w'
           | (Raise e, w') => (Raise e, w')
           end.

#[global] Instance M_ret : MRet M := @ret.
#[global] Instance M_bind : MBind M := fun A B k m => bind m k.

(** [try: body  except Exception as e: handler e] *)
Definition try_except {A} (body : M A) (handler : exn -> M A) : M A :=
  fun w => match body w with
           | (Ok a, w') => (Ok a, w')
           | (Raise e, w') => handler e w'
           end.

(** [try: body  finally: fin]: [fin] runs on every exit of [body]; a fault
    raised by [fin] replaces the outcome of [body]. *)
Definition try_finally {A} (body : M A) (fin : M unit) : M A :=
  fun w => match body w with
           | (r, w') => match fin w' with
                        | (Ok _, w'') => (r, w'')
                        | (Raise e, w'') => (Raise e, w'')
                        end
           end.

(** a pure computation that may raise *)
Definition lift {A} (r : result A) : M A := fun w => (r, w).

Definition get_world : M world := fun w => (Ok w, w).
Definition emit (e : event) : M unit :=
  fun w => (Ok tt, {| fs := fs w; environ := environ w; events := events w ++ [e] |}).
Definition set_fs (d : gset string) : M unit :=
  fun w => (Ok tt, {| fs := d; environ := environ w; events := events w |}).
Definition set_environ (e : gmap string string) : M unit :=
  fun w => (Ok tt, {| fs := fs w; environ := e; events := events w |}).

(** [os.path.exists(p)] *)
Definition os_path_exists (p : string) : M bool :=
  fun w => (Ok (bool_decide (p ∈ fs w)), w).

(** [os.environ.get(k, d)] *)
Definition os_environ_get (k d : string) : M string :=
  fun w => (Ok (default d (environ w !! k)), w).

(** [os.environ[k]] *)
Definition os_environ_getitem (k : string) : M string :=
  fun w => match environ w !! k with
           | Some v => (Ok v, w)
           | None => (Raise (Py.KeyError (Py.VStr k)), w)
           end.

Section Outside.
Context (E : env).

(** starting a command: the call is recorded, the disk is as the command
    leaves it *)
Definition start (cmd : list string) : M Subprocess.behaviour :=
  w ← get_world;
  let '(b, d) := spawn E w cmd in
  emit (EvRun cmd);; set_fs d;; ret b.

(** [os.remove(p)] *)
Definition os_remove (p : string) : M unit :=
  w ← get_world;
  emit (EvRemove p);;
  if bool_decide (p ∈ fs w)
  then match remove E w p with
       | Some e => raise e
       | None => set_fs (fs w ∖ {[p]})
       end
  else raise (Py.OSError "No such file or directory").

End Outside.

(* ===================================================================== *)
(** * The client library *)
(* ===================================================================== *)

Module Boto3.

Definition is_digit (c : ascii) : bool :=
  let n := Py.ord c in ((48 <=? n) && (n <=? 57))%nat.

(** a letter, a digit or a hyphen *)
Definition is_label_char (c : ascii) : bool :=
  let n := Py.ord c in
  (is_digit c || ((65 <=? n) && (n <=? 90)) || ((97 <=? n) && (n <=? 122))
   || (n =? 45))%nat.

Fixpoint all_of (p : ascii -> bool) (s : string) : bool :=
  match s with
  | EmptyString => true
  | String c s' => p c && all_of p s'
  end.

(** the text without one final line feed, before which [$] matches too *)
Definition before_final_newline (s : string) : string :=
  match Py.rev s with
  | String c r => if Ascii.eqb c Py.LF then Py.rev r else s
  | EmptyString => s
  end.

(** [botocore.utils.validate_region_name]: the name of a region is a host
    label, [^(?![0-9]+$)(?!-)[a-zA-Z0-9-]{,63}(?<!-)$] *)
Definition valid_host_label (region_name : string) : bool :=
  let s := before_final_newline region_name in
  all_of is_label_char s
  && (String.length s <=? 63)%nat
  && negb (negb (String.eqb s EmptyString) && all_of is_digit s)
  && negb (String.prefix "-" s)
  && negb (String.prefix "-" (Py.rev s)).

(** [boto3.client(service, region_name=region_name, ...)]: the name of the
    region is checked and nothing leaves the process; the fault,
    [InvalidRegionError], is a [ValueError] *)
Definition client (region_name : string) : M unit :=
  if valid_host_label region_name then ret tt
  else raise (Py.ValueError ("Provided region_name '" ++ region_name
                             ++ "' doesn't match a supported format.")).

End Boto3.

(* ===================================================================== *)
(** * [utils/metadata_handler.py] *)
(* ===================================================================== *)

Module MetadataHandler.

Definition TABLE_NAME : string := "Files".
Definition REQUIRED_FIELDS : list string :=
  ["Unique_Id"; "Acquisition_Date"; "Acquisition_Time_in_GMT"].
Definition VALID_REGIONS : list string := ["ap-south-1"; "us-east-1"; "us-west-2"].

Record t : Type := { region : string }.

(** [MetadataHandler.__init__] *)
Definition __init__ (region : string) : M t :=
  if bool_decide (region ∈ VALID_REGIONS)
  then Boto3.client region;; ret {| region := region |}
  else raise (Py.ValueError ("Invalid region. Must be one of "
                             ++ Py.repr (Py.VList (List.map Py.VStr VALID_REGIONS)))).

(** [d.update(items)] for the items of a dictionary, in order *)
Definition dict_update (d : gmap string Py.value) (items : list (string * Py.value))
  : gmap string Py.value :=
  foldl (fun acc kv => <[kv.1 := kv.2]> acc) d items.

(** the loop of [_extract_metadata] over [metadata['metadata'].items()] *)
Definition flatten_domains (domains : list (string * list (string * Py.value)))
  : gmap string Py.value :=
  foldl (fun processed_metadata dv =>
           let '(domain, values) := dv in
           if String.eqb domain EmptyString
           then dict_update processed_metadata values
           else <[domain := Py.VDict values]> processed_metadata)
        ∅ domains.

Section WithEnv.
Context (E : env).

(** [_extract_metadata]: every fault ends in the empty mapping.  The test
    of [result.returncode] after a checked run cannot fail. *)
Definition _extract_metadata (h5_file_path : string) : M (gmap string Py.value) :=
  let cmd := ["gdalinfo"; "-json"; h5_file_path] in
  b ← start E cmd;
  match Subprocess.run cmd true None b with
  | Raise _ => ret ∅
  | Ok result =>
      match json_loads E (Subprocess.stdout result) with
      | None => ret ∅
      | Some None => ret ∅
      | Some (Some domains) => ret (flatten_domains domains)
      end
  end.

End WithEnv.

(** the value stored by the last loop of [_process_metadata] for a value
    that is not [None] *)
Definition remaining_value (value : Py.value) : Py.value :=
  if Py.is_list value || Py.is_float value
  then match value with
       | Py.VList [x] => x
       | _ => value
       end
  else Py.VStr (Py.str value).

(** [_process_metadata].  No operation of the body can raise on these
    values, so the handler that returns the empty mapping is never
    entered. *)
Definition _process_metadata (raw_metadata : gmap string Py.value)
  : gmap string Py.value :=
  let processed : gmap string Py.value := ∅ in
  (* Handle required fields *)
  let processed :=
    foldl (fun processed field =>
             match raw_metadata !! field with
             | Some v => <[field := Py.VStr (Py.str v)]> processed
             | None => processed
             end) processed REQUIRED_FIELDS in
  (* Create acquisition timestamp *)
  let date_str := default (Py.VStr "") (raw_metadata !! "Acquisition_Date") in
  let time_str := default (Py.VStr "") (raw_metadata !! "Acquisition_Time_in_GMT") in
  let processed :=
    if Py.truthy date_str && Py.truthy time_str
    then let timestamp := Py.str date_str ++ "T" ++ Py.str time_str ++ "Z" in
         <["acquisition_timestamp" := Py.VStr timestamp]> processed
    else processed in
  (* Process remaining fields *)
  map_fold (fun key value processed =>
              match value with
              | Py.VNone => processed
              | _ => <[key := remaining_value value]> processed
              end) processed raw_metadata.

(** the dictionary comprehension of [upload_metadata] *)
Definition dynamodb_item (processed_data : gmap string Py.value)
  : gmap string attribute :=
  (fun v => if Py.is_str v then Attr S_ (Py.str v) else Attr N_ (Py.str v))
    <$> processed_data.

Section WithEnv.
Context (E : env).

(** [self.dynamodb.put_item(TableName=..., Item=...)] *)
Definition dynamodb_put_item (table_name : string) (item : gmap string attribute)
  : M unit :=
  w ← get_world;
  emit (EvPutItem table_name item);;
  match put_item E w table_name item with
  | Some e => raise e
  | None => ret tt
  end.

(** [upload_metadata]: both handlers return [False] *)
Definition upload_metadata (self : t) (h5_file_path : string) : M bool :=
  try_except
    (raw_metadata ← _extract_metadata E h5_file_path;
     if bool_decide (raw_metadata = ∅)
     then raise (Py.ValueError "No metadata extracted")
     else
       let processed_data := _process_metadata raw_metadata in
       if bool_decide (processed_data = ∅)
       then raise (Py.ValueError "Failed to process metadata")
       else
         let item := dynamodb_item processed_data in
         dynamodb_put_item TABLE_NAME item;;
         ret true)
    (fun e => ret false).

End WithEnv.

End MetadataHandler.

(* ===================================================================== *)
(** * [dataset_extraction_scripts/l1bconvertandupload.py] *)
(* ===================================================================== *)

Module INSAT3DProcessor.

Record t : Type := {
  input_path : string;
  output_bucket : string;
  max_workers : Z;
  filename : string;
  region : string;
  metadata_handler : MetadataHandler.t
}.

(** the settings that [__init__] writes into [os.environ] *)
Definition GDAL_ENVIRON : list (string * string) :=
  [("GDAL_DISABLE_READDIR_ON_OPEN", "EMPTY_DIR");
   ("VSI_CACHE", "TRUE");
   ("VSI_CACHE_SIZE", "5242880");
   ("GDAL_HTTP_TIMEOUT", "3600");
   ("CPL_VSIL_CURL_ALLOWED_EXTENSIONS", ".tif,.tiff,.h5");
   ("GDAL_CACHEMAX", "256");
   ("VSI_MALLOC_TRIM_THRESHOLD_BYTES", "5000000");
   ("GDAL_MAX_DATASET_POOL_SIZE", "256");
   ("CPL_VSIL_USE_TEMP_FILE_FOR_RANDOM_WRITE", "YES")].

(** [INSAT3DProcessor.__init__] *)
Definition __init__ (input_path output_bucket : string) (max_workers : Z) : M t :=
  let filename := Py.splitext_root (Py.basename input_path) in
  region ← os_environ_get "AWS_DEFAULT_REGION" "ap-south-1";
  Boto3.client region;;
  metadata_handler ← MetadataHandler.__init__ region;
  w ← get_world;
  set_environ (foldl (fun acc kv => <[kv.1 := kv.2]> acc) (environ w) GDAL_ENVIRON);;
  ret {| input_path := "/vsis3/" ++ input_path;
         output_bucket := output_bucket;
         max_workers := max_workers;
         filename := filename;
         region := region;
         metadata_handler := metadata_handler |}.

(** the body of the loop of [_get_subdatasets] for one line: [Ok None] when
    the line is passed over, a fault when an index is out of range *)
Definition subdataset_of_line (line : string) : result (option (string * string)) :=
  if Py.contains "SUBDATASET" line && Py.contains "NAME" line
     && Py.contains "://IMG_" line
  then match Py.split "=" line !! 1%nat with
       | None => Raise (Py.IndexError "list index out of range")
       | Some field =>
           let path := Py.strip field in
           match Py.split "://IMG_" path !! 1%nat with
           | None => Raise (Py.IndexError "list index out of range")
           | Some rest =>
               let band_name := List.hd EmptyString (Py.split Py.dquote rest) in
               Ok (Some (band_name, Py.strip_chars Py.dquote path))
           end
       end
  else Ok None.

(** the loop of [_get_subdatasets] over [output.splitlines()] *)
Definition parse_subdatasets (output : string) : result (gmap string string) :=
  foldl (fun acc line =>
           match acc with
           | Raise e => Raise e
           | Ok subdatasets =>
               match subdataset_of_line line with
               | Raise e => Raise e
               | Ok None => Ok subdatasets
               | Ok (Some (band_name, path)) => Ok (<[band_name := path]> subdatasets)
               end
           end)
        (Ok ∅) (Py.splitlines output).

(** the arguments of [gdal_translate] for one band *)
Definition translate_cmd (gdal_translate_path subdataset_path temp_file : string)
  : list string :=
  [gdal_translate_path;
   "-of"; "COG";
   "-co"; "TILED=YES";
   "-co"; "BLOCKXSIZE=256";
   "-co"; "BLOCKYSIZE=256";
   "-co"; "COMPRESS=DEFLATE";
   "-co"; "NUM_THREADS=ALL_CPUS";
   "--config"; "GDAL_CACHEMAX"; "256";
   subdataset_path;
   temp_file].

Definition temp_file (band_name : string) : string :=
  "/tmp/" ++ band_name ++ "_cog.tiff".

Definition s3_key (self : t) (band_name : string) : string :=
  filename self ++ "/" ++ band_name ++ "_cog.tiff".

(** [if result := future.result()]: a location that is not the empty text *)
Definition location_of (r : result (option string)) : option string :=
  match r with
  | Ok (Some result) => if String.eqb result EmptyString then None else Some result
  | Ok None => None
  | Raise _ => None
  end.

(** the loop of [process] over the completed futures *)
Definition collect (futures : list (string * result (option string))) : Py.dict :=
  foldl (fun results bf =>
           let '(band, future) := bf in
           match location_of future with
           | Some result => Py.setitem results band result
           | None => results
           end) Py.dict_empty futures.

(** [concurrent.futures.ThreadPoolExecutor(max_workers=max_workers)] *)
Definition ThreadPoolExecutor (max_workers : Z) : M unit :=
  if (max_workers <=? 0)%Z
  then raise (Py.ValueError "max_workers must be greater than 0")
  else ret tt.

Section WithEnv.
Context (E : env).

(** [_run_command] *)
Definition _run_command (command : list string) (timeout : N) : M (bool * string) :=
  b ← start E command;
  match Subprocess.run command true (Some timeout) b with
  | Ok result => ret (true, Subprocess.stdout result)
  | Raise (Py.TimeoutExpired _ _) => ret (false, "Timeout")
  | Raise (Py.CalledProcessError _ _ _ e_stderr) => ret (false, e_stderr)
  | Raise e => raise e
  end.

(** the tool at its system path, or else below [LAMBDA_TASK_ROOT] *)
Definition tool_path (name : string) : M string :=
  os_path_exists ("/usr/bin/" ++ name) ≫= fun found : bool =>
  if found then ret ("/usr/bin/" ++ name)
  else root ← os_environ_get "LAMBDA_TASK_ROOT" "";
       ret (root ++ "/miniconda3/bin/" ++ name).

(** [_get_subdatasets] *)
Definition _get_subdatasets (self : t) : M (gmap string string) :=
  try_except
    (gdalinfo_path ← tool_path "gdalinfo";
     '(success, output) ← _run_command [gdalinfo_path; input_path self] 600;
     if negb success then ret ∅
     else lift (parse_subdatasets output))
    (fun e => ret ∅).

(** [self.s3_client.upload_file(file, bucket, key, ExtraArgs={'ACL': acl})] *)
Definition s3_upload_file (file bucket key acl : string) : M unit :=
  w ← get_world;
  emit (EvUploadFile file bucket key acl);;
  match upload_file E w file bucket key with
  | Some e => raise e
  | None => ret tt
  end.

(** [process_band] *)
Definition process_band (self : t) (band_info : string * string) : M (option string) :=
  let '(band_name, subdataset_path) := band_info in
  let temp_file := temp_file band_name in
  let s3_key := s3_key self band_name in
  try_finally
    (try_except
       (gdal_translate_path ← tool_path "gdal_translate";
        '(success, _) ← _run_command
                          (translate_cmd gdal_translate_path subdataset_path temp_file) 600;
        if negb success then ret None
        else
          s3_upload_file temp_file (output_bucket self) s3_key
                         "bucket-owner-full-control";;
          ret (Some ("s3://" ++ output_bucket self ++ "/" ++ s3_key)))
       (fun e => ret None))
    (os_path_exists temp_file ≫= fun found : bool =>
     if found then os_remove E temp_file else ret tt).

(** a submitted unit of work run to its end: its outcome is kept in the
    future, a fault is not raised here but by [future.result()] *)
Definition future {A} (m : M A) : M (result A) :=
  fun w => let '(r, w') := m w in (Ok r, w').

(** The pool at work.  [completion] is the order in which the submitted
    conversions finish, an arrangement of the discovered bands that the
    scheduler is free to choose; the conversions are run one after the
    other in that order, each to its end, and the futures are returned as
    [as_completed] yields them. *)
Fixpoint as_completed (self : t) (subdatasets : gmap string string)
    (completion : list string) : M (list (string * result (option string))) :=
  match completion with
  | [] => ret []
  | band :: rest =>
      match subdatasets !! band with
      | None => as_completed self subdatasets rest
      | Some path =>
          f ← future (process_band self (band, path));
          fs ← as_completed self subdatasets rest;
          ret ((band, f) :: fs)
      end
  end.

(** [process] *)
Definition process (self : t) (completion : list string) : M Py.dict :=
  (* Handle metadata first *)
  MetadataHandler.upload_metadata E (metadata_handler self) (input_path self);;
  subdatasets ← _get_subdatasets self;
  if bool_decide (subdatasets = ∅) then ret Py.dict_empty
  else
    ThreadPoolExecutor (max_workers self);;
    futures ← as_completed self subdatasets completion;
    ret (collect futures).

End WithEnv.

End INSAT3DProcessor.

(* ===================================================================== *)
(** * The two entry points *)
(* ===================================================================== *)

(** The dictionary passed to [json.dumps] for the body of a response; the
    elapsed time that [process_file] adds to its body is left out. *)
Inductive body : Type :=
| Processed (message : string) (processed_bands : list string)
| Handled (metadata_processed : bool) (files_processed : list string)
| Failed (error : string).

Record response : Type := { statusCode : Z; response_body : body }.

(** [event['Records'][0]['s3'][what][field]] *)
Definition event_field (event : Py.value) (what field : string) : result Py.value :=
  match Py.getitem event "Records" with
  | Raise e => Raise e
  | Ok records =>
      match Py.getitem0 records with
      | Raise e => Raise e
      | Ok record =>
          match Py.getitem record "s3" with
          | Raise e => Raise e
          | Ok s3 =>
              match Py.getitem s3 what with
              | Raise e => Raise e
              | Ok x => Py.getitem x field
              end
          end
      end
  end.

(** [not results] *)
Definition is_empty (results : Py.dict) : bool :=
  bool_decide (Py.entries results = ∅).

(** [list(results.keys())]: the keys in the order of their insertion *)
Definition keys (results : Py.dict) : list string := Py.order results.

Section WithEnv.
Context (E : env).

(** [process_file] of [l1bconvertandupload.py].  [completion] is the
    scheduler's choice in [INSAT3DProcessor.process]. *)
Definition process_file (event : Py.value) (completion : list string) : M response :=
  try_except
    (source_bucket ← lift (event_field event "bucket" "name");
     source_key ← lift (event_field event "object" "key");
     destination_bucket ← os_environ_getitem "DESTINATION_BUCKET";
     let input_path := Py.str source_bucket ++ "/" ++ Py.str source_key in
     processor ← INSAT3DProcessor.__init__ input_path destination_bucket 10;
     results ← INSAT3DProcessor.process E processor completion;
     if is_empty results
     then raise (Py.Exception "No output files generated")
     else ret {| statusCode := 200;
                 response_body :=
                   Processed "Processing completed successfully" (keys results) |})
    (fun e => ret {| statusCode := 500; response_body := Failed (Py.str_exn e) |}).

End WithEnv.

(** ** [app.py] *)

Module App.

Section WithEnv.
Context (E : env).

(** [lambda_handler] *)
Definition lambda_handler (event : Py.value) (completion : list string) : M response :=
  try_except
    (region ← os_environ_get "AWS_DEFAULT_REGION" "ap-south-1";
     metadata_handler ← MetadataHandler.__init__ region;
     bucket ← lift (event_field event "bucket" "name");
     key ← lift (event_field event "object" "key");
     let file_path := "/vsis3/" ++ Py.str bucket ++ "/" ++ Py.str key in
     (* Process metadata *)
     metadata_success ← MetadataHandler.upload_metadata E metadata_handler file_path;
     destination_bucket ← os_environ_get "DESTINATION_BUCKET" "final-cog";
     processor ← INSAT3DProcessor.__init__
                   (Py.str bucket ++ "/" ++ Py.str key) destination_bucket 5;
     results ← INSAT3DProcessor.process E processor completion;
     ret {| statusCode := 200;
            response_body :=
              Handled metadata_success
                      (if is_empty results then [] else keys results) |})
    (fun e => ret {| statusCode := 500; response_body := Failed (Py.str_exn e) |}).

End WithEnv.

End App.

(* ===================================================================== *)
(** * Vocabulary of the statements *)
(* ===================================================================== *)

(** ** Traces *)

(** the world with one more outside call on record *)
Definition add_event (w : world) (e : event) : world :=
  {| fs := fs w; environ := environ w; events := events w ++ [e] |}.

(** the world after the metadata tool has run on [path] *)
Definition after_extract (E : env) (path : string) (w : world) : world :=
  {| fs := (spawn E w ["gdalinfo"; "-json"; path]).2;
     environ := environ w;
     events := events w ++ [EvRun ["gdalinfo"; "-json"; path]] |}.

(** the items sent to the key-value store, in order *)
Definition items_sent (evs : list event) : list (string * gmap string attribute) :=
  omap (fun e => match e with
                 | EvPutItem table_name item => Some (table_name, item)
                 | _ => None
                 end) evs.

(** the commands started, in order *)
Definition commands_run (evs : list event) : list (list string) :=
  omap (fun e => match e with EvRun cmd => Some cmd | _ => None end) evs.

(** ** Commands *)




(** ** Metadata *)

(** the processed mapping of the metadata that [upload_metadata] extracts
    from the file at [path] *)
Definition processed_data (E : env) (path : string) (w : world)
  : gmap string Py.value :=
  match (MetadataHandler._extract_metadata E path w).1 with
  | Ok raw => MetadataHandler._process_metadata raw
  | Raise _ => ∅
  end.

(** the mapping that [_process_metadata] has built when its last loop
    starts: the required fields that are present, as text, and the
    acquisition timestamp *)
Definition before_remaining (raw_metadata : gmap string Py.value)
  : gmap string Py.value :=
  let processed :=
    foldl (fun processed field =>
             match raw_metadata !! field with
             | Some v => <[field := Py.VStr (Py.str v)]> processed
             | None => processed
             end) (∅ : gmap string Py.value) MetadataHandler.REQUIRED_FIELDS in
  let date_str := default (Py.VStr "") (raw_metadata !! "Acquisition_Date") in
  let time_str := default (Py.VStr "") (raw_metadata !! "Acquisition_Time_in_GMT") in
  if Py.truthy date_str && Py.truthy time_str
  then <["acquisition_timestamp" :=
           Py.VStr (Py.str date_str ++ "T" ++ Py.str time_str ++ "Z")]> processed
  else processed.

(** Normalisation as the specification words it: "all other scalar values
    are stringified except that a single-element list is unwrapped to its
    sole element, and numeric/float values are passed through as numbers". *)
Definition stated_value (v : Py.value) : Py.value :=
  match v with
  | Py.VList [x] => x
  | Py.VInt _ | Py.VFloat _ => v
  | _ => Py.VStr (Py.str v)
  end.

(** the values the sentence speaks of *)
Definition stated_scope (v : Py.value) : bool :=
  match v with
  | Py.VList [_] => true
  | Py.VList _ | Py.VDict _ => false
  | _ => true
  end.

(** the sentence, for one raw mapping *)
Definition normalisation_as_stated (raw : gmap string Py.value) : Prop :=
  forall k v, raw !! k = Some v -> stated_scope v = true ->
    MetadataHandler._process_metadata raw !! k = Some (stated_value v).

(** the timestamp sentence, for every raw mapping *)
Definition timestamp_as_stated (raw : gmap string Py.value) : Prop :=
  forall d t,
    raw !! "Acquisition_Date" = Some d ->
    raw !! "Acquisition_Time_in_GMT" = Some t ->
    Py.truthy d = true -> Py.truthy t = true ->
    MetadataHandler._process_metadata raw !! "acquisition_timestamp"
    = Some (Py.VStr (Py.str d ++ "T" ++ Py.str t ++ "Z")).

(** ** Converter and orchestrator *)

(** the clean-up of [process_band] *)
Definition cleanup (E : env) (temp_file : string) : M unit :=
  os_path_exists temp_file ≫= fun found : bool =>
  if found then os_remove E temp_file else ret tt.

(** the part of [process_band] inside [try ... except]; it returns in
    every case *)
Definition convert_and_upload (E : env) (self : INSAT3DProcessor.t)
    (band_name subdataset_path : string) : M (option string) :=
  try_except
    (gdal_translate_path ← INSAT3DProcessor.tool_path "gdal_translate";
     '(success, _) ← INSAT3DProcessor._run_command E
                       (INSAT3DProcessor.translate_cmd gdal_translate_path
                          subdataset_path (INSAT3DProcessor.temp_file band_name)) 600;
     if negb success then ret None
     else
       INSAT3DProcessor.s3_upload_file E (INSAT3DProcessor.temp_file band_name)
         (INSAT3DProcessor.output_bucket self)
         (INSAT3DProcessor.s3_key self band_name) "bucket-owner-full-control";;
       ret (Some ("s3://" ++ INSAT3DProcessor.output_bucket self ++ "/"
                    ++ INSAT3DProcessor.s3_key self band_name)))
    (fun e => ret None).

(** the first two steps of [process]: metadata, then discovery *)
Definition discover (E : env) (self : INSAT3DProcessor.t)
  : M (gmap string string) :=
  MetadataHandler.upload_metadata E (INSAT3DProcessor.metadata_handler self)
    (INSAT3DProcessor.input_path self);;
  INSAT3DProcessor._get_subdatasets E self.

(** the discovered bands, in the order in which the map lists them; the
    pool completes them in an arrangement of its own *)
Definition bands_of (subdatasets : gmap string string) : list string :=
  (map_to_list subdatasets).*1.

(** the loop of [process] over the completed futures, from any dictionary *)
Definition collect_from (init : Py.dict)
    (futures : list (string * result (option string))) : Py.dict :=
  foldl (fun results bf =>
           let '(band, future) := bf in
           match INSAT3DProcessor.location_of future with
           | Some result => Py.setitem results band result
           | None => results
           end) init futures.

(** the keys of a dictionary are listed once each *)
Definition well_formed (d : Py.dict) : Prop :=
  NoDup (Py.order d) /\ forall k, k ∈ Py.order d <-> is_Some (Py.entries d !! k).

(** the future holds a location that is kept *)
Definition kept (bf : string * result (option string)) : Prop :=
  is_Some (INSAT3DProcessor.location_of bf.2).

(** one step of the loop of [process] over the completed futures, on the
    entries *)
Definition collect_step (results : gmap string string)
    (bf : string * result (option string)) : gmap string string :=
  let '(band, future) := bf in
  match INSAT3DProcessor.location_of future with
  | Some result => <[band := result]> results
  | None => results
  end.

(** the entry of band [Y] after the loop, from the entry before it: only
    the futures of [Y] itself are looked at *)
Definition entry_of (Y : string) (futures : list (string * result (option string)))
    (before : option string) : option string :=
  foldl (fun acc bf =>
           if String.eqb bf.1 Y
           then match INSAT3DProcessor.location_of bf.2 with
                | Some result => Some result
                | None => acc
                end
           else acc) before futures.

(** the converter gave no location: it returned [None] or raised *)
Definition failed (bf : string * result (option string)) : bool :=
  match bf.2 with
  | Ok (Some _) => false
  | _ => true
  end.

(** the futures of a run in which the conversion of band [X] ends with
    [r] instead *)
Definition with_outcome (X : string) (r : result (option string))
    (futures : list (string * result (option string)))
  : list (string * result (option string)) :=
  List.map (fun bf => if String.eqb bf.1 X then (bf.1, r) else bf) futures.

(** ** Text *)

(** some occurrence of [sep] in [a ++ rest] starts inside [a] *)
Fixpoint occurs_within (sep a rest : string) : bool :=
  match a with
  | EmptyString => false
  | String c a' => String.prefix sep (a ++ rest) || occurs_within sep a' rest
  end.

(* ===================================================================== *)
(** * Example inputs *)
(* ===================================================================== *)

(** ** Raw metadata *)

Definition raw_int_and_none : gmap string Py.value :=
  {[ "Gain" := Py.VInt 5; "Note" := Py.VNone ]}.

Definition raw_scenario : gmap string Py.value :=
  {[ "Acquisition_Date" := Py.VStr "20230101";
     "Acquisition_Time_in_GMT" := Py.VStr "0130" ]}.

Definition raw_own_timestamp : gmap string Py.value :=
  <["acquisition_timestamp" := Py.VStr "x"]> raw_scenario.

(** ** Environments *)

(** An environment given by what each command does and which files it
    leaves behind, with one decoded metadata report; the two stores accept
    everything and files can be removed. *)
Definition example_env
    (tool : list string -> Subprocess.behaviour)
    (created : list string -> gset string)
    (report : option (option (list (string * list (string * Py.value))))) : env :=
  {| spawn := fun w cmd => (tool cmd, fs w ∪ created cmd);
     json_loads := fun _ => report;
     put_item := fun _ _ _ => None;
     upload_file := fun _ _ _ _ => None;
     remove := fun _ _ => None |}.

Definition empty_world : world := {| fs := ∅; environ := ∅; events := [] |}.

Definition handler : MetadataHandler.t := {| MetadataHandler.region := "ap-south-1" |}.


(** a report that lacks the acquisition time *)
Definition report_without_time : list (string * list (string * Py.value)) :=
  [("", [("Unique_Id", Py.VStr "3DIMG_01JAN2023_0130_L1B");
         ("Acquisition_Date", Py.VStr "20230101")])].

Definition env_without_time : env :=
  example_env (fun _ => Subprocess.Runs 1 0 "{}" "") (fun _ => ∅)
              (Some (Some report_without_time)).

(** a report with the three required fields *)
Definition complete_report : list (string * list (string * Py.value)) :=
  [("", [("Unique_Id", Py.VStr "3DIMG_01JAN2023_0130_L1B");
         ("Acquisition_Date", Py.VStr "20230101");
         ("Acquisition_Time_in_GMT", Py.VStr "0130")])].

(** ** What the inspection tool prints *)

Definition source_path : string := "/vsis3/src/3DIMG_01JAN2023_0130_L1B_STD.h5".

(** what the inspection tool prints for the file at [path] with the bands
    [bands]: for each band its name line and its description line *)
Definition subdataset_lines (path : string) (n : nat) (band : string) : string :=
  "  SUBDATASET_" ++ pretty n ++ "_NAME=HDF5:" ++ Py.dquote ++ path
    ++ Py.dquote ++ "://IMG_" ++ band ++ Py.newline
  ++ "  SUBDATASET_" ++ pretty n ++ "_DESC=[1x2816x2805] //IMG_" ++ band
    ++ " (16-bit unsigned integer)" ++ Py.newline.

Definition inspection_output (path : string) (bands : list string) : string :=
  "Driver: HDF5/Hierarchical Data Format Release 5" ++ Py.newline
  ++ "Subdatasets:" ++ Py.newline
  ++ String.concat "" (imap (fun i band => subdataset_lines path (S i) band) bands).

(** the two lines of the scenario of the specification *)
Definition scenario_output : string :=
  "SUBDATASET_1_NAME=HDF5:" ++ Py.dquote ++ "f.h5" ++ Py.dquote ++ "://IMG_VIS"
    ++ Py.newline
  ++ "SUBDATASET_2_NAME=HDF5:" ++ Py.dquote ++ "f.h5" ++ Py.dquote ++ "://IMG_SWIR"
    ++ Py.newline.

(** ** A source file with twelve bands

    The inspection tool lists twelve bands.  The conversion of [MIR] runs
    into the timeout, the upload of [WV] is refused, and the temporary file
    of [VIS_ALBEDO] cannot be removed; every conversion leaves its
    temporary file behind. *)

Definition twelve_bands : list string :=
  ["VIS"; "SWIR"; "MIR"; "TIR1"; "TIR2"; "WV";
   "VIS_RADIANCE"; "VIS_ALBEDO"; "SWIR_RADIANCE"; "MIR_RADIANCE"; "MIR_TEMP";
   "WV_RADIANCE"].

(** the three tools: metadata report, inspection, conversion *)
Definition twelve_tool (cmd : list string) : Subprocess.behaviour :=
  match cmd with
  | [_; "-json"; _] => Subprocess.Runs 3 0 "{}" ""
  | [_; path] => Subprocess.Runs 4 0 (inspection_output path twelve_bands) ""
  | _ =>
      if bool_decide (List.last cmd "" = "/tmp/MIR_cog.tiff")
      then Subprocess.Runs 900 0 "" ""
      else Subprocess.Runs 20 0 "Input file size is 2805, 2816" ""
  end.

(** a conversion leaves its output file, the last argument, on the disk *)
Definition twelve_created (cmd : list string) : gset string :=
  match cmd with
  | [_; _; _] | [_; _] => ∅
  | _ => {[ List.last cmd "" ]}
  end.

Definition twelve_env : env :=
  {| spawn := fun w cmd => (twelve_tool cmd, fs w ∪ twelve_created cmd);
     json_loads := fun _ => Some (Some report_without_time);
     put_item := fun _ _ _ => None;
     upload_file := fun _ file _ _ =>
       if bool_decide (file = "/tmp/WV_cog.tiff")
       then Some (Py.ClientError "AccessDenied") else None;
     remove := fun _ path =>
       if bool_decide (path = "/tmp/VIS_ALBEDO_cog.tiff")
       then Some (Py.OSError "Permission denied") else None |}.

Definition twelve_self : INSAT3DProcessor.t :=
  {| INSAT3DProcessor.input_path := source_path;
     INSAT3DProcessor.output_bucket := "final-cog";
     INSAT3DProcessor.max_workers := 5;
     INSAT3DProcessor.filename := "3DIMG_01JAN2023_0130_L1B_STD";
     INSAT3DProcessor.region := "ap-south-1";
     INSAT3DProcessor.metadata_handler := handler |}.

(** the discovered mapping of that run, and the world after discovery *)
Definition twelve_discovered : gmap string string * world :=
  match discover twelve_env twelve_self empty_world with
  | (Ok sds, w2) => (sds, w2)
  | (Raise _, w2) => (∅, w2)
  end.

(** the pool completes the conversions in the reverse of the order in
    which the mapping lists its bands *)
Definition twelve_completion : list string := reverse (bands_of twelve_discovered.1).

Definition twelve_futures : list (string * result (option string)) * world :=
  match INSAT3DProcessor.as_completed twelve_env twelve_self twelve_discovered.1
          twelve_completion twelve_discovered.2 with
  | (Ok futures, w3) => (futures, w3)
  | (Raise _, w3) => ([], w3)
  end.

(** ** A trigger event and small source files *)

(** the notification of one object change *)
Definition s3_event (bucket key : string) : Py.value :=
  Py.VDict
    [("Records",
      Py.VList
        [Py.VDict
           [("s3", Py.VDict [("bucket", Py.VDict [("name", Py.VStr bucket)]);
                             ("object", Py.VDict [("key", Py.VStr key)])])]])].

Definition trigger : Py.value := s3_event "src" "3DIMG_01JAN2023_0130_L1B_STD.h5".

Definition lambda_world : world :=
  {| fs := ∅; environ := {[ "DESTINATION_BUCKET" := "final-cog" ]}; events := [] |}.

(** The inspection tool lists [bands] for the path it is given; every
    conversion exits with [status] and leaves its temporary file behind; the
    report of the metadata tool is complete; both stores accept everything. *)
Definition small_env (bands : list string) (status : Z) : env :=
  example_env
    (fun cmd => match cmd with
                | [_; "-json"; _] => Subprocess.Runs 3 0 "{}" ""
                | [_; path] => Subprocess.Runs 4 0 (inspection_output path bands) ""
                | _ => Subprocess.Runs 20 status "" "ERROR 4: not recognized"
                end)
    twelve_created
    (Some (Some complete_report)).

(** the processor for the object [date=20230101/3DIMG_0130.h5] of the
    bucket [src] *)
Definition partitioned_self : INSAT3DProcessor.t :=
  {| INSAT3DProcessor.input_path := "/vsis3/src/date=20230101/3DIMG_0130.h5";
     INSAT3DProcessor.output_bucket := "final-cog";
     INSAT3DProcessor.max_workers := 5;
     INSAT3DProcessor.filename := "3DIMG_0130";
     INSAT3DProcessor.region := "ap-south-1";
     INSAT3DProcessor.metadata_handler := handler |}.

(** the processor for the object [date-20230101/3DIMG_0130.h5] *)
Definition unpartitioned_self : INSAT3DProcessor.t :=
  {| INSAT3DProcessor.input_path := "/vsis3/src/date-20230101/3DIMG_0130.h5";
     INSAT3DProcessor.output_bucket := "final-cog";
     INSAT3DProcessor.max_workers := 5;
     INSAT3DProcessor.filename := "3DIMG_0130";
     INSAT3DProcessor.region := "ap-south-1";
     INSAT3DProcessor.metadata_handler := handler |}.

(* ===================================================================== *)
(** * Vocabulary of the further properties *)
(* ===================================================================== *)

(** ** Outside calls of one step *)

(** the path at which the tool [name] is looked for in the world [w] *)
Definition resolved_tool (name : string) (w : world) : string :=
  if bool_decide ("/usr/bin/" ++ name ∈ fs w) then "/usr/bin/" ++ name
  else default "" (environ w !! "LAMBDA_TASK_ROOT") ++ "/miniconda3/bin/" ++ name.

(** the world after the command [cmd] has been run *)
Definition after_run (E : env) (cmd : list string) (w : world) : world :=
  {| fs := (spawn E w cmd).2;
     environ := environ w;
     events := events w ++ [EvRun cmd] |}.

(** the command exits within [timeout] seconds with code zero, and what it
    has written is text *)
Definition succeeds (b : Subprocess.behaviour) (timeout : N) : bool :=
  match b with
  | Subprocess.Runs d rc _ _ => negb (timeout <? d)%N && (rc =? 0)%Z
  | Subprocess.CannotStart _ | Subprocess.Undecodable _ _ _ => false
  end.

(** the uploads to the object store, in order *)
Definition uploads (evs : list event) : list (string * string * string * string) :=
  omap (fun e => match e with
                 | EvUploadFile file bucket key acl => Some (file, bucket, key, acl)
                 | _ => None
                 end) evs.

(** the upload that [process_band] makes for a band *)
Definition upload_of (self : INSAT3DProcessor.t) (band : string)
  : string * string * string * string :=
  (INSAT3DProcessor.temp_file band, INSAT3DProcessor.output_bucket self,
   INSAT3DProcessor.s3_key self band, "bucket-owner-full-control").

(** the address that [process_band] returns for a band *)
Definition location (self : INSAT3DProcessor.t) (band : string) : string :=
  "s3://" ++ INSAT3DProcessor.output_bucket self ++ "/"
    ++ INSAT3DProcessor.s3_key self band.

(** the inspection command of a processor in the world [w] *)
Definition inspection_cmd (self : INSAT3DProcessor.t) (w : world) : list string :=
  [resolved_tool "gdalinfo" w; INSAT3DProcessor.input_path self].

(** the conversion command of a band in the world [w] *)
Definition conversion_cmd (band path : string) (w : world) : list string :=
  INSAT3DProcessor.translate_cmd (resolved_tool "gdal_translate" w) path
    (INSAT3DProcessor.temp_file band).

(** the loop of [_get_subdatasets] over lines already split *)
Definition parse_lines (lines : list string) : result (gmap string string) :=
  foldl (fun acc line =>
           match acc with
           | Raise e => Raise e
           | Ok subdatasets =>
               match INSAT3DProcessor.subdataset_of_line line with
               | Raise e => Raise e
               | Ok None => Ok subdatasets
               | Ok (Some (band_name, path)) => Ok (<[band_name := path]> subdatasets)
               end
           end)
        (Ok ∅) lines.

(** the metadata tool gives nothing to decode: it cannot be started, exits
    with another code than zero, or prints what is not text, or a text
    that is not JSON or has no [metadata] member *)
Definition extraction_fails (E : env) (b : Subprocess.behaviour) : bool :=
  match b with
  | Subprocess.CannotStart _ | Subprocess.Undecodable _ _ _ => true
  | Subprocess.Runs _ rc out _ =>
      negb (rc =? 0)%Z
      || match json_loads E out with
         | Some (Some _) => false
         | _ => true
         end
  end.

(** an environment in which only the metadata tool can be started *)
Definition no_tools_env : env :=
  example_env
    (fun cmd => match cmd with
                | [_; "-json"; _] => Subprocess.Runs 3 0 "{}" ""
                | _ => Subprocess.CannotStart
                         (Subprocess.StartOSError "[Errno 2] No such file or directory")
                end)
    (fun _ => ∅)
    (Some (Some complete_report)).

(** an environment in which every tool exits at once with code zero and
    the store refuses every item *)
Definition refusing_env : env :=
  {| spawn := fun w cmd => (Subprocess.Runs 3 0 "{}" "", fs w);
     json_loads := fun _ => Some (Some complete_report);
     put_item := fun _ _ _ => Some (Py.ClientError "ProvisionedThroughputExceeded");
     upload_file := fun _ _ _ _ => None;
     remove := fun _ _ => None |}.

Definition no_metadata_env : env :=
  example_env (fun _ => Subprocess.Runs 3 1 "" "ERROR 4: No such file") (fun _ => ∅)
              (Some (Some complete_report)).

(** a processor whose pool has no room for a worker *)
Definition idle_self : INSAT3DProcessor.t :=
  {| INSAT3DProcessor.input_path := source_path;
     INSAT3DProcessor.output_bucket := "final-cog";
     INSAT3DProcessor.max_workers := 0;
     INSAT3DProcessor.filename := "3DIMG_01JAN2023_0130_L1B_STD";
     INSAT3DProcessor.region := "ap-south-1";
     INSAT3DProcessor.metadata_handler := handler |}.

(** the line [line] of [lines] names the band and no later line does *)
Definition last_declaration (lines : list string) (band path : string) : Prop :=
  exists before line after,
    lines = (before ++ line :: after)%list
    /\ INSAT3DProcessor.subdataset_of_line line = Ok (Some (band, path))
    /\ forall l p, l ∈ after ->
         INSAT3DProcessor.subdataset_of_line l <> Ok (Some (band, p)).

(** what the inspection tool would print if it listed the band [VIS] twice *)
Definition duplicate_output : string :=
  "SUBDATASET_1_NAME=HDF5:" ++ Py.dquote ++ "a.h5" ++ Py.dquote ++ "://IMG_VIS"
    ++ Py.newline
  ++ "SUBDATASET_2_NAME=HDF5:" ++ Py.dquote ++ "b.h5" ++ Py.dquote ++ "://IMG_VIS"
    ++ Py.newline.

(* ===================================================================== *)
(** * Properties *)
(* ===================================================================== *)

(** Unfolding of the computation monad. *)
Ltac unfold_M :=
  unfold mbind, mret, M_bind, M_ret, bind, ret, raise, lift, try_except,
    try_finally, get_world, emit, set_fs, set_environ, os_path_exists,
    os_environ_get, os_environ_getitem in *.

(** ** The external tool invoker *)

Lemma start_spec E cmd w :
  start E cmd w =
    (Ok (spawn E w cmd).1,
     {| fs := (spawn E w cmd).2; environ := environ w;
        events := events w ++ [EvRun cmd] |}).
Proof. unfold start. unfold_M. destruct (spawn E w cmd) as [b d]. reflexivity. Qed.




(** ** Metadata: extraction and upload *)

(** Extraction returns a mapping in every case and starts the tool once. *)
Lemma extract_metadata_total E path w :
  exists raw, MetadataHandler._extract_metadata E path w = (Ok raw, after_extract E path w).
Proof.
  unfold MetadataHandler._extract_metadata, after_extract.
  unfold mbind, M_bind, bind. rewrite start_spec. cbn [fst snd].
  destruct (Subprocess.run _ _ _ _) as [r|e]; [|eexists; reflexivity].
  destruct (json_loads E _) as [[d|]|]; eexists; reflexivity.
Qed.

(** The whole of [upload_metadata] in one equation: nothing is sent to the
    store when either mapping is empty, and otherwise one item is sent, the
    tagged image of the processed mapping. *)
Lemma upload_metadata_unfold E self path w raw :
  MetadataHandler._extract_metadata E path w = (Ok raw, after_extract E path w) ->
  MetadataHandler.upload_metadata E self path w =
    let w1 := after_extract E path w in
    let processed := MetadataHandler._process_metadata raw in
    let item := MetadataHandler.dynamodb_item processed in
    if bool_decide (raw = ∅) || bool_decide (processed = ∅)
    then (Ok false, w1)
    else (Ok (bool_decide (put_item E w1 MetadataHandler.TABLE_NAME item = None)),
          add_event w1 (EvPutItem MetadataHandler.TABLE_NAME item)).
Proof.
  intros Hx. unfold MetadataHandler.upload_metadata, MetadataHandler.dynamodb_put_item.
  unfold try_except, mbind, M_bind, bind. rewrite Hx. cbn zeta.
  destruct (bool_decide (raw = ∅)); [reflexivity|].
  destruct (bool_decide (MetadataHandler._process_metadata raw = ∅)); [reflexivity|].
  cbn. unfold_M. cbn.
  destruct (put_item E _ _ _); reflexivity.
Qed.

(** [upload_metadata] never raises. *)
Lemma upload_metadata_returns E self path w :
  exists ok, (MetadataHandler.upload_metadata E self path w).1 = Ok ok.
Proof.
  destruct (extract_metadata_total E path w) as [raw Hx].
  rewrite (upload_metadata_unfold _ _ _ _ _ Hx). cbn zeta.
  destruct (_ || _); eexists; reflexivity.
Qed.

(** One call of [upload_metadata] starts the metadata tool once and sends
    at most one item to the store, after the tool has run. *)
Lemma upload_metadata_events E self path w :
  exists tail,
    events (MetadataHandler.upload_metadata E self path w).2
    = (events w ++ EvRun ["gdalinfo"; "-json"; path] :: tail)%list
    /\ (tail = [] \/ exists item, tail = [EvPutItem MetadataHandler.TABLE_NAME item]).
Proof.
  destruct (extract_metadata_total E path w) as [raw Hx].
  rewrite (upload_metadata_unfold _ _ _ _ _ Hx). cbn zeta.
  destruct (_ || _); cbn [snd].
  - exists []. split; [reflexivity | by left].
  - eexists [_]. unfold add_event, after_extract. cbn [events].
    rewrite <- app_assoc. split; [reflexivity | right; eauto].
Qed.

(** With an empty extraction, or an empty processed mapping, nothing is
    sent to the store and the upload reports failure. *)
Lemma upload_metadata_nothing_extracted E self path w raw :
  MetadataHandler._extract_metadata E path w = (Ok raw, after_extract E path w) ->
  raw = ∅ \/ MetadataHandler._process_metadata raw = ∅ ->
  (MetadataHandler.upload_metadata E self path w).1 = Ok false
  /\ items_sent (events (MetadataHandler.upload_metadata E self path w).2)
     = items_sent (events w).
Proof.
  intros Hx Hempty. rewrite (upload_metadata_unfold _ _ _ _ _ Hx). cbn zeta.
  assert (Hb : bool_decide (raw = ∅)
               || bool_decide (MetadataHandler._process_metadata raw = ∅) = true).
  { destruct Hempty as [H|H]; rewrite (bool_decide_eq_true_2 _ H);
      [reflexivity | apply orb_true_r]. }
  rewrite Hb. cbn [fst snd]. split; [reflexivity|].
  unfold after_extract, items_sent. cbn [events].
  rewrite omap_app. cbn. apply app_nil_r.
Qed.

(** C2 at a report that has [Unique_Id] and [Acquisition_Date] but no
    [Acquisition_Time_in_GMT]: the upload reports success, and a record
    without the missing field has been sent to the store. *)
Theorem upload_metadata_missing_required_field :
  MetadataHandler.upload_metadata env_without_time handler "/vsis3/src/f.h5" empty_world
  = (Ok true,
     {| fs := ∅; environ := ∅;
        events :=
          [EvRun ["gdalinfo"; "-json"; "/vsis3/src/f.h5"];
           EvPutItem "Files"
             {[ "Unique_Id" := Attr S_ "3DIMG_01JAN2023_0130_L1B";
                "Acquisition_Date" := Attr S_ "20230101" ]}] |}).
Proof. vm_compute. reflexivity. Qed.

(** ** Metadata: normalisation *)

Lemma process_metadata_unfold raw :
  MetadataHandler._process_metadata raw =
    map_fold (fun key value processed =>
                match value with
                | Py.VNone => processed
                | _ => <[key := MetadataHandler.remaining_value value]> processed
                end) (before_remaining raw) raw.
Proof. reflexivity. Qed.

(** The last loop writes every key whose value is not [None], once, and
    leaves the other keys as they were. *)
Lemma remaining_fold_lookup (init raw : gmap string Py.value) (k : string) :
  map_fold (fun key value processed =>
              match value with
              | Py.VNone => processed
              | _ => <[key := MetadataHandler.remaining_value value]> processed
              end) init raw !! k
  = match raw !! k with
    | Some Py.VNone | None => init !! k
    | Some v => Some (MetadataHandler.remaining_value v)
    end.
Proof.
  revert k.
  apply (map_fold_weak_ind
           (fun r (m : gmap string Py.value) =>
              forall k, r !! k = match m !! k with
                                 | Some Py.VNone | None => init !! k
                                 | Some v => Some (MetadataHandler.remaining_value v)
                                 end)).
  - intros k. rewrite lookup_empty. reflexivity.
  - intros i x m r Hi IH k.
    destruct (decide (i = k)) as [->|Hne].
    + rewrite lookup_insert_eq.
      destruct x; rewrite ?lookup_insert_eq; try reflexivity.
      rewrite IH, Hi. reflexivity.
    + rewrite (lookup_insert_ne m) by done.
      destruct x; rewrite ?lookup_insert_ne by done; apply IH.
Qed.

Lemma process_metadata_lookup raw k :
  MetadataHandler._process_metadata raw !! k
  = match raw !! k with
    | Some Py.VNone | None => before_remaining raw !! k
    | Some v => Some (MetadataHandler.remaining_value v)
    end.
Proof. rewrite process_metadata_unfold. apply remaining_fold_lookup. Qed.

Lemma required_fold_lookup (raw : gmap string Py.value) (fields : list string)
    (init : gmap string Py.value) (k : string) :
  foldl (fun processed field =>
           match raw !! field with
           | Some v => <[field := Py.VStr (Py.str v)]> processed
           | None => processed
           end) init fields !! k
  = if bool_decide (k ∈ fields)
    then match raw !! k with
         | Some v => Some (Py.VStr (Py.str v))
         | None => init !! k
         end
    else init !! k.
Proof.
  revert init. induction fields as [|f fields IH]; intros init; cbn [foldl].
  - reflexivity.
  - rewrite IH. destruct (decide (k = f)) as [->|Hne].
    + rewrite (bool_decide_eq_true_2 (f ∈ f :: fields)) by apply list_elem_of_here.
      destruct (raw !! f) eqn:Hf.
      * destruct (bool_decide (f ∈ fields)); [reflexivity|].
        rewrite lookup_insert_eq. reflexivity.
      * destruct (bool_decide (f ∈ fields)); reflexivity.
    + assert (Hin : bool_decide (k ∈ f :: fields) = bool_decide (k ∈ fields)).
      { apply bool_decide_ext. rewrite elem_of_cons.
        split; [intros [?|?]; done | intros; by right]. }
      rewrite Hin.
      destruct (raw !! f); rewrite ?lookup_insert_ne by done; reflexivity.
Qed.

Lemma before_remaining_lookup raw k :
  before_remaining raw !! k
  = let date_str := default (Py.VStr "") (raw !! "Acquisition_Date") in
    let time_str := default (Py.VStr "") (raw !! "Acquisition_Time_in_GMT") in
    if bool_decide (k = "acquisition_timestamp")
       && (Py.truthy date_str && Py.truthy time_str)
    then Some (Py.VStr (Py.str date_str ++ "T" ++ Py.str time_str ++ "Z"))
    else if bool_decide (k ∈ MetadataHandler.REQUIRED_FIELDS)
         then Py.VStr ∘ Py.str <$> raw !! k
         else None.
Proof.
  unfold before_remaining. cbn zeta.
  destruct (Py.truthy _ && Py.truthy _) eqn:Ht.
  - destruct (decide (k = "acquisition_timestamp")) as [->|Hne].
    + rewrite lookup_insert_eq. reflexivity.
    + rewrite lookup_insert_ne by done.
      rewrite (bool_decide_eq_false_2 _ Hne). cbn [andb].
      rewrite required_fold_lookup, lookup_empty.
      destruct (bool_decide _); [destruct (raw !! k)|]; reflexivity.
  - rewrite andb_false_r. rewrite required_fold_lookup, lookup_empty.
    destruct (bool_decide _); [destruct (raw !! k)|]; reflexivity.
Qed.

(** The code on the example with an integer and a [None]: the integer is
    stored as text, the [None] entry is not stored at all. *)
Lemma process_metadata_int_and_none :
  MetadataHandler._process_metadata raw_int_and_none !! "Gain" = Some (Py.VStr "5")
  /\ MetadataHandler._process_metadata raw_int_and_none !! "Note" = None.
Proof. split; vm_compute; reflexivity. Qed.

(** C7, as stated, fails: an integer is a number and is stringified, and a
    [None] is a scalar that is neither stringified nor passed through. *)
Lemma normalisation_as_stated_fails :
  ~ normalisation_as_stated raw_int_and_none
  /\ ~ normalisation_as_stated {[ "Note" := Py.VNone ]}.
Proof.
  split; intros H.
  - specialize (H "Gain" (Py.VInt 5) eq_refl eq_refl).
    vm_compute in H. discriminate H.
  - specialize (H "Note" Py.VNone eq_refl eq_refl).
    vm_compute in H. discriminate H.
Qed.

(** C7, amended.  For every raw mapping and every entry of it: a
    single-element list is stored as its sole element; any other list and a
    float are stored unchanged; a string, an integer, a boolean and a nested
    mapping are stored as their text; an entry whose value is [None] is
    skipped by the last loop, so that its key holds what the earlier steps
    have put there: the text "None" if the key is a required field, the
    synthesized timestamp if the key is [acquisition_timestamp] and the
    date and the time pass the truth test, and nothing otherwise. *)
Theorem process_metadata_entry :
  forall (raw : gmap string Py.value) (k : string) (v : Py.value),
    raw !! k = Some v ->
    let date_str := default (Py.VStr "") (raw !! "Acquisition_Date") in
    let time_str := default (Py.VStr "") (raw !! "Acquisition_Time_in_GMT") in
    match v with
    | Py.VList [x] => MetadataHandler._process_metadata raw !! k = Some x
    | Py.VList _ | Py.VFloat _ =>
        MetadataHandler._process_metadata raw !! k = Some v
    | Py.VStr _ | Py.VInt _ | Py.VBool _ | Py.VDict _ =>
        MetadataHandler._process_metadata raw !! k = Some (Py.VStr (Py.str v))
    | Py.VNone =>
        MetadataHandler._process_metadata raw !! k
        = if bool_decide (k ∈ MetadataHandler.REQUIRED_FIELDS)
          then Some (Py.VStr "None")
          else if bool_decide (k = "acquisition_timestamp")
                  && (Py.truthy date_str && Py.truthy time_str)
               then Some (Py.VStr (Py.str date_str ++ "T" ++ Py.str time_str ++ "Z"))
               else None
    end.
Proof.
  intros raw k v Hk date_str time_str. rewrite process_metadata_lookup, Hk.
  destruct v as [| | | | |l|]; try reflexivity.
  - rewrite before_remaining_lookup. cbn zeta. fold date_str time_str.
    destruct (decide (k ∈ MetadataHandler.REQUIRED_FIELDS)) as [Hreq|Hreq].
    + assert (Hne : k <> "acquisition_timestamp").
      { intros ->. unfold MetadataHandler.REQUIRED_FIELDS in Hreq.
        repeat (apply elem_of_cons in Hreq as [Hreq|Hreq]; [discriminate Hreq|]).
        by apply elem_of_nil in Hreq. }
      rewrite (bool_decide_eq_false_2 _ Hne). cbn [andb].
      rewrite (bool_decide_eq_true_2 _ Hreq), Hk. reflexivity.
    + rewrite (bool_decide_eq_false_2 _ Hreq). reflexivity.
  - destruct l as [|x [|y l]]; reflexivity.
Qed.

Lemma process_metadata_entry_witness :
  MetadataHandler._process_metadata
    {[ "Scale" := Py.VList [Py.VFloat (Py.Float "0.5")] ]} !! "Scale"
  = Some (Py.VFloat (Py.Float "0.5"))
  /\ MetadataHandler._process_metadata
       (<["acquisition_timestamp" := Py.VNone]> raw_scenario) !! "acquisition_timestamp"
     = Some (Py.VStr "20230101T0130Z").
Proof.
  split.
  - apply (process_metadata_entry
             {[ "Scale" := Py.VList [Py.VFloat (Py.Float "0.5")] ]} "Scale"
             (Py.VList [Py.VFloat (Py.Float "0.5")])).
    reflexivity.
  - etransitivity.
    + apply (process_metadata_entry
               (<["acquisition_timestamp" := Py.VNone]> raw_scenario)
               "acquisition_timestamp" Py.VNone).
      reflexivity.
    + vm_compute. reflexivity.
Defined.

(** C9, as stated, fails: a raw field named [acquisition_timestamp] is
    written by the last loop over the synthesized one. *)
Lemma timestamp_as_stated_fails : ~ timestamp_as_stated raw_own_timestamp.
Proof.
  intros H.
  specialize (H (Py.VStr "20230101") (Py.VStr "0130") eq_refl eq_refl eq_refl eq_refl).
  vm_compute in H. discriminate H.
Qed.

(** C9, amended.  For every raw mapping in which the date field and the
    time field are present and pass the truth test (a text that is not
    empty), and which has no field of its own named
    [acquisition_timestamp] other than a [None] one, the processed record
    holds under [acquisition_timestamp] the text [{date}T{time}Z]. *)
Theorem acquisition_timestamp_synthesized :
  forall (raw : gmap string Py.value) (d t : Py.value),
    raw !! "Acquisition_Date" = Some d ->
    raw !! "Acquisition_Time_in_GMT" = Some t ->
    Py.truthy d = true -> Py.truthy t = true ->
    (raw !! "acquisition_timestamp" = None
     \/ raw !! "acquisition_timestamp" = Some Py.VNone) ->
    MetadataHandler._process_metadata raw !! "acquisition_timestamp"
    = Some (Py.VStr (Py.str d ++ "T" ++ Py.str t ++ "Z")).
Proof.
  intros raw d t Hd Ht Td Tt Hown.
  rewrite process_metadata_lookup.
  assert (Hb : before_remaining raw !! "acquisition_timestamp"
               = Some (Py.VStr (Py.str d ++ "T" ++ Py.str t ++ "Z"))).
  { rewrite before_remaining_lookup, Hd, Ht. cbn [from_option id]. cbn zeta.
    rewrite Td, Tt. reflexivity. }
  destruct Hown as [-> | ->]; exact Hb.
Qed.

Lemma acquisition_timestamp_scenario :
  MetadataHandler._process_metadata raw_scenario !! "acquisition_timestamp"
  = Some (Py.VStr "20230101T0130Z").
Proof.
  apply (acquisition_timestamp_synthesized raw_scenario
           (Py.VStr "20230101") (Py.VStr "0130"));
    [reflexivity | reflexivity | reflexivity | reflexivity | left; reflexivity].
Defined.

(** ** Metadata: the record that is written *)

Lemma process_metadata_of_empty : MetadataHandler._process_metadata ∅ = ∅.
Proof. vm_compute. reflexivity. Qed.

(** C10.  Whenever the processed mapping of the extracted metadata is not
    empty, [upload_metadata] writes one item to the table, after the run of
    the metadata tool, and for every key: the item has an attribute under
    the key exactly when the processed mapping has a value there; the
    attribute carries [str] of the value; its tag is ['S'] exactly when
    the value is a string and ['N'] exactly when it is not; there is no
    third tag. *)
Theorem dynamodb_item_tagging :
  forall (E : env) (self : MetadataHandler.t) (path : string) (w : world),
    processed_data E path w <> ∅ ->
    exists item : gmap string attribute,
      events (MetadataHandler.upload_metadata E self path w).2
      = (events w ++ [EvRun ["gdalinfo"; "-json"; path];
                      EvPutItem MetadataHandler.TABLE_NAME item])%list
      /\ forall k,
           match processed_data E path w !! k with
           | Some v =>
               exists a, item !! k = Some a
                         /\ text a = Py.str v
                         /\ (tag a = S_ <-> Py.is_str v = true)
                         /\ (tag a = N_ <-> Py.is_str v = false)
                         /\ (tag a = S_ \/ tag a = N_)
           | None => item !! k = None
           end.
Proof.
  intros E self path w. unfold processed_data.
  destruct (extract_metadata_total E path w) as [raw Hx].
  rewrite (upload_metadata_unfold _ _ _ _ _ Hx), Hx. cbn [fst]. cbn zeta. intros Hne.
  assert (Hraw : raw <> ∅).
  { intros ->. apply Hne, process_metadata_of_empty. }
  rewrite (bool_decide_eq_false_2 _ Hraw), (bool_decide_eq_false_2 _ Hne).
  cbn [orb snd]. eexists. split.
  - unfold add_event, after_extract. cbn [events]. by rewrite <- app_assoc.
  - intros k. unfold MetadataHandler.dynamodb_item. rewrite lookup_fmap.
    destruct (MetadataHandler._process_metadata raw !! k) as [v|]; [|reflexivity].
    cbn. eexists. split; [reflexivity|].
    destruct (Py.is_str v); cbn; repeat split; auto; discriminate.
Qed.

Lemma dynamodb_item_tagging_witness :
  exists item : gmap string attribute,
    events (MetadataHandler.upload_metadata (small_env ["VIS"] 0) handler source_path
              lambda_world).2
    = [EvRun ["gdalinfo"; "-json"; source_path];
       EvPutItem MetadataHandler.TABLE_NAME item]
    /\ item !! "Acquisition_Date" = Some (Attr S_ "20230101")
    /\ item !! "Gain" = None.
Proof.
  destruct (dynamodb_item_tagging (small_env ["VIS"] 0) handler source_path lambda_world)
    as (item & Hev & Htag).
  - intros H. apply (f_equal (fun m => m !! "Unique_Id")) in H.
    vm_compute in H. discriminate H.
  - exists item. split; [exact Hev|]. split.
    + pose proof (Htag "Acquisition_Date") as H.
      change (processed_data (small_env ["VIS"] 0) source_path lambda_world
                !! "Acquisition_Date")
        with (Some (Py.VStr "20230101")) in H.
      destruct H as ([t x] & Hk & Htext & HS & _). cbn in *. subst x.
      rewrite Hk. f_equal. f_equal. by apply HS.
    + pose proof (Htag "Gain") as H.
      change (processed_data (small_env ["VIS"] 0) source_path lambda_world !! "Gain")
        with (@None Py.value) in H.
      exact H.
Defined.

(** a float, a list of two elements and the element unwrapped from a list
    of one are all sent with the tag ['N'] *)
Example dynamodb_item_non_strings :
  MetadataHandler.dynamodb_item
    (MetadataHandler._process_metadata
       {[ "Scale" := Py.VFloat (Py.Float "0.5");
          "Range" := Py.VList [Py.VInt 0; Py.VInt 1023];
          "Bits" := Py.VList [Py.VInt 10] ]})
  = {[ "Scale" := Attr N_ "0.5"; "Range" := Attr N_ "[0, 1023]";
       "Bits" := Attr N_ "10" ]}.
Proof. vm_compute. reflexivity. Qed.

(** ** Splitting text *)

Lemma string_app_nil_r (s : string) : s ++ "" = s.
Proof.
  induction s as [|c s IH]; [reflexivity|].
  change (String c (s ++ "") = String c s). by rewrite IH.
Qed.

Lemma string_app_assoc (s t u : string) : (s ++ t) ++ u = s ++ (t ++ u).
Proof.
  induction s as [|c s IH]; [reflexivity|].
  change (String c ((s ++ t) ++ u) = String c (s ++ t ++ u)). by rewrite IH.
Qed.

Lemma prefix_app s t : String.prefix s (s ++ t) = true.
Proof.
  induction s as [|c s IH]; [by destruct t|].
  change (String.prefix (String c s) (String c (s ++ t)) = true).
  cbn [String.prefix]. destruct (ascii_dec c c); [exact IH | congruence].
Qed.

Lemma rev_onto_spec s acc : Py.rev_onto s acc = Py.rev_onto s "" ++ acc.
Proof.
  revert acc. induction s as [|c s IH]; intros acc; cbn; [reflexivity|].
  rewrite (IH (String c acc)), (IH (String c "")).
  rewrite string_app_assoc. reflexivity.
Qed.

Lemma rev_cons s c : Py.rev (String c s) = Py.rev s ++ Py.char c.
Proof. unfold Py.rev. cbn. apply rev_onto_spec. Qed.

Lemma rev_onto_snoc s c acc :
  Py.rev_onto (s ++ Py.char c) acc = String c (Py.rev_onto s acc).
Proof.
  revert acc. induction s as [|d s IH]; intros acc; [reflexivity|].
  change (String d s ++ Py.char c) with (String d (s ++ Py.char c)).
  cbn [Py.rev_onto]. apply IH.
Qed.

Lemma rev_involutive s : Py.rev (Py.rev s) = s.
Proof.
  induction s as [|c s IH]; [reflexivity|].
  rewrite rev_cons. unfold Py.rev at 1. rewrite rev_onto_snoc.
  fold (Py.rev (Py.rev s)). by rewrite IH.
Qed.

Lemma split_go_skip sep x b cur :
  Py.split_go sep (String.length x) cur (x ++ b) = Py.split_go sep 0 cur b.
Proof.
  induction x as [|c x IH]; [reflexivity|].
  change (String c x ++ b) with (String c (x ++ b)). cbn [String.length Py.split_go].
  exact IH.
Qed.

Lemma contains_cons sep c s :
  Py.contains sep (String c s) = false ->
  String.prefix sep (String c s) = false /\ Py.contains sep s = false.
Proof. cbn [Py.contains]. apply orb_false_elim. Qed.

(** Without an occurrence of the separator, [split] gives the text back. *)
Lemma split_go_none sep cur s :
  Py.contains sep s = false ->
  Py.split_go sep 0 cur s = [Py.rev cur ++ s].
Proof.
  revert cur. induction s as [|c s IH]; intros cur Hc.
  - cbn [Py.split_go]. by rewrite string_app_nil_r.
  - apply contains_cons in Hc as [Hp Hc]. cbn [Py.split_go]. rewrite Hp.
    rewrite (IH _ Hc), rev_cons, string_app_assoc. reflexivity.
Qed.

(** Up to the first occurrence of the separator. *)
Lemma split_go_first sep cur a b :
  sep <> "" ->
  occurs_within sep a (sep ++ b) = false ->
  Py.split_go sep 0 cur (a ++ sep ++ b)
  = (Py.rev cur ++ a) :: Py.split_go sep 0 "" b.
Proof.
  intros Hsep. revert cur. induction a as [|c a IH]; intros cur Hocc.
  - destruct sep as [|d sep]; [done|].
    change ("" ++ String d sep ++ b) with (String d (sep ++ b)).
    cbn [Py.split_go].
    assert (Hp : String.prefix (String d sep) (String d (sep ++ b)) = true)
      by apply (prefix_app (String d sep) b).
    rewrite Hp, string_app_nil_r. f_equal.
    replace (String.length (String d sep) - 1) with (String.length sep)
      by (cbn [String.length]; lia).
    apply split_go_skip.
  - cbn [occurs_within] in Hocc. apply orb_false_elim in Hocc as [Hp Hocc].
    change (String c a ++ sep ++ b) with (String c (a ++ sep ++ b)) in *.
    cbn [Py.split_go]. rewrite Hp, (IH _ Hocc), rev_cons, string_app_assoc.
    reflexivity.
Qed.

Lemma contains_app sep x y : Py.contains sep (x ++ sep ++ y) = true.
Proof.
  induction x as [|c x IH].
  - change ("" ++ sep ++ y) with (sep ++ y).
    destruct (sep ++ y) eqn:E; cbn [Py.contains]; rewrite <- E, prefix_app; reflexivity.
  - change (String c x ++ sep ++ y) with (String c (x ++ sep ++ y)).
    cbn [Py.contains]. rewrite IH. apply orb_true_r.
Qed.

Lemma split_first sep a b :
  sep <> "" -> occurs_within sep a (sep ++ b) = false ->
  Py.split sep (a ++ sep ++ b) = a :: Py.split sep b.
Proof. intros. unfold Py.split. by rewrite split_go_first. Qed.

Lemma split_none sep s : Py.contains sep s = false -> Py.split sep s = [s].
Proof. intros. unfold Py.split. by rewrite split_go_none. Qed.

(** ** Discovery *)

(** A name line as the inspection tool prints it. *)
Lemma subdataset_of_line_declaration pre a band :
  let text := a ++ "://IMG_" ++ band in
  let line := pre ++ "=" ++ text in
  Py.contains "SUBDATASET" line = true ->
  Py.contains "NAME" line = true ->
  occurs_within "=" pre ("=" ++ text) = false ->
  Py.contains "=" text = false ->
  Py.strip text = text ->
  occurs_within "://IMG_" a ("://IMG_" ++ band) = false ->
  Py.contains "://IMG_" band = false ->
  Py.contains Py.dquote band = false ->
  INSAT3DProcessor.subdataset_of_line line
  = Ok (Some (band, Py.strip_chars Py.dquote text)).
Proof.
  intros text line Hsub Hname Heq1 Heq2 Hstrip Hm1 Hm2 Hq.
  unfold INSAT3DProcessor.subdataset_of_line.
  rewrite Hsub, Hname. unfold line at 1.
  assert (Hc : Py.contains "://IMG_" (pre ++ "=" ++ text) = true).
  { unfold text. rewrite <- !string_app_assoc. 
    rewrite (string_app_assoc ((pre ++ "=") ++ a)). apply contains_app. }
  rewrite Hc. cbn [andb]. unfold line.
  rewrite (split_first "=" pre text) by done.
  rewrite (split_none "=" text) by done. cbn [lookup list_lookup].
  rewrite Hstrip. unfold text at 1.
  rewrite (split_first "://IMG_" a band) by done.
  rewrite (split_none "://IMG_" band) by done. cbn [lookup list_lookup].
  rewrite (split_none Py.dquote band) by done. reflexivity.
Qed.

Example subdataset_of_line_scenario :
  INSAT3DProcessor.subdataset_of_line
    ("SUBDATASET_1_NAME" ++ "=" ++ ("HDF5:" ++ Py.dquote ++ "f.h5" ++ Py.dquote)
       ++ "://IMG_" ++ "VIS")
  = Ok (Some ("VIS", "HDF5:" ++ Py.dquote ++ "f.h5" ++ Py.dquote ++ "://IMG_VIS")).
Proof.
  apply (subdataset_of_line_declaration "SUBDATASET_1_NAME"
           ("HDF5:" ++ Py.dquote ++ "f.h5" ++ Py.dquote) "VIS"); reflexivity.
Qed.

(** The scenario of the specification: the two lines give a mapping with
    exactly the keys [VIS] and [SWIR]. *)
Example parse_subdatasets_scenario :
  INSAT3DProcessor.parse_subdatasets scenario_output
  = Ok {[ "VIS" := "HDF5:" ++ Py.dquote ++ "f.h5" ++ Py.dquote ++ "://IMG_VIS";
          "SWIR" := "HDF5:" ++ Py.dquote ++ "f.h5" ++ Py.dquote ++ "://IMG_SWIR" ]}.
Proof. vm_compute. exact eq_refl. Qed.

(** Discovery reads nothing but the text the tool printed: two worlds in
    which the tool prints the same text give the same mapping. *)
Lemma get_subdatasets_text_only E self w :
  (INSAT3DProcessor._get_subdatasets E self w).1
  = match (INSAT3DProcessor.tool_path "gdalinfo" w).1 with
    | Ok gdalinfo_path =>
        match (spawn E w [gdalinfo_path; INSAT3DProcessor.input_path self]).1 with
        | Subprocess.Runs d 0 out _ =>
            if (600 <? d)%N then Ok ∅
            else match INSAT3DProcessor.parse_subdatasets out with
                 | Ok sds => Ok sds
                 | Raise _ => Ok ∅
                 end
        | _ => Ok ∅
        end
    | Raise _ => Ok ∅
    end.
Proof.
  unfold INSAT3DProcessor._get_subdatasets, INSAT3DProcessor.tool_path,
    INSAT3DProcessor._run_command.
  unfold try_except, mbind, M_bind, bind, os_path_exists, os_environ_get.
  destruct (bool_decide _); cbn -[INSAT3DProcessor.parse_subdatasets];
    rewrite start_spec; cbn [fst snd];
    (destruct (spawn E w _).1 as [msg|d rc out err|d rc reason];
     cbn -[INSAT3DProcessor.parse_subdatasets];
     [destruct msg; reflexivity| |destruct (600 <? d)%N; reflexivity]);
    (destruct rc; destruct (600 <? d)%N;
     cbn -[INSAT3DProcessor.parse_subdatasets]; try reflexivity);
    unfold lift; destruct (INSAT3DProcessor.parse_subdatasets out); reflexivity.
Qed.

(** C8 at a source file whose key is [date=20230101/3DIMG_0130.h5]: the
    name line of its band [VIS] has the three markers, yet the loop raises
    on it and discovery returns the empty mapping, so that the invocation
    ends without any output; with [-] in the place of [=] the band is found
    and converted. *)
Theorem get_subdatasets_equals_sign_in_path :
  INSAT3DProcessor.subdataset_of_line
    ("  SUBDATASET_1_NAME=HDF5:" ++ Py.dquote
       ++ "/vsis3/src/date=20230101/3DIMG_0130.h5" ++ Py.dquote ++ "://IMG_VIS")
  = Raise (Py.IndexError "list index out of range")
  /\ (INSAT3DProcessor._get_subdatasets (small_env ["VIS"] 0) partitioned_self
        lambda_world).1 = Ok ∅
  /\ (INSAT3DProcessor._get_subdatasets (small_env ["VIS"] 0) unpartitioned_self
        lambda_world).1
     = Ok {[ "VIS" := "HDF5:" ++ Py.dquote
                        ++ "/vsis3/src/date-20230101/3DIMG_0130.h5" ++ Py.dquote
                        ++ "://IMG_VIS" ]}
  /\ (process_file (small_env ["VIS"] 0)
        (s3_event "src" "date=20230101/3DIMG_0130.h5") ["VIS"] lambda_world).1
     = Ok {| statusCode := 500; response_body := Failed "No output files generated" |}
  /\ (process_file (small_env ["VIS"] 0)
        (s3_event "src" "date-20230101/3DIMG_0130.h5") ["VIS"] lambda_world).1
     = Ok {| statusCode := 200;
             response_body := Processed "Processing completed successfully" ["VIS"] |}.
Proof. repeat split; vm_compute; exact eq_refl. Qed.

(** ** The band converter *)

Lemma try_finally_returns {A} (body : M A) (fin : M unit) w (r : result A) w' :
  try_finally body fin w = (r, w') ->
  exists w1, (fin w1 = (Ok tt, w') /\ body w = (r, w1))
             \/ (exists e, fin w1 = (Raise e, w') /\ r = Raise e).
Proof.
  unfold try_finally. destruct (body w) as [r0 w1] eqn:Hb.
  destruct (fin w1) as [[[]|e] w2] eqn:Hf; intros [= <- <-]; exists w1.
  - left. done.
  - right. exists e. done.
Qed.

Lemma cleanup_returns E temp w w' :
  cleanup E temp w = (Ok tt, w') -> temp ∉ fs w'.
Proof.
  unfold cleanup, os_remove. unfold_M.
  destruct (bool_decide (temp ∈ fs w)) eqn:Hin; cbn.
  - rewrite Hin. destruct (remove E w temp); cbn; intros [= <-]; cbn.
    rewrite elem_of_difference, elem_of_singleton. intros [_ Hn]. by apply Hn.
  - intros [= <-]. apply bool_decide_eq_false in Hin. exact Hin.
Qed.

Lemma cleanup_total E temp w :
  remove E w temp = None -> exists w', cleanup E temp w = (Ok tt, w').
Proof.
  intros Hr. unfold cleanup, os_remove. unfold_M.
  destruct (bool_decide (temp ∈ fs w)) eqn:Hin; cbn.
  - rewrite Hin, Hr. cbn. eexists; reflexivity.
  - eexists; reflexivity.
Qed.

Lemma process_band_unfold E self band path :
  INSAT3DProcessor.process_band E self (band, path)
  = try_finally (convert_and_upload E self band path)
                (cleanup E (INSAT3DProcessor.temp_file band)).
Proof. reflexivity. Qed.

Lemma try_except_total {A} (body : M A) (h : exn -> M A) w :
  (forall e w1, exists a w2, h e w1 = (Ok a, w2)) ->
  exists a w', try_except body h w = (Ok a, w').
Proof.
  intros Hh. unfold try_except. destruct (body w) as [[a|e] w1].
  - eauto.
  - apply Hh.
Qed.

Lemma convert_and_upload_total E self band path w :
  exists r w1, convert_and_upload E self band path w = (Ok r, w1).
Proof.
  unfold convert_and_upload. apply try_except_total.
  intros e w1. eexists _, _. reflexivity.
Qed.

(** C6.  For every band and every state of the world: when the converter
    returns, with a location or with none, the temporary file of the band
    does not exist; and the converter does return whenever the removal of
    the file, if it comes to it, does not fail. *)
Theorem process_band_cleans_up :
  forall (E : env) (self : INSAT3DProcessor.t) (band path : string) (w : world),
    (forall (r : option string) (w' : world),
       INSAT3DProcessor.process_band E self (band, path) w = (Ok r, w') ->
       INSAT3DProcessor.temp_file band ∉ fs w')
    /\ ((forall w1, remove E w1 (INSAT3DProcessor.temp_file band) = None) ->
        exists r w',
          INSAT3DProcessor.process_band E self (band, path) w = (Ok r, w')).
Proof.
  intros E self band path w. rewrite process_band_unfold. split.
  - intros r w' H. apply try_finally_returns in H as [w1 [[Hf _]|[e [_ He]]]].
    + eapply cleanup_returns, Hf.
    + discriminate He.
  - intros Hrm.
    destruct (convert_and_upload_total E self band path w) as (r & w1 & Hb).
    destruct (cleanup_total E _ w1 (Hrm w1)) as [w' Hc].
    exists r, w'. unfold try_finally. rewrite Hb, Hc. reflexivity.
Qed.

Lemma process_band_cleans_up_witness :
  INSAT3DProcessor.temp_file "VIS"
    ∉ fs (INSAT3DProcessor.process_band twelve_env twelve_self
            ("VIS", "HDF5:/vsis3/src/f.h5://IMG_VIS") empty_world).2.
Proof.
  eapply (proj1 (process_band_cleans_up twelve_env twelve_self "VIS"
                   "HDF5:/vsis3/src/f.h5://IMG_VIS" empty_world)
            (Some "s3://final-cog/3DIMG_01JAN2023_0130_L1B_STD/VIS_cog.tiff")).
  vm_compute. exact eq_refl.
Defined.

(** The three ways of the claim in the twelve-band environment: the
    conversion of [TIR1] succeeds, that of [MIR] times out, the upload of
    [WV] raises; each time the converter returns and the file is gone. *)
Example process_band_three_ways :
  let run band :=
    INSAT3DProcessor.process_band twelve_env twelve_self (band, "HDF5:p://IMG_" ++ band)
      empty_world in
  ((run "TIR1").1 = Ok (Some "s3://final-cog/3DIMG_01JAN2023_0130_L1B_STD/TIR1_cog.tiff")
   /\ fs (run "TIR1").2 = ∅)
  /\ ((run "MIR").1 = Ok None /\ fs (run "MIR").2 = ∅)
  /\ ((run "WV").1 = Ok None /\ fs (run "WV").2 = ∅).
Proof. cbn zeta. repeat split; vm_compute; exact eq_refl. Qed.

(** ** The orchestrator *)

Lemma collect_from_cons init band r futures :
  collect_from init ((band, r) :: futures)
  = collect_from (match INSAT3DProcessor.location_of r with
                  | Some result => Py.setitem init band result
                  | None => init
                  end) futures.
Proof. reflexivity. Qed.

Lemma collect_fold_entries futures (init : Py.dict) :
  Py.entries (collect_from init futures) = foldl collect_step (Py.entries init) futures.
Proof.
  revert init. induction futures as [|[band r] futures IH]; intros init; [reflexivity|].
  rewrite collect_from_cons, IH. cbn [foldl collect_step].
  destruct (INSAT3DProcessor.location_of r); reflexivity.
Qed.

Lemma collect_unfold futures :
  Py.entries (INSAT3DProcessor.collect futures) = foldl collect_step ∅ futures.
Proof. apply (collect_fold_entries futures Py.dict_empty). Qed.

(** ** The order of the keys *)

Lemma dict_empty_wf : well_formed Py.dict_empty.
Proof.
  split; [constructor|]. intros k. cbn. rewrite lookup_empty. split.
  - intros H. by apply elem_of_nil in H.
  - intros [? H]. discriminate H.
Qed.

Lemma setitem_wf d k v : well_formed d -> well_formed (Py.setitem d k v).
Proof.
  intros [Hnd Hkeys]. unfold Py.setitem, well_formed. cbn [Py.order Py.entries].
  destruct (decide (is_Some (Py.entries d !! k))) as [Hk|Hk].
  - rewrite (bool_decide_eq_true_2 _ Hk). split; [exact Hnd|].
    intros k'. rewrite Hkeys. destruct (decide (k = k')) as [<-|Hne].
    + rewrite lookup_insert_eq. split; eauto.
    + by rewrite lookup_insert_ne.
  - rewrite (bool_decide_eq_false_2 _ Hk). split.
    + apply NoDup_app. split; [exact Hnd|]. split; [|apply NoDup_singleton].
      intros k' Hin ->%list_elem_of_singleton. by apply Hk, Hkeys.
    + intros k'. rewrite elem_of_app, list_elem_of_singleton, Hkeys.
      destruct (decide (k = k')) as [<-|Hne].
      * rewrite lookup_insert_eq. split; eauto.
      * rewrite lookup_insert_ne by done. split; [intros [?|?]; [done|congruence]|by left].
Qed.

Lemma collect_from_wf init futures :
  well_formed init -> well_formed (collect_from init futures).
Proof.
  revert init. induction futures as [|[band r] futures IH]; intros init Hwf; [exact Hwf|].
  rewrite collect_from_cons. apply IH.
  destruct (INSAT3DProcessor.location_of r); [by apply setitem_wf | exact Hwf].
Qed.

Lemma collect_wf futures : well_formed (INSAT3DProcessor.collect futures).
Proof. apply (collect_from_wf Py.dict_empty), dict_empty_wf. Qed.

(** A dictionary without entries lists no key. *)
Lemma well_formed_empty d :
  well_formed d -> Py.entries d = ∅ <-> Py.order d = [].
Proof.
  destruct d as [e o]. unfold well_formed. cbn. intros [_ Hkeys]. split.
  - intros ->. destruct o as [|k l]; [reflexivity|].
    destruct (proj1 (Hkeys k)) as [v Hv]; [apply list_elem_of_here|].
    rewrite lookup_empty in Hv. discriminate Hv.
  - intros ->. apply map_empty. intros k.
    destruct (e !! k) as [v|] eqn:Hv; [|reflexivity].
    assert (Hin : k ∈ []) by (apply Hkeys; eauto).
    by apply elem_of_nil in Hin.
Qed.

(** The keys are listed in the order in which the futures that hold a
    location are gone through. *)
Lemma collect_from_order init futures :
  well_formed init -> NoDup futures.*1 ->
  (forall b, b ∈ futures.*1 -> b ∉ Py.order init) ->
  Py.order (collect_from init futures)
  = (Py.order init ++ (filter kept futures).*1)%list.
Proof.
  revert init. induction futures as [|[band r] futures IH]; intros init Hwf Hnd Hfresh.
  - cbn. by rewrite app_nil_r.
  - cbn in Hnd. apply NoDup_cons in Hnd as [Hband Hnd]. rewrite collect_from_cons.
    assert (Hnew : ~ is_Some (Py.entries init !! band)).
    { intros H. apply (Hfresh band); [cbn; apply list_elem_of_here|].
      by apply (proj2 Hwf). }
    destruct (INSAT3DProcessor.location_of r) as [loc|] eqn:Hloc.
    + rewrite filter_cons_True by (unfold kept; cbn; rewrite Hloc; eauto).
      rewrite IH; [| by apply setitem_wf | exact Hnd |].
      * cbn [Py.setitem Py.order]. rewrite (bool_decide_eq_false_2 _ Hnew).
        cbn. by rewrite <- app_assoc.
      * intros b Hb. cbn [Py.setitem Py.order]. rewrite (bool_decide_eq_false_2 _ Hnew).
        rewrite elem_of_app, list_elem_of_singleton. intros [Hin| ->]; [|done].
        apply (Hfresh b); [cbn; by apply list_elem_of_further | exact Hin].
    + rewrite filter_cons_False by (unfold kept; cbn; rewrite Hloc; by intros [? ?]).
      apply IH; [exact Hwf | exact Hnd |].
      intros b Hb. apply Hfresh. cbn. by apply list_elem_of_further.
Qed.

Lemma collect_order futures :
  NoDup futures.*1 ->
  Py.order (INSAT3DProcessor.collect futures) = (filter kept futures).*1.
Proof.
  intros Hnd. apply (collect_from_order Py.dict_empty futures dict_empty_wf Hnd).
  intros b _ H. by apply elem_of_nil in H.
Qed.

Lemma collect_step_lookup results bf Y :
  collect_step results bf !! Y
  = if String.eqb bf.1 Y
    then match INSAT3DProcessor.location_of bf.2 with
         | Some result => Some result
         | None => results !! Y
         end
    else results !! Y.
Proof.
  destruct bf as [band r]. cbn [collect_step fst snd].
  destruct (String.eqb_spec band Y) as [->|Hne].
  - destruct (INSAT3DProcessor.location_of r); [apply lookup_insert_eq | reflexivity].
  - destruct (INSAT3DProcessor.location_of r); [by apply lookup_insert_ne | reflexivity].
Qed.

Lemma collect_from_lookup futures init Y :
  foldl collect_step init futures !! Y = entry_of Y futures (init !! Y).
Proof.
  unfold entry_of. revert init.
  induction futures as [|bf futures IH]; intros init; cbn [foldl]; [reflexivity|].
  rewrite IH, collect_step_lookup. reflexivity.
Qed.

(** Futures of other bands do not touch the entry of [Y]. *)
Lemma entry_of_other Y before after X r acc :
  X <> Y ->
  entry_of Y (before ++ (X, r) :: after) acc = entry_of Y (before ++ after) acc.
Proof.
  intros Hne. unfold entry_of. rewrite !foldl_app. cbn [foldl fst].
  apply String.eqb_neq in Hne. rewrite Hne. reflexivity.
Qed.

Lemma entry_of_cons Y bf futures acc :
  entry_of Y (bf :: futures) acc
  = entry_of Y futures
      (if String.eqb bf.1 Y
       then match INSAT3DProcessor.location_of bf.2 with
            | Some result => Some result
            | None => acc
            end
       else acc).
Proof. reflexivity. Qed.

Lemma entry_of_absent Y futures acc :
  Y ∉ futures.*1 -> entry_of Y futures acc = acc.
Proof.
  revert acc.
  induction futures as [|[b r] futures IH]; intros acc Hn.
  - reflexivity.
  - cbn in Hn. apply not_elem_of_cons in Hn as [Hne Hn].
    rewrite entry_of_cons. cbn [fst snd].
    assert (Hb : String.eqb b Y = false) by (apply String.eqb_neq; congruence).
    rewrite Hb. by apply IH.
Qed.

Lemma entry_of_nodup Y futures loc :
  NoDup futures.*1 ->
  entry_of Y futures None = Some loc
  <-> exists r, (Y, r) ∈ futures /\ INSAT3DProcessor.location_of r = Some loc.
Proof.
  induction futures as [|[b r] futures IH]; intros Hnd.
  - cbn. split; [discriminate|]. intros (r & Hin & _). by apply elem_of_nil in Hin.
  - cbn in Hnd. apply NoDup_cons in Hnd as [Hb Hnd].
    rewrite entry_of_cons. cbn [fst snd].
    destruct (String.eqb_spec b Y) as [->|Hne].
    + rewrite entry_of_absent by done. split.
      * intros H. exists r. split; [apply list_elem_of_here|].
        destruct (INSAT3DProcessor.location_of r); congruence.
      * intros (r' & Hin & Hloc). apply elem_of_cons in Hin as [[= <-]|Hin].
        -- by rewrite Hloc.
        -- exfalso. apply Hb. apply list_elem_of_fmap. by exists (Y, r').
    + rewrite IH by done. split.
      * intros (r' & Hin & Hloc). exists r'. split; [by apply list_elem_of_further|done].
      * intros (r' & Hin & Hloc). apply elem_of_cons in Hin as [[= ? ?]|Hin]; [congruence|].
        by exists r'.
Qed.

(** A location returned by the converter is the address of the uploaded
    object; in particular it is not the empty text. *)
Lemma convert_and_upload_location E self band path w loc w1 :
  convert_and_upload E self band path w = (Ok (Some loc), w1) ->
  loc = "s3://" ++ INSAT3DProcessor.output_bucket self ++ "/"
          ++ INSAT3DProcessor.s3_key self band.
Proof.
  unfold convert_and_upload, INSAT3DProcessor.tool_path,
    INSAT3DProcessor._run_command, INSAT3DProcessor.s3_upload_file.
  unfold try_except, mbind, M_bind, bind, os_path_exists, os_environ_get.
  repeat (rewrite start_spec; cbn [fst snd]).
  destruct (bool_decide _); cbn;
    rewrite start_spec; cbn [fst snd];
    (destruct (Subprocess.run _ _ _ _) as [cp|[]]; cbn; try (intros [= <-]; fail);
     try discriminate);
    unfold ret, get_world, emit, raise; cbn;
    destruct (upload_file E _ _ _ _); cbn; intros [= <- _]; reflexivity.
Qed.

Lemma process_band_location E self band path w loc w' :
  INSAT3DProcessor.process_band E self (band, path) w = (Ok (Some loc), w') ->
  loc <> "".
Proof.
  rewrite process_band_unfold. intros H.
  apply try_finally_returns in H as [w1 [[_ Hb]|[e [_ He]]]]; [|discriminate He].
  apply convert_and_upload_location in Hb. rewrite Hb. discriminate.
Qed.

Lemma as_completed_cons E self sds band rest w :
  INSAT3DProcessor.as_completed E self sds (band :: rest) w
  = match sds !! band with
    | None => INSAT3DProcessor.as_completed E self sds rest w
    | Some path =>
        let '(r, w1) := INSAT3DProcessor.process_band E self (band, path) w in
        match INSAT3DProcessor.as_completed E self sds rest w1 with
        | (Ok futures, w2) => (Ok ((band, r) :: futures), w2)
        | (Raise e, w2) => (Raise e, w2)
        end
    end.
Proof.
  cbn [INSAT3DProcessor.as_completed]. destruct (sds !! band); [|reflexivity].
  unfold mbind, M_bind, bind, INSAT3DProcessor.future.
  destruct (INSAT3DProcessor.process_band E self (band, s) w) as [r w1].
  destruct (INSAT3DProcessor.as_completed E self sds rest w1) as [[fs|e] w2]; reflexivity.
Qed.

Lemma as_completed_total E self sds completion w :
  exists futures w', INSAT3DProcessor.as_completed E self sds completion w = (Ok futures, w').
Proof.
  revert w. induction completion as [|band rest IH]; intros w.
  - eexists _, _. reflexivity.
  - rewrite as_completed_cons. destruct (sds !! band) as [path|]; [|apply IH].
    destruct (INSAT3DProcessor.process_band E self (band, path) w) as [r w1].
    destruct (IH w1) as (futures & w' & ->). eexists _, _. reflexivity.
Qed.

(** The futures are those of the bands of [completion] that were
    discovered, in that order, and every location among them is not the
    empty text. *)
Lemma as_completed_spec E self sds completion w futures w' :
  INSAT3DProcessor.as_completed E self sds completion w = (Ok futures, w') ->
  futures.*1 = filter (fun b => is_Some (sds !! b)) completion
  /\ Forall (fun bf => forall loc, bf.2 = Ok (Some loc) -> loc <> "") futures.
Proof.
  revert w futures. induction completion as [|band rest IH]; intros w futures.
  - cbn. unfold ret. intros [= <-]. split; [reflexivity | constructor].
  - rewrite as_completed_cons. destruct (sds !! band) as [path|] eqn:Hb.
    + destruct (INSAT3DProcessor.process_band E self (band, path) w) as [r w1] eqn:Hr.
      destruct (INSAT3DProcessor.as_completed E self sds rest w1) as [[fs|e] w2] eqn:Hrest;
        [|discriminate].
      intros [= <- <-]. destruct (IH _ _ Hrest) as [IH1 IH2].
      rewrite filter_cons_True by (rewrite Hb; eauto).
      split; [cbn; by rewrite IH1|].
      constructor; [|done]. cbn. intros loc ->.
      eapply process_band_location, Hr.
    + intros H. rewrite filter_cons_False by (rewrite Hb; by intros [? ?]).
      eapply IH, H.
Qed.

Lemma collect_size futures (init : gmap string string) :
  NoDup futures.*1 ->
  (forall b, b ∈ futures.*1 -> init !! b = None) ->
  size (foldl collect_step init futures)
  = size init
    + length (filter (fun bf => is_Some (INSAT3DProcessor.location_of bf.2)) futures).
Proof.
  revert init. induction futures as [|[b r] futures IH]; intros init Hnd Hfresh.
  - cbn. lia.
  - cbn in Hnd. apply NoDup_cons in Hnd as [Hb Hnd]. cbn [foldl].
    rewrite IH; [|done|].
    + unfold collect_step.
      destruct (INSAT3DProcessor.location_of r) as [loc|] eqn:Hloc.
      * rewrite filter_cons_True by (cbn; rewrite Hloc; eauto).
        rewrite map_size_insert_None by (apply Hfresh; cbn; apply list_elem_of_here).
        cbn. lia.
      * rewrite filter_cons_False by (cbn; rewrite Hloc; by intros [? ?]). lia.
    + intros b' Hb'. unfold collect_step.
      assert (init !! b' = None) by (apply Hfresh; cbn; by apply list_elem_of_further).
      destruct (INSAT3DProcessor.location_of r); [|done].
      rewrite lookup_insert_ne; [done|]. intros ->. done.
Qed.

Lemma process_unfold E self completion w :
  INSAT3DProcessor.process E self completion w
  = match discover E self w with
    | (Ok sds, w2) =>
        if bool_decide (sds = ∅) then (Ok Py.dict_empty, w2)
        else if (INSAT3DProcessor.max_workers self <=? 0)%Z
             then (Raise (Py.ValueError "max_workers must be greater than 0"), w2)
             else match INSAT3DProcessor.as_completed E self sds completion w2 with
                  | (Ok futures, w3) => (Ok (INSAT3DProcessor.collect futures), w3)
                  | (Raise e, w3) => (Raise e, w3)
                  end
    | (Raise e, w2) => (Raise e, w2)
    end.
Proof.
  unfold INSAT3DProcessor.process, INSAT3DProcessor.ThreadPoolExecutor, discover.
  unfold mbind, M_bind, bind.
  destruct (MetadataHandler.upload_metadata _ _ _ w) as [[ok|e] w1]; [|reflexivity].
  destruct (INSAT3DProcessor._get_subdatasets E self w1) as [[sds|e] w2]; [|reflexivity].
  destruct (bool_decide (sds = ∅)); [reflexivity|].
  destruct (INSAT3DProcessor.max_workers self <=? 0)%Z; [reflexivity|].
  cbn. destruct (INSAT3DProcessor.as_completed E self sds completion w2) as [[fs|e] w3];
    reflexivity.
Qed.

Lemma pool_bound_positive (n : Z) : (0 < n)%Z -> (n <=? 0)%Z = false.
Proof. intros H. apply Z.leb_gt. exact H. Qed.

Lemma process_well_formed E self completion w results w' :
  INSAT3DProcessor.process E self completion w = (Ok results, w') ->
  well_formed results.
Proof.
  rewrite process_unfold. destruct (discover E self w) as [[sds|e] w2]; [|discriminate].
  destruct (bool_decide (sds = ∅)); [intros [= <- _]; apply dict_empty_wf|].
  destruct (_ <=? 0)%Z; [discriminate|].
  destruct (INSAT3DProcessor.as_completed E self sds completion w2) as [[fs|e] w3];
    [|discriminate].
  intros [= <- _]. apply collect_wf.
Qed.

Lemma filter_all {A} (P : A -> Prop) `{forall x, Decision (P x)} (l : list A) :
  Forall P l -> filter P l = l.
Proof.
  induction 1 as [|x l Hx _ IH]; [reflexivity|].
  rewrite filter_cons_True by done. by rewrite IH.
Qed.

Lemma entry_of_with_outcome X r Y futures acc :
  X <> Y -> entry_of Y (with_outcome X r futures) acc = entry_of Y futures acc.
Proof.
  intros Hne. revert acc.
  induction futures as [|[b r0] futures IH]; intros acc; [reflexivity|].
  cbn [with_outcome List.map]. fold (with_outcome X r futures).
  rewrite !entry_of_cons. cbn [fst snd].
  destruct (String.eqb_spec b X) as [->|Hb]; cbn [fst snd].
  - apply String.eqb_neq in Hne. rewrite Hne. apply IH.
  - rewrite IH. reflexivity.
Qed.

Lemma success_or_failed futures :
  Forall (fun bf => forall loc, bf.2 = Ok (Some loc) -> loc <> "") futures ->
  length (filter (fun bf => is_Some (INSAT3DProcessor.location_of bf.2)) futures)
  + length (filter (fun bf => failed bf) futures) = length futures.
Proof.
  induction 1 as [|[b r] futures Hx _ IH]; [reflexivity|].
  cbn in Hx. unfold failed at 1.
  destruct r as [[loc|]|e]; cbn [INSAT3DProcessor.location_of snd].
  - destruct (String.eqb_spec loc "") as [->|Hne]; [by destruct (Hx "" eq_refl)|].
    rewrite filter_cons_True by (cbn; rewrite (proj2 (String.eqb_neq _ _) Hne); eauto).
    rewrite (filter_cons_False (fun bf => failed bf)) by (cbn; tauto).
    cbn. lia.
  - rewrite filter_cons_False by (cbn; by intros [? ?]).
    rewrite (filter_cons_True (fun bf => failed bf)) by (cbn; tauto).
    cbn. lia.
  - rewrite filter_cons_False by (cbn; by intros [? ?]).
    rewrite (filter_cons_True (fun bf => failed bf)) by (cbn; tauto).
    cbn. lia.
Qed.

(** C1.  Take a processor whose pool has room for at least one worker and
    any run of [process]: [sds] is the mapping that discovery found,
    [completion] any order in which the pool completes the conversions of
    the discovered bands, [futures] what the conversions returned or
    raised.  Then [process] returns a mapping [results] such that: every
    discovered band has its future; [results] has the entry [X -> loc]
    exactly when the converter returned the location [loc] for [X]; had the
    conversion of a band [X] ended in any other way, the entry of every
    other band [Y] would be the same; the number of entries is the number
    of discovered bands less the failed ones, so 12 bands of which 3 fail
    leave exactly 9 entries. *)
Theorem process_collects_successes :
  forall (E : env) (self : INSAT3DProcessor.t) (completion : list string)
         (w : world) (sds : gmap string string) (w2 : world)
         (futures : list (string * result (option string))) (w3 : world),
    (0 < INSAT3DProcessor.max_workers self)%Z ->
    discover E self w = (Ok sds, w2) ->
    completion ≡ₚ bands_of sds ->
    INSAT3DProcessor.as_completed E self sds completion w2 = (Ok futures, w3) ->
    exists results : Py.dict,
      INSAT3DProcessor.process E self completion w = (Ok results, w3)
      /\ futures.*1 = completion
      /\ (forall X loc,
            Py.entries results !! X = Some loc <-> (X, Ok (Some loc)) ∈ futures)
      /\ (forall X r Y, X <> Y ->
            Py.entries (INSAT3DProcessor.collect (with_outcome X r futures)) !! Y
            = Py.entries results !! Y)
      /\ size (Py.entries results) + length (filter (fun bf => failed bf) futures)
         = size sds
      /\ (size sds = 12 -> length (filter (fun bf => failed bf) futures) = 3 ->
          size (Py.entries results) = 9).
Proof.
  intros E self completion w sds w2 futures w3 Hpool Hdisc Hperm Hac.
  exists (INSAT3DProcessor.collect futures).
  destruct (as_completed_spec _ _ _ _ _ _ _ Hac) as [Hbands Hloc].
  assert (Hnd : NoDup completion).
  { rewrite Hperm. apply NoDup_fst_map_to_list. }
  assert (Hall : Forall (fun b => is_Some (sds !! b)) completion).
  { apply Forall_forall. intros b Hb. rewrite Hperm in Hb.
    apply list_elem_of_fmap in Hb as ([b' path] & -> & Hb).
    apply elem_of_map_to_list in Hb. cbn. eauto. }
  rewrite (filter_all _ _ Hall) in Hbands.
  assert (Hlen : length futures = size sds).
  { rewrite <- (length_fmap fst), Hbands, Hperm. unfold bands_of.
    rewrite length_fmap. apply length_map_to_list. }
  assert (Hsize : size (Py.entries (INSAT3DProcessor.collect futures))
                  + length (filter (fun bf => failed bf) futures) = size sds).
  { rewrite collect_unfold, collect_size, map_size_empty.
    - rewrite <- Hlen, <- (success_or_failed futures Hloc). lia.
    - by rewrite Hbands.
    - intros. apply lookup_empty. }
  split; [|split; [exact Hbands|split; [|split; [|split; [exact Hsize|lia]]]]].
  - rewrite process_unfold, Hdisc, (pool_bound_positive _ Hpool).
    destruct (bool_decide (sds = ∅)) eqn:Hempty; [|by rewrite Hac].
    apply bool_decide_eq_true in Hempty. subst sds.
    unfold bands_of in Hperm. rewrite map_to_list_empty in Hperm. cbn in Hperm.
    apply Permutation_nil_r in Hperm. subst completion.
    cbn in Hac. unfold ret in Hac. injection Hac as <- <-. reflexivity.
  - intros X loc. rewrite collect_unfold, collect_from_lookup, lookup_empty.
    rewrite entry_of_nodup by (by rewrite Hbands). split.
    + intros (r & Hin & Hr). destruct r as [[l|]|e]; cbn in Hr; try discriminate.
      destruct (String.eqb l ""); [discriminate|]. by injection Hr as ->.
    + intros Hin. exists (Ok (Some loc)). split; [done|].
      rewrite Forall_forall in Hloc. specialize (Hloc _ Hin loc eq_refl). cbn.
      apply String.eqb_neq in Hloc. by rewrite Hloc.
  - intros X r Y Hne.
    rewrite (collect_unfold futures), (collect_unfold (with_outcome X r futures)).
    rewrite !collect_from_lookup. by apply entry_of_with_outcome.
Qed.

Example twelve_bands_discovered :
  dom twelve_discovered.1 = list_to_set twelve_bands
  /\ twelve_discovered.1 !! "VIS"
     = Some ("HDF5:" ++ Py.dquote ++ source_path ++ Py.dquote ++ "://IMG_VIS").
Proof. split; vm_compute; exact eq_refl. Qed.

Example twelve_bands_failures :
  filter (fun bf => failed bf) twelve_futures.1
  = [("VIS_ALBEDO", Raise (Py.OSError "Permission denied"));
     ("MIR", Ok None); ("WV", Ok None)].
Proof. vm_compute. exact eq_refl. Qed.

Lemma process_collects_successes_witness :
  exists results : Py.dict,
    (INSAT3DProcessor.process twelve_env twelve_self twelve_completion empty_world).1
    = Ok results
    /\ size (Py.entries results) = 9
    /\ Py.entries results !! "TIR1"
       = Some "s3://final-cog/3DIMG_01JAN2023_0130_L1B_STD/TIR1_cog.tiff".
Proof.
  destruct (process_collects_successes twelve_env twelve_self twelve_completion
              empty_world twelve_discovered.1 twelve_discovered.2
              twelve_futures.1 twelve_futures.2)
    as (results & Hp & _ & Hiff & _ & _ & H9).
  - reflexivity.
  - vm_compute. exact eq_refl.
  - unfold twelve_completion. apply reverse_Permutation.
  - vm_compute. exact eq_refl.
  - exists results. rewrite Hp. split; [reflexivity|]. split.
    + apply H9; vm_compute; exact eq_refl.
    + apply Hiff. vm_compute.
      do 1 apply list_elem_of_further. apply list_elem_of_here.
Defined.

(** ** The entry points *)

Lemma bind_returns {A B} (m : M A) (k : A -> M B) w b w' :
  (m ≫= k) w = (Ok b, w') ->
  exists a w1, m w = (Ok a, w1) /\ k a w1 = (Ok b, w').
Proof.
  unfold mbind, M_bind, bind. destruct (m w) as [[a|e] w1]; [|discriminate].
  intros H. by exists a, w1.
Qed.

(** [process_file] always answers, with 200 or with 500; it answers 200
    only with a list of converted bands that is not empty, and 500 with an
    error description. *)
Lemma process_file_status E event completion w :
  exists resp w',
    process_file E event completion w = (Ok resp, w')
    /\ ((statusCode resp = 200%Z
         /\ exists bands, bands <> []
              /\ response_body resp
                 = Processed "Processing completed successfully" bands)
        \/ (statusCode resp = 500%Z
            /\ exists error, response_body resp = Failed error)).
Proof.
  unfold process_file, try_except.
  match goal with |- context [?body w] => destruct (body w) as [[resp|e] w1] eqn:Hb end.
  - exists resp, w1. split; [reflexivity|]. left.
    apply bind_returns in Hb as (bucket & wa & _ & Hb).
    apply bind_returns in Hb as (key & wb & _ & Hb).
    apply bind_returns in Hb as (dest & wc & _ & Hb).
    apply bind_returns in Hb as (processor & wd & _ & Hb).
    apply bind_returns in Hb as (results & we & Hp & Hb).
    apply process_well_formed in Hp.
    unfold is_empty in Hb.
    destruct (bool_decide (Py.entries results = ∅)) eqn:Hr; [discriminate Hb|].
    apply bool_decide_eq_false in Hr. injection Hb as <- _. cbn.
    split; [reflexivity|]. exists (keys results). split; [|reflexivity].
    unfold keys. intros Hk. by apply (well_formed_empty _ Hp) in Hk.
  - eexists _, _. split; [reflexivity|]. right. cbn. eauto.
Qed.

(** In the run of the next theorem two bands are discovered and neither
    conversion gives a location. *)
Example two_bands_discovered_none_converted :
  (discover (small_env ["VIS"; "SWIR"] 1) twelve_self lambda_world).1
     = Ok {[ "VIS" := "HDF5:" ++ Py.dquote ++ source_path ++ Py.dquote ++ "://IMG_VIS";
             "SWIR" := "HDF5:" ++ Py.dquote ++ source_path ++ Py.dquote
                         ++ "://IMG_SWIR" ]}
  /\ (INSAT3DProcessor.as_completed (small_env ["VIS"; "SWIR"] 1) twelve_self
        {[ "VIS" := "p"; "SWIR" := "q" ]} ["VIS"; "SWIR"] lambda_world).1
     = Ok [("VIS", Ok None); ("SWIR", Ok None)].
Proof. split; vm_compute; exact eq_refl. Qed.

(** C3 at a file with two bands whose conversions both exit with status 1:
    [lambda_handler] answers 200 with an empty list of files, where
    [process_file] answers 500 with an error description. *)
Theorem lambda_handler_no_band_converted :
  (App.lambda_handler (small_env ["VIS"; "SWIR"] 1) trigger ["VIS"; "SWIR"]
     lambda_world).1
  = Ok {| statusCode := 200; response_body := Handled true [] |}
  /\ (process_file (small_env ["VIS"; "SWIR"] 1) trigger ["VIS"; "SWIR"]
        lambda_world).1
     = Ok {| statusCode := 500; response_body := Failed "No output files generated" |}.
Proof. split; vm_compute; exact eq_refl. Qed.

(** C4 at a file with one band: [lambda_handler] starts the metadata tool
    twice and sends the record twice, both before the inspection; under
    [process_file] each happens once. *)
Theorem lambda_handler_metadata_twice :
  let path := "/vsis3/src/3DIMG_01JAN2023_0130_L1B_STD.h5" in
  let sent := (MetadataHandler.TABLE_NAME,
               MetadataHandler.dynamodb_item
                 (MetadataHandler._process_metadata
                    (MetadataHandler.flatten_domains complete_report))) in
  let w := (App.lambda_handler (small_env ["VIS"] 0) trigger ["VIS"] lambda_world).2 in
  let w' := (process_file (small_env ["VIS"] 0) trigger ["VIS"] lambda_world).2 in
  take 3 (commands_run (events w))
  = [["gdalinfo"; "-json"; path]; ["gdalinfo"; "-json"; path];
     ["/miniconda3/bin/gdalinfo"; path]]
  /\ items_sent (events w) = [sent; sent]
  /\ take 2 (commands_run (events w'))
     = [["gdalinfo"; "-json"; path]; ["/miniconda3/bin/gdalinfo"; path]]
  /\ items_sent (events w') = [sent].
Proof. cbn zeta. repeat split; vm_compute; exact eq_refl. Qed.

(* ===================================================================== *)
(** * Further properties *)
(* ===================================================================== *)

(** ** Closed forms of the steps *)

Lemma tool_path_spec name w :
  INSAT3DProcessor.tool_path name w = (Ok (resolved_tool name w), w).
Proof.
  unfold INSAT3DProcessor.tool_path, resolved_tool.
  unfold mbind, M_bind, bind, os_path_exists, os_environ_get, ret.
  destruct (bool_decide _); reflexivity.
Qed.

Lemma run_command_unfold E cmd timeout w :
  INSAT3DProcessor._run_command E cmd timeout w
  = (match (spawn E w cmd).1 with
     | Subprocess.CannotStart fault => Raise (Subprocess.start_exn fault)
     | Subprocess.Runs d rc out err =>
         if (timeout <? d)%N then Ok (false, "Timeout")
         else if (rc =? 0)%Z then Ok (true, out) else Ok (false, err)
     | Subprocess.Undecodable d _ reason =>
         if (timeout <? d)%N then Ok (false, "Timeout")
         else Raise (Py.UnicodeDecodeError reason)
     end, after_run E cmd w).
Proof.
  unfold INSAT3DProcessor._run_command, after_run.
  unfold mbind, M_bind, bind. rewrite start_spec.
  destruct (spawn E w cmd).1 as [msg|d rc out err|d rc reason]; cbn;
    [destruct msg; reflexivity| |destruct (timeout <? d)%N; reflexivity].
  destruct (timeout <? d)%N; cbn; [reflexivity|].
  destruct (rc =? 0)%Z; reflexivity.
Qed.

Lemma get_subdatasets_unfold E self w :
  INSAT3DProcessor._get_subdatasets E self w
  = (Ok (match (spawn E w (inspection_cmd self w)).1 with
         | Subprocess.CannotStart _ => ∅
         | Subprocess.Runs d rc out _ =>
             if (600 <? d)%N then ∅
             else if (rc =? 0)%Z
                  then match INSAT3DProcessor.parse_subdatasets out with
                       | Ok sds => sds
                       | Raise _ => ∅
                       end
                  else ∅
         | Subprocess.Undecodable _ _ _ => ∅
         end), after_run E (inspection_cmd self w) w).
Proof.
  unfold INSAT3DProcessor._get_subdatasets, inspection_cmd.
  unfold try_except, mbind, M_bind, bind.
  rewrite tool_path_spec, run_command_unfold.
  destruct (spawn E w _).1 as [msg|d rc out err|d rc reason];
    [destruct msg; reflexivity| |destruct (600 <? d)%N; reflexivity].
  destruct (600 <? d)%N; [reflexivity|].
  destruct (rc =? 0)%Z; [|reflexivity].
  cbn -[INSAT3DProcessor.parse_subdatasets]. unfold lift.
  destruct (INSAT3DProcessor.parse_subdatasets out); reflexivity.
Qed.

Lemma convert_and_upload_unfold E self band path w :
  convert_and_upload E self band path w
  = let cmd := conversion_cmd band path w in
    let w1 := after_run E cmd w in
    if succeeds (spawn E w cmd).1 600
    then let up := EvUploadFile (INSAT3DProcessor.temp_file band)
                     (INSAT3DProcessor.output_bucket self)
                     (INSAT3DProcessor.s3_key self band) "bucket-owner-full-control" in
         (match upload_file E w1 (INSAT3DProcessor.temp_file band)
                  (INSAT3DProcessor.output_bucket self)
                  (INSAT3DProcessor.s3_key self band) with
          | None => Ok (Some ("s3://" ++ INSAT3DProcessor.output_bucket self ++ "/"
                                ++ INSAT3DProcessor.s3_key self band))
          | Some _ => Ok None
          end, add_event w1 up)
    else (Ok None, w1).
Proof.
  unfold convert_and_upload, conversion_cmd, succeeds.
  unfold try_except, mbind, M_bind, bind.
  rewrite tool_path_spec, run_command_unfold. cbn zeta.
  destruct (spawn E w _).1 as [msg|d rc out err|d rc reason];
    [destruct msg; reflexivity| |destruct (600 <? d)%N; reflexivity].
  destruct (600 <? d)%N; [reflexivity|]. cbn [negb andb].
  destruct (rc =? 0)%Z; [|reflexivity].
  cbn. unfold INSAT3DProcessor.s3_upload_file.
  unfold mbind, M_bind, bind, get_world, emit, raise, ret. cbn.
  destruct (upload_file E _ _ _ _); reflexivity.
Qed.

Lemma cleanup_unfold E temp w :
  cleanup E temp w
  = if bool_decide (temp ∈ fs w)
    then (match remove E w temp with
          | Some e => Raise e
          | None => Ok tt
          end,
          {| fs := match remove E w temp with
                   | Some _ => fs w
                   | None => fs w ∖ {[temp]}
                   end;
             environ := environ w;
             events := events w ++ [EvRemove temp] |})
    else (Ok tt, w).
Proof.
  unfold cleanup, os_remove.
  unfold mbind, M_bind, bind, os_path_exists, get_world, emit, set_fs, raise, ret.
  destruct (bool_decide (temp ∈ fs w)) eqn:Hin; cbn; [|reflexivity].
  rewrite Hin. destruct (remove E w temp); reflexivity.
Qed.

(** ** Discovery and conversion: failures and successes *)

(** X1.  [_get_subdatasets] never raises and makes one outside call, the
    inspection of the input path.  When the tool cannot be started, is
    still running after 600 seconds, exits with another code than zero or
    writes what is not text, the mapping is empty; when it succeeds, the
    mapping is the one parsed from its output, or empty when a line makes
    the parsing raise. *)
Theorem get_subdatasets_outcome :
  forall (E : env) (self : INSAT3DProcessor.t) (w : world),
    let b := (spawn E w (inspection_cmd self w)).1 in
    exists sds : gmap string string,
      INSAT3DProcessor._get_subdatasets E self w
      = (Ok sds, after_run E (inspection_cmd self w) w)
      /\ (succeeds b 600 = false -> sds = ∅)
      /\ (forall d rc out err,
            b = Subprocess.Runs d rc out err -> succeeds b 600 = true ->
            sds = match INSAT3DProcessor.parse_subdatasets out with
                  | Ok parsed => parsed
                  | Raise _ => ∅
                  end).
Proof.
  intros E self w b. rewrite get_subdatasets_unfold. fold b.
  eexists. split; [reflexivity|]. unfold succeeds.
  destruct b as [msg|d rc out err|d rc reason];
    [split; [reflexivity | discriminate]| |split; [reflexivity | discriminate]].
  destruct (600 <? d)%N; cbn [negb andb]; [split; [reflexivity | discriminate]|].
  destruct (rc =? 0)%Z; split; try reflexivity; try discriminate.
  intros d' rc' out' err' [= _ _ <- _] _. reflexivity.
Qed.

Lemma upload_metadata_world E self path w :
  exists ok w1, MetadataHandler.upload_metadata E self path w = (Ok ok, w1).
Proof.
  destruct (upload_metadata_returns E self path w) as [ok Hok].
  destruct (MetadataHandler.upload_metadata E self path w) as [r w1].
  cbn in Hok. subst r. eauto.
Qed.

Lemma discover_unfold E self w :
  discover E self w
  = INSAT3DProcessor._get_subdatasets E self
      (MetadataHandler.upload_metadata E (INSAT3DProcessor.metadata_handler self)
         (INSAT3DProcessor.input_path self) w).2.
Proof.
  unfold discover, mbind, M_bind, bind.
  destruct (upload_metadata_world E (INSAT3DProcessor.metadata_handler self)
              (INSAT3DProcessor.input_path self) w) as (ok & w1 & ->).
  reflexivity.
Qed.

(** X2.  When discovery finds no band, whatever the reason, [process]
    returns the empty mapping and the inspection is its last outside call:
    no conversion is started, nothing is uploaded, nothing is removed. *)
Theorem process_nothing_discovered :
  forall (E : env) (self : INSAT3DProcessor.t) (completion : list string) (w : world),
    (discover E self w).1 = Ok ∅ ->
    let w1 := (MetadataHandler.upload_metadata E (INSAT3DProcessor.metadata_handler self)
                 (INSAT3DProcessor.input_path self) w).2 in
    INSAT3DProcessor.process E self completion w
    = (Ok Py.dict_empty, after_run E (inspection_cmd self w1) w1).
Proof.
  intros E self completion w Hd w1. rewrite process_unfold.
  rewrite discover_unfold in *. fold w1 in Hd |- *.
  rewrite get_subdatasets_unfold in *. cbn [fst] in Hd.
  injection Hd as ->. reflexivity.
Qed.

Lemma process_band_world E self band path w :
  INSAT3DProcessor.process_band E self (band, path) w
  = let '(r, w1) := convert_and_upload E self band path w in
    match cleanup E (INSAT3DProcessor.temp_file band) w1 with
    | (Ok _, w2) => (r, w2)
    | (Raise e, w2) => (Raise e, w2)
    end.
Proof. rewrite process_band_unfold. reflexivity. Qed.

Lemma cleanup_events E temp w :
  exists tail, events (cleanup E temp w).2 = (events w ++ tail)%list
               /\ uploads tail = [].
Proof.
  rewrite cleanup_unfold. destruct (bool_decide _); cbn [snd events].
  - exists [EvRemove temp]. done.
  - exists []. by rewrite app_nil_r.
Qed.

Lemma uploads_app evs1 evs2 : uploads (evs1 ++ evs2) = (uploads evs1 ++ uploads evs2)%list.
Proof. apply omap_app. Qed.

(** X3.  When the conversion tool cannot be started, is still running
    after 600 seconds, exits with another code than zero or writes what is
    not text, [process_band] gives no location and uploads nothing. *)
Theorem process_band_conversion_failed :
  forall (E : env) (self : INSAT3DProcessor.t) (band path : string) (w : world),
    succeeds (spawn E w (conversion_cmd band path w)).1 600 = false ->
    (forall loc, (INSAT3DProcessor.process_band E self (band, path) w).1
                 <> Ok (Some loc))
    /\ uploads (events (INSAT3DProcessor.process_band E self (band, path) w).2)
       = uploads (events w).
Proof.
  intros E self band path w Hf. rewrite process_band_world.
  rewrite convert_and_upload_unfold. cbn zeta. rewrite Hf.
  set (w1 := after_run E _ w).
  destruct (cleanup_events E (INSAT3DProcessor.temp_file band) w1) as (tail & Hev & Hup).
  destruct (cleanup E (INSAT3DProcessor.temp_file band) w1) as [[[]|e] w2];
    cbn [fst snd] in *; (split; [discriminate|]);
    rewrite Hev, uploads_app, Hup, app_nil_r; unfold w1, after_run; cbn [events];
    rewrite uploads_app; cbn; apply app_nil_r.
Qed.

(** X4.  When [process_band] returns a location, the conversion tool has
    exited in time with code zero, exactly one upload was made, of the
    temporary file of the band to the key [{filename}/{band}_cog.tiff] of
    the output bucket with the owner given full control, and the location
    is the address [s3://{bucket}/{key}] of that object. *)
Theorem process_band_returns_uploaded_location :
  forall (E : env) (self : INSAT3DProcessor.t) (band path : string) (w : world)
         (loc : string) (w' : world),
    INSAT3DProcessor.process_band E self (band, path) w = (Ok (Some loc), w') ->
    succeeds (spawn E w (conversion_cmd band path w)).1 600 = true
    /\ uploads (events w')
       = List.app (uploads (events w))
           [("/tmp/" ++ band ++ "_cog.tiff",
             INSAT3DProcessor.output_bucket self,
             INSAT3DProcessor.filename self ++ "/" ++ band ++ "_cog.tiff",
             "bucket-owner-full-control")]
    /\ loc = "s3://" ++ INSAT3DProcessor.output_bucket self ++ "/"
               ++ INSAT3DProcessor.filename self ++ "/" ++ band ++ "_cog.tiff".
Proof.
  intros E self band path w loc w'. rewrite process_band_world.
  rewrite convert_and_upload_unfold. cbn zeta.
  destruct (succeeds _ 600) eqn:Hs.
  - set (w1 := add_event _ _).
    destruct (cleanup_events E (INSAT3DProcessor.temp_file band) w1) as (tail & Hev & Hup).
    destruct (upload_file E _ _ _ _) as [fault|];
      destruct (cleanup E (INSAT3DProcessor.temp_file band) w1) as [[[]|e] w2];
      cbn [snd] in Hev; try discriminate.
    intros [= <- <-]. split; [reflexivity|]. split; [|reflexivity].
    rewrite Hev, uploads_app, Hup, app_nil_r. unfold w1, add_event, after_run.
    cbn [events]. rewrite !uploads_app. cbn. by rewrite app_nil_r.
  - set (w1 := after_run E _ w).
    destruct (cleanup E (INSAT3DProcessor.temp_file band) w1) as [[[]|e] w2];
      discriminate.
Qed.

Lemma get_subdatasets_outcome_witness :
  INSAT3DProcessor._get_subdatasets no_tools_env twelve_self lambda_world
  = (Ok ∅, after_run no_tools_env (inspection_cmd twelve_self lambda_world) lambda_world).
Proof.
  destruct (get_subdatasets_outcome no_tools_env twelve_self lambda_world)
    as (sds & Hrun & Hfail & _).
  rewrite Hrun. rewrite (Hfail eq_refl). reflexivity.
Defined.

Lemma process_nothing_discovered_witness :
  let w1 := (MetadataHandler.upload_metadata no_tools_env
               (INSAT3DProcessor.metadata_handler twelve_self)
               (INSAT3DProcessor.input_path twelve_self) lambda_world).2 in
  INSAT3DProcessor.process no_tools_env twelve_self ["VIS"] lambda_world
  = (Ok Py.dict_empty, after_run no_tools_env (inspection_cmd twelve_self w1) w1).
Proof.
  apply (process_nothing_discovered no_tools_env twelve_self ["VIS"] lambda_world).
  vm_compute. exact eq_refl.
Defined.

Lemma process_band_conversion_failed_witness :
  uploads (events (INSAT3DProcessor.process_band (small_env ["VIS"] 1) twelve_self
                     ("VIS", "HDF5:p://IMG_VIS") lambda_world).2)
  = uploads (events lambda_world).
Proof.
  apply (process_band_conversion_failed (small_env ["VIS"] 1) twelve_self
           "VIS" "HDF5:p://IMG_VIS" lambda_world).
  vm_compute. exact eq_refl.
Defined.

Lemma process_band_returns_uploaded_location_witness :
  uploads (events (INSAT3DProcessor.process_band (small_env ["VIS"] 0) twelve_self
                     ("VIS", "HDF5:p://IMG_VIS") lambda_world).2)
  = [("/tmp/VIS_cog.tiff", "final-cog",
      "3DIMG_01JAN2023_0130_L1B_STD/VIS_cog.tiff", "bucket-owner-full-control")].
Proof.
  apply (process_band_returns_uploaded_location (small_env ["VIS"] 0) twelve_self
           "VIS" "HDF5:p://IMG_VIS" lambda_world
           "s3://final-cog/3DIMG_01JAN2023_0130_L1B_STD/VIS_cog.tiff").
  vm_compute. exact eq_refl.
Defined.

(** ** Paths derived from the band identifier *)

Lemma rev_app s t : Py.rev (s ++ t) = Py.rev t ++ Py.rev s.
Proof.
  induction s as [|c s IH].
  - change ("" ++ t) with t. by rewrite string_app_nil_r.
  - change (String c s ++ t) with (String c (s ++ t)).
    rewrite !rev_cons, IH, string_app_assoc. reflexivity.
Qed.

Lemma string_app_inv_tail (s1 s2 t : string) : s1 ++ t = s2 ++ t -> s1 = s2.
Proof.
  intros H. apply (f_equal Py.rev) in H. rewrite !rev_app in H.
  apply (inj (String.append (Py.rev t))) in H.
  apply (f_equal Py.rev) in H. by rewrite !rev_involutive in H.
Qed.

(** X5.  Different bands have different temporary files and different
    keys in the object store, so that the conversions of two bands never
    write to the same place. *)
Theorem band_paths_distinct :
  forall (self : INSAT3DProcessor.t) (band1 band2 : string),
    band1 <> band2 ->
    INSAT3DProcessor.temp_file band1 <> INSAT3DProcessor.temp_file band2
    /\ INSAT3DProcessor.s3_key self band1 <> INSAT3DProcessor.s3_key self band2.
Proof.
  intros self band1 band2 Hne.
  unfold INSAT3DProcessor.temp_file, INSAT3DProcessor.s3_key.
  split; intros H; apply Hne.
  - apply (inj (String.append "/tmp/")) in H. by apply string_app_inv_tail in H.
  - apply (inj (String.append (INSAT3DProcessor.filename self))) in H.
    apply (inj (String.append "/")) in H. by apply string_app_inv_tail in H.
Qed.

Lemma band_paths_distinct_witness :
  INSAT3DProcessor.temp_file "VIS" <> INSAT3DProcessor.temp_file "VIS_RADIANCE"
  /\ INSAT3DProcessor.s3_key twelve_self "VIS"
     <> INSAT3DProcessor.s3_key twelve_self "VIS_RADIANCE".
Proof. apply (band_paths_distinct twelve_self "VIS" "VIS_RADIANCE"). discriminate. Defined.

(** ** The orchestrator never raises *)

Lemma process_band_events E self band path w :
  exists tail, events (INSAT3DProcessor.process_band E self (band, path) w).2
               = (events w ++ tail)%list.
Proof.
  rewrite process_band_world, convert_and_upload_unfold. cbn zeta.
  destruct (succeeds _ 600).
  - set (w1 := add_event _ _).
    destruct (cleanup_events E (INSAT3DProcessor.temp_file band) w1) as (tail & Hev & _).
    destruct (upload_file E _ _ _ _) as [fault|];
    destruct (cleanup E (INSAT3DProcessor.temp_file band) w1) as [[[]|e] w2];
      cbn [snd] in *; rewrite Hev; unfold w1, add_event, after_run; cbn [events];
      rewrite <- !app_assoc; eauto.
  - set (w1 := after_run E _ w).
    destruct (cleanup_events E (INSAT3DProcessor.temp_file band) w1) as (tail & Hev & _).
    destruct (cleanup E (INSAT3DProcessor.temp_file band) w1) as [[[]|e] w2];
      cbn [snd] in *; rewrite Hev; unfold w1, after_run; cbn [events];
      rewrite <- !app_assoc; eauto.
Qed.

Lemma as_completed_events E self sds completion w :
  exists tail, events (INSAT3DProcessor.as_completed E self sds completion w).2
               = (events w ++ tail)%list.
Proof.
  revert w. induction completion as [|band rest IH]; intros w.
  - exists []. cbn. by rewrite app_nil_r.
  - rewrite as_completed_cons. destruct (sds !! band) as [path|]; [|apply IH].
    destruct (process_band_events E self band path w) as [t1 H1].
    destruct (INSAT3DProcessor.process_band E self (band, path) w) as [r w1].
    cbn [snd] in H1. destruct (IH w1) as [t2 H2].
    destruct (INSAT3DProcessor.as_completed E self sds rest w1) as [[fs|e] w2];
      cbn [snd] in *; rewrite H2, H1, <- app_assoc; eauto.
Qed.

Lemma get_subdatasets_world E self w :
  exists sds, INSAT3DProcessor._get_subdatasets E self w
              = (Ok sds, after_run E (inspection_cmd self w) w).
Proof. rewrite get_subdatasets_unfold. eexists. reflexivity. Qed.

Lemma process_total_events :
  forall (E : env) (self : INSAT3DProcessor.t) (completion : list string) (w : world),
    (0 < INSAT3DProcessor.max_workers self)%Z ->
    let w1 := (MetadataHandler.upload_metadata E (INSAT3DProcessor.metadata_handler self)
                 (INSAT3DProcessor.input_path self) w).2 in
    exists (results : Py.dict) (w' : world) (tail : list event),
      INSAT3DProcessor.process E self completion w = (Ok results, w')
      /\ events w' = (events w1 ++ EvRun (inspection_cmd self w1) :: tail)%list.
Proof.
  intros E self completion w Hpool w1. rewrite process_unfold, discover_unfold.
  rewrite (pool_bound_positive _ Hpool).
  fold w1. destruct (get_subdatasets_world E self w1) as [sds ->].
  destruct (bool_decide (sds = ∅)).
  - exists Py.dict_empty, (after_run E (inspection_cmd self w1) w1), [].
    split; reflexivity.
  - destruct (as_completed_events E self sds completion
                (after_run E (inspection_cmd self w1) w1)) as [tail Hev].
    destruct (as_completed_total E self sds completion
                (after_run E (inspection_cmd self w1) w1)) as (futures & w' & Hac).
    rewrite Hac in *. cbn [snd] in Hev.
    exists (INSAT3DProcessor.collect futures), w', tail. split; [reflexivity|].
    rewrite Hev. unfold after_run. cbn [events]. by rewrite <- app_assoc.
Qed.

(** X6.  With a pool that has room for at least one worker, [process]
    never raises, whatever the tools and the stores do: it returns a
    mapping.  Its outside calls begin with those of the metadata step, and
    the inspection of the input path follows them in every case, also when
    the metadata step has failed. *)
Theorem process_returns :
  forall (E : env) (self : INSAT3DProcessor.t) (completion : list string) (w : world),
    (0 < INSAT3DProcessor.max_workers self)%Z ->
    let w1 := (MetadataHandler.upload_metadata E (INSAT3DProcessor.metadata_handler self)
                 (INSAT3DProcessor.input_path self) w).2 in
    exists (results : Py.dict) (w' : world) (tail : list event),
      INSAT3DProcessor.process E self completion w = (Ok results, w')
      /\ events w' = (events w1 ++ EvRun (inspection_cmd self w1) :: tail)%list.
Proof. intros E self completion w Hpool. by apply process_total_events. Qed.

Lemma process_returns_witness :
  let w1 := (MetadataHandler.upload_metadata (small_env ["VIS"] 1)
               (INSAT3DProcessor.metadata_handler twelve_self)
               (INSAT3DProcessor.input_path twelve_self) lambda_world).2 in
  exists (results : Py.dict) (w' : world) (tail : list event),
    INSAT3DProcessor.process (small_env ["VIS"] 1) twelve_self ["VIS"] lambda_world
    = (Ok results, w')
    /\ events w' = (events w1 ++ EvRun (inspection_cmd twelve_self w1) :: tail)%list.
Proof.
  apply (process_returns (small_env ["VIS"] 1) twelve_self ["VIS"] lambda_world).
  reflexivity.
Defined.

(** X23.  With a pool bound that is not positive, [process] raises as soon
    as a band has been discovered: the pool cannot be created, the fault is
    a [ValueError] outside every handler of [process], and no conversion is
    started. *)
Theorem process_without_workers :
  forall (E : env) (self : INSAT3DProcessor.t) (completion : list string) (w : world)
         (sds : gmap string string) (w2 : world),
    discover E self w = (Ok sds, w2) ->
    sds <> ∅ ->
    (INSAT3DProcessor.max_workers self <= 0)%Z ->
    INSAT3DProcessor.process E self completion w
    = (Raise (Py.ValueError "max_workers must be greater than 0"), w2).
Proof.
  intros E self completion w sds w2 Hd Hne Hpool.
  rewrite process_unfold, Hd, (bool_decide_eq_false_2 _ Hne).
  apply Z.leb_le in Hpool. rewrite Hpool. reflexivity.
Qed.

Lemma process_without_workers_witness :
  INSAT3DProcessor.process (small_env ["VIS"] 0) idle_self ["VIS"] lambda_world
  = (Raise (Py.ValueError "max_workers must be greater than 0"),
     (discover (small_env ["VIS"] 0) idle_self lambda_world).2).
Proof.
  apply (process_without_workers (small_env ["VIS"] 0) idle_self ["VIS"] lambda_world
           {[ "VIS" := "HDF5:" ++ Py.dquote ++ source_path ++ Py.dquote ++ "://IMG_VIS" ]}).
  - vm_compute. exact eq_refl.
  - apply insert_non_empty.
  - discriminate.
Defined.

(** ** Metadata: what one upload does *)

Lemma items_sent_app evs1 evs2 :
  items_sent (evs1 ++ evs2) = (items_sent evs1 ++ items_sent evs2)%list.
Proof. apply omap_app. Qed.

(** X7.  [upload_metadata] never raises.  It returns [True] exactly when
    it has sent one item to the table [Files] and the store has accepted
    it; a fault of the store is answered with [False]. *)
Theorem upload_metadata_outcome :
  forall (E : env) (self : MetadataHandler.t) (path : string) (w : world),
    exists ok : bool,
      (MetadataHandler.upload_metadata E self path w).1 = Ok ok
      /\ (ok = true <->
          exists item,
            items_sent (events (MetadataHandler.upload_metadata E self path w).2)
            = (items_sent (events w) ++ [(MetadataHandler.TABLE_NAME, item)])%list
            /\ put_item E (after_extract E path w) MetadataHandler.TABLE_NAME item
               = None).
Proof.
  intros E self path w. destruct (extract_metadata_total E path w) as [raw Hx].
  rewrite (upload_metadata_unfold _ _ _ _ _ Hx). cbn zeta.
  assert (Hrun : items_sent (events (after_extract E path w)) = items_sent (events w)).
  { unfold after_extract. cbn [events]. rewrite items_sent_app. cbn. apply app_nil_r. }
  destruct (_ || _); cbn [fst snd].
  - exists false. split; [reflexivity|]. split; [discriminate|].
    intros (item & Hsent & _). rewrite Hrun in Hsent.
    apply (f_equal length) in Hsent. rewrite length_app in Hsent. cbn in Hsent. lia.
  - eexists. split; [reflexivity|]. unfold add_event. cbn [events].
    rewrite items_sent_app, Hrun. cbn. split.
    + intros Hok. apply bool_decide_eq_true in Hok. eauto.
    + intros (item & Hsent & Hput). apply app_inv_head in Hsent.
      injection Hsent as <-. by apply bool_decide_eq_true.
Qed.

(** X8.  When the metadata tool cannot be started, exits with another code
    than zero, or prints what is not text, or a text that is not JSON or
    has no [metadata] member, [upload_metadata] returns [False] and sends
    nothing to the store: the run of the tool is its only outside call. *)
Theorem upload_metadata_tool_failure :
  forall (E : env) (self : MetadataHandler.t) (path : string) (w : world),
    extraction_fails E (spawn E w ["gdalinfo"; "-json"; path]).1 = true ->
    MetadataHandler.upload_metadata E self path w
    = (Ok false, after_extract E path w).
Proof.
  intros E self path w Hf.
  assert (Hx : MetadataHandler._extract_metadata E path w
               = (Ok ∅, after_extract E path w)).
  { unfold MetadataHandler._extract_metadata, after_extract.
    unfold mbind, M_bind, bind. rewrite start_spec. cbn [fst snd].
    unfold extraction_fails in Hf. unfold Subprocess.run, Subprocess.exceeds.
    destruct (spawn E w _).1 as [msg|d rc out err|d rc reason];
      [destruct msg; reflexivity| |reflexivity].
    cbn [andb]. destruct (rc =? 0)%Z; cbn [negb orb] in *; [|reflexivity].
    cbn [Subprocess.stdout].
    destruct (json_loads E out) as [[domains|]|]; [discriminate | reflexivity..]. }
  rewrite (upload_metadata_unfold _ _ _ _ _ Hx). cbn zeta.
  rewrite (bool_decide_eq_true_2 (∅ = ∅)) by reflexivity. reflexivity.
Qed.

Lemma upload_metadata_tool_failure_witness :
  MetadataHandler.upload_metadata no_metadata_env handler source_path lambda_world
  = (Ok false, after_extract no_metadata_env source_path lambda_world).
Proof.
  apply (upload_metadata_tool_failure no_metadata_env handler source_path lambda_world).
  reflexivity.
Defined.

(** ** Metadata: the keys of the extracted and of the processed mapping *)

Lemma dict_update_dom (d : gmap string Py.value) items k :
  k ∈ dom (MetadataHandler.dict_update d items) <-> k ∈ dom d \/ k ∈ items.*1.
Proof.
  unfold MetadataHandler.dict_update. revert d.
  induction items as [|[k' v] items IH]; intros d; cbn [foldl fmap list_fmap].
  - rewrite elem_of_nil. tauto.
  - rewrite IH, dom_insert, elem_of_union, elem_of_singleton, elem_of_cons. cbn.
    tauto.
Qed.

Lemma flatten_from_dom (init : gmap string Py.value) domains k :
  k ∈ dom (foldl (fun processed_metadata dv =>
                    let '(domain, values) := dv in
                    if String.eqb domain EmptyString
                    then MetadataHandler.dict_update processed_metadata values
                    else <[domain := Py.VDict values]> processed_metadata)
                 init domains)
  <-> k ∈ dom init
      \/ (k <> "" /\ k ∈ domains.*1)
      \/ (exists items, ("", items) ∈ domains /\ k ∈ items.*1).
Proof.
  revert init. induction domains as [|[d values] domains IH]; intros init.
  - cbn. split; [tauto|]. intros [H|[[_ H]|(items & H & _)]]; [done|..];
      by apply elem_of_nil in H.
  - cbn [foldl]. rewrite IH. cbn [fmap list_fmap fst].
    destruct (String.eqb_spec d "") as [->|Hd].
    + rewrite dict_update_dom. split.
      * intros [[H|H]|[[Hk H]|(items & H & Hin)]].
        -- by left.
        -- right; right. exists values. split; [apply list_elem_of_here | done].
        -- right; left. split; [done|]. by apply list_elem_of_further.
        -- right; right. exists items. split; [by apply list_elem_of_further | done].
      * intros [H|[[Hk H]|(items & H & Hin)]].
        -- left; by left.
        -- apply elem_of_cons in H as [->|H]; [done|]. right; left. done.
        -- apply elem_of_cons in H as [[= <-]|H].
           ++ left; by right.
           ++ right; right. by exists items.
    + rewrite dom_insert, elem_of_union, elem_of_singleton. split.
      * intros [[->|H]|[[Hk H]|(items & H & Hin)]].
        -- right; left. split; [done | apply list_elem_of_here].
        -- by left.
        -- right; left. split; [done | by apply list_elem_of_further].
        -- right; right. exists items. split; [by apply list_elem_of_further | done].
      * intros [H|[[Hk H]|(items & H & Hin)]].
        -- left; by right.
        -- apply elem_of_cons in H as [->|H]; [left; by left|]. right; left. done.
        -- apply elem_of_cons in H as [[= ? ?]|H]; [congruence|].
           right; right. by exists items.
Qed.

(** X9.  The mapping that [_extract_metadata] builds from the decoded
    report has as its keys the names of the named domains and the item
    names of the default domain, and no others: every item of the default
    domain is at the top level, every named domain is one entry. *)
Theorem flatten_domains_keys :
  forall (domains : list (string * list (string * Py.value))) (k : string),
    k ∈ dom (MetadataHandler.flatten_domains domains)
    <-> (k <> "" /\ k ∈ domains.*1)
        \/ (exists items, ("", items) ∈ domains /\ k ∈ items.*1).
Proof.
  intros domains k. unfold MetadataHandler.flatten_domains.
  rewrite flatten_from_dom, dom_empty, elem_of_empty. tauto.
Qed.

Lemma upload_metadata_outcome_witness :
  (MetadataHandler.upload_metadata refusing_env handler source_path lambda_world).1
  = Ok false.
Proof.
  destruct (upload_metadata_outcome refusing_env handler source_path lambda_world)
    as (ok & Hok & Hiff).
  rewrite Hok. destruct ok; [|reflexivity].
  destruct (proj1 Hiff eq_refl) as (item & _ & Hput). discriminate Hput.
Defined.

Lemma none_or_value (v : Py.value) : v = Py.VNone \/ v <> Py.VNone.
Proof. destruct v; [by left | by right..]. Qed.

Lemma required_not_timestamp k :
  k ∈ MetadataHandler.REQUIRED_FIELDS -> k <> "acquisition_timestamp".
Proof.
  intros Hreq ->. unfold MetadataHandler.REQUIRED_FIELDS in Hreq.
  repeat (apply elem_of_cons in Hreq as [Hreq|Hreq]; [discriminate Hreq|]).
  by apply elem_of_nil in Hreq.
Qed.

(** X10.  The processed record has a value under a key exactly when the
    raw mapping has one there that is not [None], or has a [None] under a
    required field, or the key is [acquisition_timestamp] and the date and
    the time pass the truth test: nothing is invented, and no raw field
    with a value is lost. *)
Theorem process_metadata_keys :
  forall (raw : gmap string Py.value) (k : string),
    is_Some (MetadataHandler._process_metadata raw !! k)
    <-> (exists v, raw !! k = Some v
                   /\ (v <> Py.VNone \/ k ∈ MetadataHandler.REQUIRED_FIELDS))
        \/ (k = "acquisition_timestamp"
            /\ Py.truthy (default (Py.VStr "") (raw !! "Acquisition_Date"))
               && Py.truthy (default (Py.VStr "") (raw !! "Acquisition_Time_in_GMT"))
               = true).
Proof.
  intros raw k. rewrite process_metadata_lookup, before_remaining_lookup. cbn zeta.
  set (ts := Py.truthy _ && Py.truthy _).
  destruct (decide (k = "acquisition_timestamp")) as [->|Hk].
  - rewrite (bool_decide_eq_true_2 ("acquisition_timestamp" = "acquisition_timestamp"))
      by reflexivity.
    rewrite (bool_decide_eq_false_2
               ("acquisition_timestamp" ∈ MetadataHandler.REQUIRED_FIELDS))
      by (intros H; by apply required_not_timestamp in H).
    cbn [andb]. destruct (raw !! "acquisition_timestamp") as [v|] eqn:Hv.
    + destruct (none_or_value v) as [->|Hn].
      * destruct ts; split.
        -- intros _. right. done.
        -- intros _. eauto.
        -- intros [? H]; discriminate H.
        -- intros [(v & [= <-] & [H|H])|[_ H]]; [done| |discriminate H].
           by apply required_not_timestamp in H.
      * split; [intros _; left; eauto|]. intros _. destruct v; eauto; done.
    + destruct ts; split.
      * intros _. right. done.
      * eauto.
      * intros [? H]; discriminate H.
      * intros [(v & H & _)|[_ H]]; discriminate H.
  - rewrite (bool_decide_eq_false_2 _ Hk). cbn [andb].
    destruct (raw !! k) as [v|] eqn:Hv.
    + destruct (none_or_value v) as [->|Hn].
      * destruct (decide (k ∈ MetadataHandler.REQUIRED_FIELDS)) as [Hr|Hr].
        -- rewrite (bool_decide_eq_true_2 _ Hr). cbn. split; [|eauto].
           intros _. left. eauto.
        -- rewrite (bool_decide_eq_false_2 _ Hr). split.
           ++ intros [? H]; discriminate H.
           ++ intros [(v & [= <-] & [H|H])|[H _]]; done.
      * split; [intros _; left; eauto|]. intros _. destruct v; eauto; done.
    + destruct (bool_decide _); cbn; split.
      * intros [? H]; discriminate H.
      * intros [(v & H & _)|[H _]]; done.
      * intros [? H]; discriminate H.
      * intros [(v & H & _)|[H _]]; done.
Qed.

(** X11.  The processed record is empty, so that the upload is refused,
    exactly when every value of the raw mapping is [None] and none of its
    keys is a required field. *)
Theorem process_metadata_empty :
  forall raw : gmap string Py.value,
    MetadataHandler._process_metadata raw = ∅
    <-> forall k v, raw !! k = Some v ->
                    v = Py.VNone /\ k ∉ MetadataHandler.REQUIRED_FIELDS.
Proof.
  intros raw. rewrite map_empty. split.
  - intros Hall k v Hk. specialize (Hall k).
    rewrite process_metadata_lookup, Hk in Hall.
    destruct (none_or_value v) as [->|Hn]; [|by destruct v].
    split; [reflexivity|]. intros Hreq.
    rewrite before_remaining_lookup in Hall. cbn zeta in Hall.
    rewrite (bool_decide_eq_false_2 _ (required_not_timestamp k Hreq)) in Hall.
    cbn [andb] in Hall. rewrite (bool_decide_eq_true_2 _ Hreq), Hk in Hall.
    discriminate Hall.
  - intros Hall k. rewrite process_metadata_lookup.
    assert (Hb : before_remaining raw !! k = None).
    { rewrite before_remaining_lookup. cbn zeta.
      assert (Hd : Py.truthy (default (Py.VStr "") (raw !! "Acquisition_Date")) = false).
      { destruct (raw !! "Acquisition_Date") as [d|] eqn:Hd; [|reflexivity].
        by destruct (Hall _ _ Hd) as [-> _]. }
      rewrite Hd, andb_false_r.
      destruct (decide (k ∈ MetadataHandler.REQUIRED_FIELDS)) as [Hr|Hr].
      - rewrite (bool_decide_eq_true_2 _ Hr).
        destruct (raw !! k) as [v|] eqn:Hk; [|reflexivity].
        by destruct (Hall _ _ Hk) as [_ ?].
      - by rewrite (bool_decide_eq_false_2 _ Hr). }
    destruct (raw !! k) as [v|] eqn:Hk; [|exact Hb].
    by destruct (Hall _ _ Hk) as [-> _].
Qed.

(** X12.  From a raw value to the attribute that is sent: a string, an
    integer, a boolean and a nested mapping are sent as text with the tag
    ['S']; a float and a list that has not exactly one element are sent
    with the tag ['N']; a list of one element is sent as that element,
    with ['S'] when the element is a string and ['N'] otherwise. *)
Theorem raw_value_attribute :
  forall (raw : gmap string Py.value) (k : string) (v : Py.value),
    raw !! k = Some v -> v <> Py.VNone ->
    MetadataHandler.dynamodb_item (MetadataHandler._process_metadata raw) !! k
    = Some match v with
           | Py.VList [x] => Attr (if Py.is_str x then S_ else N_) (Py.str x)
           | Py.VList _ | Py.VFloat _ => Attr N_ (Py.str v)
           | _ => Attr S_ (Py.str v)
           end.
Proof.
  intros raw k v Hk Hn. unfold MetadataHandler.dynamodb_item.
  rewrite lookup_fmap, process_metadata_lookup, Hk.
  destruct v as [| | | | |l|]; try reflexivity; [done|].
  destruct l as [|x [|y l]]; try reflexivity.
  cbn. destruct (Py.is_str x); reflexivity.
Qed.

Lemma raw_value_attribute_witness :
  MetadataHandler.dynamodb_item
    (MetadataHandler._process_metadata {[ "Gain" := Py.VInt 5 ]}) !! "Gain"
  = Some (Attr S_ "5").
Proof.
  apply (raw_value_attribute {[ "Gain" := Py.VInt 5 ]} "Gain" (Py.VInt 5));
    [reflexivity | discriminate].
Defined.

(** ** Discovery: what a parsed entry can look like *)

Lemma mem_char_rev_onto c s acc :
  Py.mem_char c (Py.rev_onto s acc) = Py.mem_char c s || Py.mem_char c acc.
Proof.
  revert acc. induction s as [|d s IH]; intros acc; [reflexivity|].
  cbn [Py.rev_onto Py.mem_char]. rewrite IH. cbn [Py.mem_char].
  destruct (Ascii.eqb c d), (Py.mem_char c s); reflexivity.
Qed.

Lemma mem_char_rev c s : Py.mem_char c (Py.rev s) = Py.mem_char c s.
Proof. unfold Py.rev. rewrite mem_char_rev_onto. cbn. apply orb_false_r. Qed.

Lemma mem_char_lstrip c p s :
  Py.mem_char c s = false -> Py.mem_char c (Py.lstrip_by p s) = false.
Proof.
  induction s as [|d s IH]; [reflexivity|]. intros H. cbn [Py.lstrip_by].
  destruct (p d); [|exact H]. apply IH. cbn [Py.mem_char] in H.
  by apply orb_false_elim in H as [_ H].
Qed.

Lemma mem_char_strip c p s :
  Py.mem_char c s = false -> Py.mem_char c (Py.strip_by p s) = false.
Proof.
  intros H. unfold Py.strip_by. rewrite mem_char_rev. apply mem_char_lstrip.
  rewrite mem_char_rev. by apply mem_char_lstrip.
Qed.

(** The fields of a split have no character that the text does not have. *)
Lemma split_go_chars c sep k cur s :
  Py.mem_char c cur = false -> Py.mem_char c s = false ->
  Forall (fun f => Py.mem_char c f = false) (Py.split_go sep k cur s).
Proof.
  revert k cur. induction s as [|d s IH]; intros k cur Hcur Hs.
  - cbn. constructor; [|constructor]. by rewrite mem_char_rev.
  - cbn [Py.mem_char] in Hs. apply orb_false_elim in Hs as [Hd Hs].
    cbn [Py.split_go]. destruct k as [|k]; [|by apply IH].
    destruct (String.prefix sep (String d s)).
    + constructor; [by rewrite mem_char_rev | by apply IH].
    + apply IH; [|done]. cbn [Py.mem_char]. by rewrite Hd, Hcur.
Qed.

Lemma prefix_char c d s : String.prefix (Py.char c) (String d s) = Ascii.eqb c d.
Proof.
  unfold Py.char. cbn [String.prefix].
  destruct (ascii_dec c d) as [->|Hne].
  - rewrite Ascii.eqb_refl. by destruct s.
  - symmetry. by apply Ascii.eqb_neq.
Qed.

(** The fields of a split at one character do not have that character. *)
Lemma split_go_char_fields c cur s :
  Py.mem_char c cur = false ->
  Forall (fun f => Py.mem_char c f = false) (Py.split_go (Py.char c) 0 cur s).
Proof.
  revert cur. induction s as [|d s IH]; intros cur Hcur.
  - cbn. constructor; [|constructor]. by rewrite mem_char_rev.
  - cbn [Py.split_go]. rewrite prefix_char.
    destruct (Ascii.eqb c d) eqn:Hd.
    + constructor; [by rewrite mem_char_rev|]. by apply IH.
    + apply IH. cbn [Py.mem_char]. by rewrite Hd, Hcur.
Qed.

Lemma lstrip_head p s c t : Py.lstrip_by p s = String c t -> p c = false.
Proof.
  induction s as [|d s IH]; [discriminate|]. cbn [Py.lstrip_by].
  destruct (p d) eqn:Hd; [exact IH|]. by intros [= <- _].
Qed.

Lemma lstrip_suffix p s : exists pre, s = pre ++ Py.lstrip_by p s.
Proof.
  induction s as [|d s [pre IH]]; [by exists ""|]. cbn [Py.lstrip_by].
  destruct (p d); [|by exists ""]. exists (String d pre).
  change (String d pre ++ Py.lstrip_by p s) with (String d (pre ++ Py.lstrip_by p s)).
  by rewrite <- IH.
Qed.

Lemma rev_eq_inv s t : Py.rev s = t -> s = Py.rev t.
Proof. intros <-. by rewrite rev_involutive. Qed.

(** A stripped text neither begins nor ends with a stripped character. *)
Lemma strip_by_ends p s c t :
  (Py.strip_by p s = String c t -> p c = false)
  /\ (Py.strip_by p s = t ++ Py.char c -> p c = false).
Proof.
  unfold Py.strip_by. split; intros H; apply rev_eq_inv in H.
  - destruct (lstrip_suffix p (Py.rev (Py.lstrip_by p s))) as [pre Hpre].
    rewrite H in Hpre. apply rev_eq_inv in Hpre.
    rewrite rev_app, rev_involutive in Hpre.
    change (String c t ++ Py.rev pre) with (String c (t ++ Py.rev pre)) in Hpre.
    by apply lstrip_head in Hpre.
  - unfold Py.rev in H at 2. rewrite rev_onto_snoc in H. by apply lstrip_head in H.
Qed.

(** X13.  Whatever the line, a band that [_get_subdatasets] takes from it
    has no double quote and no [=] in its name, and its access path has no
    [=] and neither begins nor ends with a double quote. *)
Theorem subdataset_of_line_shape :
  forall (line band path : string),
    INSAT3DProcessor.subdataset_of_line line = Ok (Some (band, path)) ->
    Py.mem_char Py.DQUOTE band = false
    /\ Py.mem_char "="%char band = false
    /\ Py.mem_char "="%char path = false
    /\ (forall t, path <> String Py.DQUOTE t)
    /\ (forall t, path <> t ++ Py.dquote).
Proof.
  intros line band path. unfold INSAT3DProcessor.subdataset_of_line.
  destruct (_ && _); [|discriminate].
  destruct (Py.split "=" line !! 1%nat) as [field|] eqn:Hfield; [|discriminate].
  destruct (Py.split "://IMG_" (Py.strip field) !! 1%nat) as [rest|] eqn:Hrest;
    [|discriminate].
  intros [= <- <-].
  assert (Hf : Py.mem_char "="%char field = false).
  { pose proof (split_go_char_fields "="%char "" line eq_refl) as Hall.
    rewrite Forall_lookup in Hall. exact (Hall _ _ Hfield). }
  assert (Hp : Py.mem_char "="%char (Py.strip field) = false)
    by (by apply mem_char_strip).
  assert (Hr : Py.mem_char "="%char rest = false).
  { pose proof (split_go_chars "="%char "://IMG_" 0 "" (Py.strip field) eq_refl Hp)
      as Hall.
    rewrite Forall_lookup in Hall. exact (Hall _ _ Hrest). }
  pose proof (split_go_char_fields Py.DQUOTE "" rest eq_refl) as Hq.
  pose proof (split_go_chars "="%char Py.dquote 0 "" rest eq_refl Hr) as He.
  change (Py.split_go (Py.char Py.DQUOTE) 0 "" rest)
    with (Py.split Py.dquote rest) in Hq.
  change (Py.split_go Py.dquote 0 "" rest) with (Py.split Py.dquote rest) in He.
  repeat split.
  - destruct (Py.split Py.dquote rest) as [|f fs]; [reflexivity|].
    cbn [List.hd]. by inversion Hq.
  - destruct (Py.split Py.dquote rest) as [|f fs]; [reflexivity|].
    cbn [List.hd]. by inversion He.
  - by apply mem_char_strip.
  - intros t H. apply (strip_by_ends _ _ Py.DQUOTE t) in H. discriminate H.
  - intros t H. apply (strip_by_ends _ _ Py.DQUOTE t) in H. discriminate H.
Qed.

Lemma subdataset_of_line_shape_witness :
  Py.mem_char Py.DQUOTE "VIS" = false
  /\ Py.mem_char "="%char "VIS" = false
  /\ Py.mem_char "="%char
       ("HDF5:" ++ Py.dquote ++ source_path ++ Py.dquote ++ "://IMG_VIS") = false
  /\ (forall t, "HDF5:" ++ Py.dquote ++ source_path ++ Py.dquote ++ "://IMG_VIS"
                <> String Py.DQUOTE t)
  /\ (forall t, "HDF5:" ++ Py.dquote ++ source_path ++ Py.dquote ++ "://IMG_VIS"
                <> t ++ Py.dquote).
Proof.
  apply (subdataset_of_line_shape
           ("  SUBDATASET_1_NAME=HDF5:" ++ Py.dquote ++ source_path ++ Py.dquote
              ++ "://IMG_VIS")).
  vm_compute. exact eq_refl.
Defined.

(** ** Discovery: which line gives the entry of a band *)

Lemma parse_subdatasets_lines output :
  INSAT3DProcessor.parse_subdatasets output = parse_lines (Py.splitlines output).
Proof. reflexivity. Qed.

Lemma parse_lines_snoc lines l :
  parse_lines (lines ++ [l])
  = match parse_lines lines with
    | Raise e => Raise e
    | Ok subdatasets =>
        match INSAT3DProcessor.subdataset_of_line l with
        | Raise e => Raise e
        | Ok None => Ok subdatasets
        | Ok (Some (band_name, path)) => Ok (<[band_name := path]> subdatasets)
        end
    end.
Proof. unfold parse_lines. rewrite foldl_app. reflexivity. Qed.

Lemma snoc_eq_middle {A} (lines : list A) l before line after :
  (lines ++ [l] = before ++ line :: after)%list ->
  (after = [] /\ lines = before /\ l = line)
  \/ (exists after', after = (after' ++ [l])%list
                     /\ lines = (before ++ line :: after')%list).
Proof.
  intros H. destruct after as [|x after _] using rev_ind.
  - left. change (before ++ [line])%list with (before ++ [line])%list in H.
    apply app_inj_tail in H as [-> ->]. done.
  - right. exists after. rewrite app_comm_cons, app_assoc in H.
    apply app_inj_tail in H as [-> ->]. done.
Qed.

Lemma parse_lines_entries lines :
  forall m, parse_lines lines = Ok m ->
  forall band path, m !! band = Some path <-> last_declaration lines band path.
Proof.
  induction lines as [|l lines IH] using rev_ind; intros m Hm band path.
  - injection Hm as <-. rewrite lookup_empty. split; [discriminate|].
    intros (before & line & after & H & _). by destruct before.
  - rewrite parse_lines_snoc in Hm.
    destruct (parse_lines lines) as [m0|e]; [|discriminate].
    specialize (IH m0 eq_refl band path).
    destruct (INSAT3DProcessor.subdataset_of_line l) as [[[b p]|]|e] eqn:Hl;
      [| |discriminate]; injection Hm as <-.
    + destruct (decide (b = band)) as [->|Hne].
      * rewrite lookup_insert_eq. split.
        -- intros [= <-]. exists lines, l, []. split; [done|]. split; [done|].
           intros l' p' Hin. by apply elem_of_nil in Hin.
        -- intros (before & line & after & H & Hline & Hafter).
           apply snoc_eq_middle in H as [(_ & _ & <-)|(after' & -> & _)].
           ++ congruence.
           ++ exfalso. apply (Hafter l p); [|done].
              apply elem_of_app. right. apply list_elem_of_here.
      * rewrite lookup_insert_ne by done. rewrite IH. split.
        -- intros (before & line & after & -> & Hline & Hafter).
           exists before, line, (after ++ [l])%list.
           split; [by rewrite <- app_assoc|]. split; [done|].
           intros l' p' Hin. apply elem_of_app in Hin as [Hin|Hin].
           ++ by apply Hafter.
           ++ apply list_elem_of_singleton in Hin as ->. congruence.
        -- intros (before & line & after & H & Hline & Hafter).
           apply snoc_eq_middle in H as [(_ & _ & <-)|(after' & -> & ->)];
             [congruence|].
           exists before, line, after'. split; [done|]. split; [done|].
           intros l' p' Hin. apply Hafter. apply elem_of_app. by left.
    + rewrite IH. split.
      * intros (before & line & after & -> & Hline & Hafter).
        exists before, line, (after ++ [l])%list.
        split; [by rewrite <- app_assoc|]. split; [done|].
        intros l' p' Hin. apply elem_of_app in Hin as [Hin|Hin].
        -- by apply Hafter.
        -- apply list_elem_of_singleton in Hin as ->. congruence.
      * intros (before & line & after & H & Hline & Hafter).
        apply snoc_eq_middle in H as [(_ & _ & <-)|(after' & -> & ->)];
          [congruence|].
        exists before, line, after'. split; [done|]. split; [done|].
        intros l' p' Hin. apply Hafter. apply elem_of_app. by left.
Qed.

Lemma parse_lines_raises lines :
  (exists e, parse_lines lines = Raise e)
  <-> exists l e, l ∈ lines /\ INSAT3DProcessor.subdataset_of_line l = Raise e.
Proof.
  induction lines as [|l lines IH] using rev_ind.
  - split; [intros [e H]; discriminate H|].
    intros (l & e & Hin & _). by apply elem_of_nil in Hin.
  - rewrite parse_lines_snoc. split.
    + intros [e H]. destruct (parse_lines lines) as [m0|e0].
      * destruct (INSAT3DProcessor.subdataset_of_line l) as [[[b p]|]|e1] eqn:Hl;
          try discriminate H.
        exists l, e1. split; [|done]. apply elem_of_app. right.
        apply list_elem_of_here.
      * destruct (proj1 IH (ex_intro _ e0 eq_refl)) as (l' & e' & Hin & Hl').
        exists l', e'. split; [|done]. apply elem_of_app. by left.
    + intros (l' & e' & Hin & Hl'). apply elem_of_app in Hin as [Hin|Hin].
      * destruct (proj2 IH (ex_intro _ l' (ex_intro _ e' (conj Hin Hl')))) as [e0 ->].
        eauto.
      * apply list_elem_of_singleton in Hin as ->.
        destruct (parse_lines lines) as [m0|e0]; [|eauto]. rewrite Hl'. eauto.
Qed.

(** X14.  The parsing of the inspection output fails exactly when one of
    its lines makes the loop raise.  When it does not fail, the mapping
    has the entry [band -> path] exactly when some line gives that band
    and that path and no later line gives the same band: of two lines for
    one band the later one is kept, and lines without the markers do not
    count. *)
Theorem parse_subdatasets_entries :
  forall output : string,
    ((exists e, INSAT3DProcessor.parse_subdatasets output = Raise e)
     <-> exists l e, l ∈ Py.splitlines output
                     /\ INSAT3DProcessor.subdataset_of_line l = Raise e)
    /\ forall m, INSAT3DProcessor.parse_subdatasets output = Ok m ->
         forall band path,
           m !! band = Some path
           <-> last_declaration (Py.splitlines output) band path.
Proof.
  intros output. rewrite parse_subdatasets_lines. split.
  - apply parse_lines_raises.
  - apply parse_lines_entries.
Qed.

Lemma parse_subdatasets_entries_witness :
  last_declaration (Py.splitlines duplicate_output) "VIS"
    ("HDF5:" ++ Py.dquote ++ "b.h5" ++ Py.dquote ++ "://IMG_VIS").
Proof.
  apply (proj2 (parse_subdatasets_entries duplicate_output)
           {[ "VIS" := "HDF5:" ++ Py.dquote ++ "b.h5" ++ Py.dquote ++ "://IMG_VIS" ]}).
  - vm_compute. exact eq_refl.
  - reflexivity.
Defined.

(** ** The processor's constructor *)

Lemma foldl_insert_lookup (l : list (string * string)) (m : gmap string string) k :
  NoDup l.*1 ->
  foldl (fun acc kv => <[kv.1 := kv.2]> acc) m l !! k
  = match (list_to_map l : gmap string string) !! k with
    | Some v => Some v
    | None => m !! k
    end.
Proof.
  revert m. induction l as [|[a b] l IH]; intros m Hnd; [reflexivity|].
  cbn in Hnd. apply NoDup_cons in Hnd as [Ha Hnd].
  cbn [foldl list_to_map foldr fst snd uncurry]. rewrite IH by done.
  destruct (decide (a = k)) as [->|Hne].
  - rewrite (not_elem_of_list_to_map_1 _ _ Ha).
    rewrite !lookup_insert_eq. reflexivity.
  - rewrite !lookup_insert_ne by done. reflexivity.
Qed.

Lemma GDAL_ENVIRON_keys : NoDup INSAT3DProcessor.GDAL_ENVIRON.*1.
Proof. apply (bool_decide_unpack _). vm_compute. exact I. Qed.

Lemma valid_regions_accepted region :
  region ∈ MetadataHandler.VALID_REGIONS -> Boto3.valid_host_label region = true.
Proof.
  unfold MetadataHandler.VALID_REGIONS. intros H.
  apply elem_of_cons in H as [->|H]; [vm_compute; reflexivity|].
  apply elem_of_cons in H as [->|H]; [vm_compute; reflexivity|].
  apply elem_of_cons in H as [->|H]; [vm_compute; reflexivity|].
  by apply elem_of_nil in H.
Qed.

Lemma metadata_handler_init region w :
  MetadataHandler.__init__ region w
  = if bool_decide (region ∈ MetadataHandler.VALID_REGIONS)
    then (Ok {| MetadataHandler.region := region |}, w)
    else (Raise (Py.ValueError
                   ("Invalid region. Must be one of "
                    ++ "['ap-south-1', 'us-east-1', 'us-west-2']")), w).
Proof.
  unfold MetadataHandler.__init__, Boto3.client.
  destruct (decide (region ∈ MetadataHandler.VALID_REGIONS)) as [Hr|Hr].
  - rewrite (bool_decide_eq_true_2 _ Hr). unfold mbind, M_bind, bind.
    rewrite (valid_regions_accepted _ Hr). reflexivity.
  - rewrite (bool_decide_eq_false_2 _ Hr). reflexivity.
Qed.

Lemma processor_init_unfold input_path output_bucket max_workers w :
  let region := default "ap-south-1" (environ w !! "AWS_DEFAULT_REGION") in
  INSAT3DProcessor.__init__ input_path output_bucket max_workers w
  = if Boto3.valid_host_label region
    then if bool_decide (region ∈ MetadataHandler.VALID_REGIONS)
         then (Ok {| INSAT3DProcessor.input_path := "/vsis3/" ++ input_path;
                     INSAT3DProcessor.output_bucket := output_bucket;
                     INSAT3DProcessor.max_workers := max_workers;
                     INSAT3DProcessor.filename :=
                       Py.splitext_root (Py.basename input_path);
                     INSAT3DProcessor.region := region;
                     INSAT3DProcessor.metadata_handler :=
                       {| MetadataHandler.region := region |} |},
               {| fs := fs w;
                  environ := foldl (fun acc kv => <[kv.1 := kv.2]> acc) (environ w)
                               INSAT3DProcessor.GDAL_ENVIRON;
                  events := events w |})
         else (Raise (Py.ValueError
                        ("Invalid region. Must be one of "
                         ++ "['ap-south-1', 'us-east-1', 'us-west-2']")), w)
    else (Raise (Py.ValueError ("Provided region_name '" ++ region
                                ++ "' doesn't match a supported format.")), w).
Proof.
  intros region. unfold INSAT3DProcessor.__init__, Boto3.client.
  unfold mbind, M_bind, bind, os_environ_get. fold region.
  destruct (Boto3.valid_host_label region); [|reflexivity].
  cbn [ret]. unfold ret at 1. rewrite metadata_handler_init.
  destruct (bool_decide _); reflexivity.
Qed.

(** X15.  [INSAT3DProcessor.__init__] makes no outside call.  With a valid
    region it returns a processor whose input path is the given one behind
    [/vsis3/]; afterwards [os.environ] holds the nine GDAL settings and
    every other variable as before.  With an invalid region it raises
    [ValueError] and leaves [os.environ] as it was. *)
Theorem processor_init :
  forall (input_path output_bucket : string) (max_workers : Z) (w : world),
    let region := default "ap-south-1" (environ w !! "AWS_DEFAULT_REGION") in
    (region ∈ MetadataHandler.VALID_REGIONS ->
     exists self w',
       INSAT3DProcessor.__init__ input_path output_bucket max_workers w = (Ok self, w')
       /\ INSAT3DProcessor.input_path self = "/vsis3/" ++ input_path
       /\ INSAT3DProcessor.output_bucket self = output_bucket
       /\ INSAT3DProcessor.region self = region
       /\ fs w' = fs w /\ events w' = events w
       /\ forall k,
            environ w' !! k
            = match (list_to_map INSAT3DProcessor.GDAL_ENVIRON : gmap string string) !! k with
              | Some v => Some v
              | None => environ w !! k
              end)
    /\ (region ∉ MetadataHandler.VALID_REGIONS ->
        exists msg,
          INSAT3DProcessor.__init__ input_path output_bucket max_workers w
          = (Raise (Py.ValueError msg), w)).
Proof.
  intros input_path output_bucket max_workers w region.
  rewrite processor_init_unfold. fold region. split; intros Hr.
  - rewrite (valid_regions_accepted _ Hr), (bool_decide_eq_true_2 _ Hr).
    eexists _, _. split; [reflexivity|].
    do 5 (split; [reflexivity|]). intros k. cbn [environ].
    apply foldl_insert_lookup, GDAL_ENVIRON_keys.
  - rewrite (bool_decide_eq_false_2 _ Hr).
    destruct (Boto3.valid_host_label region); eexists; reflexivity.
Qed.

Lemma processor_init_witness :
  exists self w',
    INSAT3DProcessor.__init__ "src/3DIMG_01JAN2023_0130_L1B_STD.h5" "final-cog" 5
      lambda_world = (Ok self, w')
    /\ INSAT3DProcessor.input_path self = source_path
    /\ environ w' !! "GDAL_CACHEMAX" = Some "256"
    /\ environ w' !! "DESTINATION_BUCKET" = Some "final-cog".
Proof.
  destruct (proj1 (processor_init "src/3DIMG_01JAN2023_0130_L1B_STD.h5" "final-cog" 5
                     lambda_world))
    as (self & w' & Hinit & Hpath & _ & _ & _ & _ & Henv).
  - vm_compute. apply list_elem_of_here.
  - exists self, w'. split; [exact Hinit|]. split; [exact Hpath|].
    split; rewrite Henv; reflexivity.
Defined.

(** ** The entry points: requests that are refused *)

(** X16.  When the trigger event has no first record with the bucket name
    and the object key, [process_file] answers 500 with the text of the
    fault and makes no outside call; so does [lambda_handler] when the
    region is a valid one. *)
Theorem malformed_event_refused :
  forall (E : env) (event : Py.value) (completion : list string) (w : world) (e : exn),
    (event_field event "bucket" "name" = Raise e
     \/ (exists bucket, event_field event "bucket" "name" = Ok bucket)
        /\ event_field event "object" "key" = Raise e) ->
    process_file E event completion w
    = (Ok {| statusCode := 500; response_body := Failed (Py.str_exn e) |}, w)
    /\ (default "ap-south-1" (environ w !! "AWS_DEFAULT_REGION")
          ∈ MetadataHandler.VALID_REGIONS ->
        App.lambda_handler E event completion w
        = (Ok {| statusCode := 500; response_body := Failed (Py.str_exn e) |}, w)).
Proof.
  intros E event completion w e He. split.
  - unfold process_file, try_except, mbind, M_bind, bind, lift.
    destruct He as [-> | [[bucket ->] ->]]; reflexivity.
  - intros Hr. unfold App.lambda_handler.
    unfold try_except, mbind, M_bind, bind, lift, os_environ_get.
    rewrite metadata_handler_init, (bool_decide_eq_true_2 _ Hr).
    destruct He as [-> | [[bucket ->] ->]]; reflexivity.
Qed.

Lemma malformed_event_refused_witness :
  process_file (small_env ["VIS"] 0) (Py.VDict [("Records", Py.VList [])]) ["VIS"]
    lambda_world
  = (Ok {| statusCode := 500; response_body := Failed "list index out of range" |},
     lambda_world)
  /\ process_file (small_env ["VIS"] 0) (Py.VDict [("Records", Py.VDict [])]) ["VIS"]
       lambda_world
     = (Ok {| statusCode := 500; response_body := Failed "0" |}, lambda_world)
  /\ App.lambda_handler (small_env ["VIS"] 0)
       (Py.VDict [("Records", Py.VList [Py.VNone])]) ["VIS"] lambda_world
     = (Ok {| statusCode := 500;
              response_body := Failed "'NoneType' object is not subscriptable" |},
        lambda_world).
Proof.
  split; [|split].
  - apply (proj1 (malformed_event_refused (small_env ["VIS"] 0)
                    (Py.VDict [("Records", Py.VList [])]) ["VIS"] lambda_world
                    (Py.IndexError "list index out of range") (or_introl eq_refl))).
  - apply (proj1 (malformed_event_refused (small_env ["VIS"] 0)
                    (Py.VDict [("Records", Py.VDict [])]) ["VIS"] lambda_world
                    (Py.KeyError (Py.VInt 0)) (or_introl eq_refl))).
  - apply (proj2 (malformed_event_refused (small_env ["VIS"] 0)
                    (Py.VDict [("Records", Py.VList [Py.VNone])]) ["VIS"] lambda_world
                    (Py.not_subscriptable Py.VNone) (or_introl eq_refl))).
    apply list_elem_of_here.
Defined.

(** X17.  Without the variable [DESTINATION_BUCKET], [process_file]
    answers a well-formed event with 500 and the name of the variable, and
    makes no outside call. *)
Theorem process_file_without_destination :
  forall (E : env) (event : Py.value) (completion : list string) (w : world)
         (bucket key : Py.value),
    event_field event "bucket" "name" = Ok bucket ->
    event_field event "object" "key" = Ok key ->
    environ w !! "DESTINATION_BUCKET" = None ->
    process_file E event completion w
    = (Ok {| statusCode := 500; response_body := Failed "'DESTINATION_BUCKET'" |}, w).
Proof.
  intros E event completion w bucket key Hb Hk Hd.
  unfold process_file, try_except, mbind, M_bind, bind, lift, os_environ_getitem.
  rewrite Hb, Hk, Hd. reflexivity.
Qed.

Lemma process_file_without_destination_witness :
  process_file (small_env ["VIS"] 0) trigger ["VIS"] empty_world
  = (Ok {| statusCode := 500; response_body := Failed "'DESTINATION_BUCKET'" |},
     empty_world).
Proof.
  apply (process_file_without_destination (small_env ["VIS"] 0) trigger ["VIS"]
           empty_world (Py.VStr "src") (Py.VStr "3DIMG_01JAN2023_0130_L1B_STD.h5"));
    reflexivity.
Defined.

(** X18.  With a region that is not one of the valid ones,
    [lambda_handler] answers 500 with the list of the valid regions and
    makes no outside call, whatever the event. *)
Theorem lambda_handler_invalid_region :
  forall (E : env) (event : Py.value) (completion : list string) (w : world),
    default "ap-south-1" (environ w !! "AWS_DEFAULT_REGION")
      ∉ MetadataHandler.VALID_REGIONS ->
    App.lambda_handler E event completion w
    = (Ok {| statusCode := 500;
             response_body :=
               Failed ("Invalid region. Must be one of "
                       ++ "['ap-south-1', 'us-east-1', 'us-west-2']") |}, w).
Proof.
  intros E event completion w Hr. unfold App.lambda_handler.
  unfold try_except, mbind, M_bind, bind, os_environ_get.
  rewrite metadata_handler_init, (bool_decide_eq_false_2 _ Hr). reflexivity.
Qed.

Lemma lambda_handler_invalid_region_witness :
  App.lambda_handler (small_env ["VIS"] 0) trigger ["VIS"]
    {| fs := ∅; environ := {[ "AWS_DEFAULT_REGION" := "eu-west-1" ]}; events := [] |}
  = (Ok {| statusCode := 500;
           response_body :=
             Failed ("Invalid region. Must be one of "
                     ++ "['ap-south-1', 'us-east-1', 'us-west-2']") |},
     {| fs := ∅; environ := {[ "AWS_DEFAULT_REGION" := "eu-west-1" ]}; events := [] |}).
Proof.
  apply (lambda_handler_invalid_region (small_env ["VIS"] 0) trigger ["VIS"]).
  vm_compute. intros H.
  repeat (apply elem_of_cons in H as [H|H]; [discriminate H|]).
  by apply elem_of_nil in H.
Defined.

(** ** What a run of [process] uploads *)

Lemma entry_of_elem Y futures acc loc :
  entry_of Y futures acc = Some loc ->
  acc = Some loc
  \/ exists r, (Y, r) ∈ futures /\ INSAT3DProcessor.location_of r = Some loc.
Proof.
  revert acc. induction futures as [|[b r] futures IH]; intros acc; [by left|].
  rewrite entry_of_cons. cbn [fst snd]. intros H. apply IH in H as [H|(r' & Hin & Hr')].
  - destruct (String.eqb_spec b Y) as [->|Hne]; [|by left].
    destruct (INSAT3DProcessor.location_of r) as [l|] eqn:Hl; [|by left].
    right. exists r. split; [apply list_elem_of_here | congruence].
  - right. exists r'. split; [by apply list_elem_of_further | done].
Qed.

Lemma process_band_uploads E self band path w :
  exists ups,
    uploads (events (INSAT3DProcessor.process_band E self (band, path) w).2)
    = (uploads (events w) ++ ups)%list
    /\ (ups = [] \/ ups = [upload_of self band])
    /\ forall loc,
         (INSAT3DProcessor.process_band E self (band, path) w).1 = Ok (Some loc) ->
         ups = [upload_of self band] /\ loc = location self band.
Proof.
  rewrite process_band_world, convert_and_upload_unfold. cbn zeta.
  destruct (succeeds _ 600).
  - set (w1 := add_event _ _).
    destruct (cleanup_events E (INSAT3DProcessor.temp_file band) w1) as (tail & Hev & Hup).
    exists [upload_of self band].
    destruct (upload_file E _ _ _ _) as [fault|];
      destruct (cleanup E (INSAT3DProcessor.temp_file band) w1) as [[[]|e] w2];
      cbn [fst snd] in *;
      (split; [|split; [by right|]]);
      try (intros loc [= <-]; done); try (intros loc; discriminate);
      rewrite Hev, uploads_app, Hup, app_nil_r; unfold w1, add_event, after_run;
      cbn [events]; rewrite !uploads_app; cbn; by rewrite app_nil_r.
  - set (w1 := after_run E _ w).
    destruct (cleanup_events E (INSAT3DProcessor.temp_file band) w1) as (tail & Hev & Hup).
    exists [].
    destruct (cleanup E (INSAT3DProcessor.temp_file band) w1) as [[[]|e] w2];
      cbn [fst snd] in *;
      (split; [|split; [by left|intros loc; discriminate]]);
      rewrite Hev, uploads_app, Hup, !app_nil_r; unfold w1, after_run;
      cbn [events]; rewrite uploads_app; cbn; by rewrite app_nil_r.
Qed.

Lemma as_completed_uploads E self sds completion w futures w' :
  INSAT3DProcessor.as_completed E self sds completion w = (Ok futures, w') ->
  exists ups,
    uploads (events w') = (uploads (events w) ++ ups)%list
    /\ (forall up, up ∈ ups ->
          exists band, band ∈ completion /\ is_Some (sds !! band)
                       /\ up = upload_of self band)
    /\ forall band loc, (band, Ok (Some loc)) ∈ futures ->
         upload_of self band ∈ ups /\ loc = location self band.
Proof.
  revert w futures. induction completion as [|band rest IH]; intros w futures.
  - cbn. unfold ret. intros [= <- <-]. exists []. rewrite app_nil_r.
    split; [done|]. split; intros *; intros H; by apply elem_of_nil in H.
  - rewrite as_completed_cons. destruct (sds !! band) as [path|] eqn:Hb.
    + destruct (process_band_uploads E self band path w) as (u1 & Hu1 & Hshape & Hloc).
      destruct (INSAT3DProcessor.process_band E self (band, path) w) as [r w1].
      cbn [fst snd] in *.
      destruct (INSAT3DProcessor.as_completed E self sds rest w1) as [[fs|e] w2] eqn:Hrest;
        [|discriminate].
      intros [= <- <-]. destruct (IH _ _ Hrest) as (u2 & Hu2 & Hform & Hin).
      exists (u1 ++ u2)%list. rewrite Hu2, Hu1, <- app_assoc. split; [done|]. split.
      * intros up [Hup|Hup]%elem_of_app.
        -- exists band. split; [apply list_elem_of_here|]. split; [by rewrite Hb|].
           destruct Hshape as [->| ->]; [by apply elem_of_nil in Hup|].
           by apply list_elem_of_singleton in Hup.
        -- destruct (Hform _ Hup) as (b & Hbin & Hsome & ->).
           exists b. split; [by apply list_elem_of_further | done].
      * intros b loc [Heq|Hfs]%elem_of_cons.
        -- injection Heq as -> <-. destruct (Hloc loc eq_refl) as [-> ->].
           split; [|done]. apply elem_of_app. left. apply list_elem_of_here.
        -- destruct (Hin _ _ Hfs) as [Hmem ->]. split; [|done].
           apply elem_of_app. by right.
    + intros H. destruct (IH _ _ H) as (ups & Hu & Hform & Hin).
      exists ups. split; [done|]. split; [|done].
      intros up Hup. destruct (Hform _ Hup) as (b & Hbin & Hsome & ->).
      exists b. split; [by apply list_elem_of_further | done].
Qed.

Lemma upload_metadata_uploads E self path w :
  uploads (events (MetadataHandler.upload_metadata E self path w).2)
  = uploads (events w).
Proof.
  destruct (upload_metadata_events E self path w) as (tail & -> & Htail).
  rewrite uploads_app. cbn.
  destruct Htail as [->|[item ->]]; cbn; by rewrite app_nil_r.
Qed.

(** X19.  Whatever the tools and the stores do, the uploads of one run of
    [process] are uploads of the temporary file of a band that completed
    to the key [{filename}/{band}_cog.tiff] of the output bucket, with the
    owner given full control; every band of the mapping that [process]
    returns has been uploaded so, and its entry is the address
    [s3://{bucket}/{key}] of the uploaded object. *)
Theorem process_uploads :
  forall (E : env) (self : INSAT3DProcessor.t) (completion : list string)
         (w : world) (results : Py.dict) (w' : world),
    INSAT3DProcessor.process E self completion w = (Ok results, w') ->
    exists ups,
      uploads (events w') = (uploads (events w) ++ ups)%list
      /\ (forall up, up ∈ ups ->
            exists band, band ∈ completion /\ up = upload_of self band)
      /\ forall band loc, Py.entries results !! band = Some loc ->
           upload_of self band ∈ ups /\ loc = location self band.
Proof.
  intros E self completion w results w'. rewrite process_unfold, discover_unfold.
  pose proof (upload_metadata_uploads E (INSAT3DProcessor.metadata_handler self)
                (INSAT3DProcessor.input_path self) w) as Hmeta.
  set (w1 := (MetadataHandler.upload_metadata E _ _ w).2) in *.
  destruct (get_subdatasets_world E self w1) as [sds ->].
  assert (Hinsp : uploads (events (after_run E (inspection_cmd self w1) w1))
                  = uploads (events w)).
  { unfold after_run. cbn [events]. rewrite uploads_app, Hmeta. cbn. apply app_nil_r. }
  destruct (bool_decide (sds = ∅)).
  - intros [= <- <-]. exists []. rewrite app_nil_r. split; [done|].
    split; [intros up H; by apply elem_of_nil in H|].
    intros band loc H. cbn in H. by rewrite lookup_empty in H.
  - destruct (_ <=? 0)%Z; [discriminate|].
    destruct (INSAT3DProcessor.as_completed E self sds completion _)
      as [[futures|e] w3] eqn:Hac; [|discriminate].
    intros [= <- <-].
    destruct (as_completed_uploads _ _ _ _ _ _ _ Hac) as (ups & Hu & Hform & Hin).
    exists ups. rewrite Hu, Hinsp. split; [done|]. split.
    + intros up Hup. destruct (Hform _ Hup) as (b & Hb & _ & ->). eauto.
    + intros band loc. rewrite collect_unfold, collect_from_lookup, lookup_empty.
      intros [H|(r & Hr & Hloc)]%entry_of_elem; [discriminate|].
      destruct r as [[l|]|e]; cbn in Hloc; try discriminate.
      destruct (String.eqb l ""); [discriminate|]. injection Hloc as ->.
      by apply Hin.
Qed.

Lemma process_uploads_witness :
  exists ups,
    uploads (events twelve_futures.2) = (uploads (events empty_world) ++ ups)%list
    /\ upload_of twelve_self "TIR1" ∈ ups.
Proof.
  destruct (process_uploads twelve_env twelve_self twelve_completion empty_world
              (INSAT3DProcessor.collect twelve_futures.1) twelve_futures.2)
    as (ups & Hu & _ & Hin).
  - vm_compute. exact eq_refl.
  - exists ups. split; [exact Hu|].
    apply (Hin "TIR1" "s3://final-cog/3DIMG_01JAN2023_0130_L1B_STD/TIR1_cog.tiff").
    vm_compute. exact eq_refl.
Defined.

(** ** The entry points: requests that are served *)

Lemma upload_metadata_environ E self path w :
  environ (MetadataHandler.upload_metadata E self path w).2 = environ w.
Proof.
  destruct (extract_metadata_total E path w) as [raw Hx].
  rewrite (upload_metadata_unfold _ _ _ _ _ Hx). cbn zeta.
  destruct (_ || _); reflexivity.
Qed.

Lemma processor_init_valid input_path output_bucket max_workers w :
  default "ap-south-1" (environ w !! "AWS_DEFAULT_REGION") ∈ MetadataHandler.VALID_REGIONS ->
  exists self w',
    INSAT3DProcessor.__init__ input_path output_bucket max_workers w = (Ok self, w')
    /\ INSAT3DProcessor.max_workers self = max_workers.
Proof.
  intros Hr. rewrite processor_init_unfold. cbn zeta.
  rewrite (valid_regions_accepted _ Hr), (bool_decide_eq_true_2 _ Hr).
  eexists _, _. split; reflexivity.
Qed.

(** X20.  [lambda_handler] always answers, with 200 or with 500.  It
    answers 200 exactly when the region is one of the valid ones and the
    event has a first record with the bucket name and the object key:
    no failure of a tool or of a store turns the answer into 500. *)
Theorem lambda_handler_status :
  forall (E : env) (event : Py.value) (completion : list string) (w : world),
    exists resp w',
      App.lambda_handler E event completion w = (Ok resp, w')
      /\ (statusCode resp = 200%Z \/ statusCode resp = 500%Z)
      /\ (statusCode resp = 200%Z <->
          default "ap-south-1" (environ w !! "AWS_DEFAULT_REGION")
            ∈ MetadataHandler.VALID_REGIONS
          /\ (exists bucket, event_field event "bucket" "name" = Ok bucket)
          /\ (exists key, event_field event "object" "key" = Ok key)).
Proof.
  intros E event completion w. unfold App.lambda_handler.
  unfold try_except, mbind, M_bind, bind, lift, os_environ_get.
  rewrite metadata_handler_init.
  destruct (decide (default "ap-south-1" (environ w !! "AWS_DEFAULT_REGION")
                      ∈ MetadataHandler.VALID_REGIONS)) as [Hr|Hr].
  2:{ rewrite (bool_decide_eq_false_2 _ Hr). eexists _, _. split; [reflexivity|].
      cbn. split; [by right|]. split; [discriminate|]. by intros [? _]. }
  rewrite (bool_decide_eq_true_2 _ Hr).
  destruct (event_field event "bucket" "name") as [bucket|e1].
  2:{ eexists _, _. split; [reflexivity|]. cbn. split; [by right|].
      split; [discriminate|]. by intros (_ & [? ?] & _). }
  destruct (event_field event "object" "key") as [key|e2].
  2:{ eexists _, _. split; [reflexivity|]. cbn. split; [by right|].
      split; [discriminate|]. by intros (_ & _ & [? ?]). }
  pose proof (upload_metadata_environ E {| MetadataHandler.region :=
                default "ap-south-1" (environ w !! "AWS_DEFAULT_REGION") |}
                ("/vsis3/" ++ Py.str bucket ++ "/" ++ Py.str key) w) as Henv.
  destruct (upload_metadata_world E {| MetadataHandler.region :=
                default "ap-south-1" (environ w !! "AWS_DEFAULT_REGION") |}
                ("/vsis3/" ++ Py.str bucket ++ "/" ++ Py.str key) w) as (ok & w1 & Hup).
  rewrite Hup in Henv |- *. cbn [snd] in Henv.
  destruct (processor_init_valid (Py.str bucket ++ "/" ++ Py.str key)
              (default "final-cog" (environ w1 !! "DESTINATION_BUCKET")) 5 w1)
    as (self & w2 & Hinit & Hpool); [by rewrite Henv|].
  rewrite Hinit.
  destruct (process_total_events E self completion w2)
    as (results & w3 & tail & Hp & _); [by rewrite Hpool|].
  rewrite Hp. eexists _, _. split; [reflexivity|]. cbn. split; [by left|].
  split; [|done]. intros _. eauto.
Qed.

(** ** The order of the converted bands *)

Lemma filter_ext_elem {A} (P Q : A -> Prop)
    `{forall x, Decision (P x)} `{forall x, Decision (Q x)} (l : list A) :
  (forall x, x ∈ l -> P x <-> Q x) -> filter P l = filter Q l.
Proof.
  induction l as [|x l IH]; intros Hext; [reflexivity|].
  assert (Hx : P x <-> Q x) by (apply Hext, list_elem_of_here).
  assert (Hl : filter P l = filter Q l).
  { apply IH. intros y Hy. by apply Hext, list_elem_of_further. }
  destruct (decide (P x)) as [HP|HP].
  - rewrite !filter_cons_True by tauto. by rewrite Hl.
  - rewrite !filter_cons_False by tauto. exact Hl.
Qed.

Lemma kept_bands futures :
  NoDup futures.*1 ->
  (filter kept futures).*1
  = filter (fun band => is_Some (entry_of band futures None)) futures.*1.
Proof.
  induction futures as [|[b0 r0] futures IH]; intros Hnd; [reflexivity|].
  cbn in Hnd. apply NoDup_cons in Hnd as [Hb0 Hnd]. cbn [fmap list_fmap fst].
  assert (Hrest : filter (fun band => is_Some (entry_of band ((b0, r0) :: futures) None))
                    futures.*1
                  = filter (fun band => is_Some (entry_of band futures None)) futures.*1).
  { apply filter_ext_elem. intros b Hb. rewrite entry_of_cons. cbn [fst snd].
    assert (Hne : String.eqb b0 b = false) by (apply String.eqb_neq; congruence).
    by rewrite Hne. }
  assert (Hhead : entry_of b0 ((b0, r0) :: futures) None
                  = INSAT3DProcessor.location_of r0).
  { rewrite entry_of_cons. cbn [fst snd]. rewrite String.eqb_refl.
    rewrite entry_of_absent by done.
    by destruct (INSAT3DProcessor.location_of r0). }
  destruct (INSAT3DProcessor.location_of r0) as [loc|] eqn:Hloc.
  - rewrite (filter_cons_True kept) by (unfold kept; cbn; rewrite Hloc; eauto).
    rewrite filter_cons_True by (rewrite Hhead; eauto).
    cbn [fmap list_fmap fst]. by rewrite Hrest, IH.
  - rewrite (filter_cons_False kept) by (unfold kept; cbn; rewrite Hloc; by intros [? ?]).
    rewrite filter_cons_False by (rewrite Hhead; by intros [? ?]).
    by rewrite Hrest, IH.
Qed.

Lemma filter_none {A} (P : A -> Prop) `{forall x, Decision (P x)} (l : list A) :
  (forall x, ~ P x) -> filter P l = [].
Proof.
  intros Hn. induction l as [|x l IH]; [reflexivity|].
  by rewrite filter_cons_False.
Qed.

(** The keys of the mapping that [process] returns are the bands that have
    an entry, in the order in which their conversions completed. *)
Lemma process_order E self completion w results w' :
  INSAT3DProcessor.process E self completion w = (Ok results, w') ->
  NoDup completion ->
  Py.order results
  = filter (fun band => is_Some (Py.entries results !! band)) completion.
Proof.
  rewrite process_unfold. destruct (discover E self w) as [[sds|e] w2]; [|discriminate].
  destruct (bool_decide (sds = ∅)).
  - intros [= <- _] _. cbn. symmetry. apply filter_none.
    intros b [v Hv]. rewrite lookup_empty in Hv. discriminate Hv.
  - destruct (_ <=? 0)%Z; [discriminate|].
    destruct (INSAT3DProcessor.as_completed E self sds completion w2)
      as [[futures|e] w3] eqn:Hac; [|discriminate].
    intros [= <- _] Hnd.
    destruct (as_completed_spec _ _ _ _ _ _ _ Hac) as [Hbands _].
    assert (Hfut : NoDup futures.*1) by (rewrite Hbands; by apply NoDup_filter).
    rewrite (collect_order _ Hfut), (kept_bands _ Hfut), Hbands, list_filter_filter.
    apply list_filter_iff. intros b.
    rewrite collect_unfold, collect_from_lookup, lookup_empty. split; [tauto|].
    intros Hsome. split; [exact Hsome|].
    destruct Hsome as [loc Hloc].
    apply entry_of_elem in Hloc as [Hloc|(r & Hin & _)]; [discriminate|].
    assert (Hb : b ∈ futures.*1) by (apply list_elem_of_fmap; by exists (b, r)).
    rewrite Hbands in Hb. by apply list_elem_of_filter in Hb as [Hb _].
Qed.

(** X21.  For an event with the bucket name and the object key, with
    [DESTINATION_BUCKET] set and a valid region, [process_file] builds the
    processor with a pool of ten workers, runs [process] and answers 500
    with the text [No output files generated] when the mapping returned is
    empty, and otherwise 200 with the keys of the mapping in the order of
    their insertion: the bands that were converted, in the order in which
    their conversions completed. *)
Theorem process_file_answers :
  forall (E : env) (event : Py.value) (completion : list string) (w : world)
         (bucket key : Py.value) (destination_bucket : string),
    event_field event "bucket" "name" = Ok bucket ->
    event_field event "object" "key" = Ok key ->
    environ w !! "DESTINATION_BUCKET" = Some destination_bucket ->
    default "ap-south-1" (environ w !! "AWS_DEFAULT_REGION")
      ∈ MetadataHandler.VALID_REGIONS ->
    NoDup completion ->
    exists self w0 results w',
      INSAT3DProcessor.__init__ (Py.str bucket ++ "/" ++ Py.str key)
        destination_bucket 10 w = (Ok self, w0)
      /\ INSAT3DProcessor.process E self completion w0 = (Ok results, w')
      /\ process_file E event completion w
         = (Ok (if bool_decide (Py.entries results = ∅)
                then {| statusCode := 500;
                        response_body := Failed "No output files generated" |}
                else {| statusCode := 200;
                        response_body :=
                          Processed "Processing completed successfully"
                            (filter (fun band => is_Some (Py.entries results !! band))
                                    completion) |}), w').
Proof.
  intros E event completion w bucket key destination_bucket Hb Hk Hd Hr Hnd.
  destruct (processor_init_valid (Py.str bucket ++ "/" ++ Py.str key)
              destination_bucket 10 w Hr) as (self & w0 & Hinit & Hpool).
  destruct (process_total_events E self completion w0)
    as (results & w' & tail & Hp & _); [by rewrite Hpool|].
  exists self, w0, results, w'. split; [exact Hinit|]. split; [exact Hp|].
  unfold process_file, try_except, mbind, M_bind, bind, lift, os_environ_getitem.
  rewrite Hb, Hk, Hd, Hinit, Hp. unfold is_empty, keys.
  rewrite (process_order _ _ _ _ _ _ Hp Hnd).
  destruct (bool_decide (Py.entries results = ∅)); reflexivity.
Qed.

Lemma process_file_answers_witness :
  (process_file (small_env ["VIS"; "SWIR"] 0) trigger ["VIS"; "SWIR"] lambda_world).1
  = Ok {| statusCode := 200;
          response_body :=
            Processed "Processing completed successfully" ["VIS"; "SWIR"] |}
  /\ (process_file (small_env ["VIS"; "SWIR"] 0) trigger ["SWIR"; "VIS"] lambda_world).1
     = Ok {| statusCode := 200;
             response_body :=
               Processed "Processing completed successfully" ["SWIR"; "VIS"] |}.
Proof.
  split.
  - destruct (process_file_answers (small_env ["VIS"; "SWIR"] 0) trigger
                ["VIS"; "SWIR"] lambda_world (Py.VStr "src")
                (Py.VStr "3DIMG_01JAN2023_0130_L1B_STD.h5") "final-cog")
      as (self & w0 & results & w' & Hinit & Hp & ->);
      [reflexivity | reflexivity | reflexivity | apply list_elem_of_here
      | apply (bool_decide_unpack _); vm_compute; exact I |].
    vm_compute in Hinit. injection Hinit as <- <-.
    vm_compute in Hp. injection Hp as <- _. vm_compute. exact eq_refl.
  - destruct (process_file_answers (small_env ["VIS"; "SWIR"] 0) trigger
                ["SWIR"; "VIS"] lambda_world (Py.VStr "src")
                (Py.VStr "3DIMG_01JAN2023_0130_L1B_STD.h5") "final-cog")
      as (self & w0 & results & w' & Hinit & Hp & ->);
      [reflexivity | reflexivity | reflexivity | apply list_elem_of_here
      | apply (bool_decide_unpack _); vm_compute; exact I |].
    vm_compute in Hinit. injection Hinit as <- <-.
    vm_compute in Hp. injection Hp as <- _. vm_compute. exact eq_refl.
Defined.

(** ** Commands *)

(** X22.  [_run_command] starts the command once.  It raises in two cases
    and in no other: when the process cannot be created, with the fault of
    the creation, and when the command ends within the timeout and what it
    has written is not text, with the fault of the decoder.  It reports
    success, with the text that the command printed, exactly when the
    command ends within the timeout with code zero and has written text. *)
Theorem run_command_report :
  forall (E : env) (cmd : list string) (timeout : N) (w : world),
    let b := (spawn E w cmd).1 in
    let r := INSAT3DProcessor._run_command E cmd timeout w in
    r.2 = after_run E cmd w
    /\ (forall e, r.1 = Raise e <->
          (exists fault, b = Subprocess.CannotStart fault
                         /\ e = Subprocess.start_exn fault)
          \/ (exists d rc reason,
                b = Subprocess.Undecodable d rc reason
                /\ (d <= timeout)%N /\ e = Py.UnicodeDecodeError reason))
    /\ (forall out, r.1 = Ok (true, out) <->
          succeeds b timeout = true
          /\ exists d rc err, b = Subprocess.Runs d rc out err).
Proof.
  intros E cmd timeout w b r. unfold r.
  unfold INSAT3DProcessor._run_command, after_run.
  unfold mbind, M_bind, bind. rewrite start_spec. fold b. cbn [fst snd].
  unfold succeeds, Subprocess.run, Subprocess.exceeds.
  destruct b as [fault|d rc out err|d rc reason].
  - split; [|split].
    + destruct fault; reflexivity.
    + intros e. split.
      * intros H. left. exists fault. split; [reflexivity|].
        destruct fault; cbn in H; by injection H as <-.
      * intros [(f & [= <-] & ->)|(d & rc & reason & H & _)]; [|discriminate H].
        destruct fault; reflexivity.
    + intros out. split; [|intros [H _]; discriminate H].
      destruct fault; discriminate.
  - assert (Hno : forall e (r0 : bool * string),
               Ok r0 = Raise e <->
               (exists fault, Subprocess.Runs d rc out err = Subprocess.CannotStart fault
                              /\ e = Subprocess.start_exn fault)
               \/ (exists d' rc' reason,
                     Subprocess.Runs d rc out err = Subprocess.Undecodable d' rc' reason
                     /\ (d' <= timeout)%N /\ e = Py.UnicodeDecodeError reason)).
    { intros e r0. split; [discriminate|].
      intros [(f & H & _)|(d' & rc' & reason & H & _)]; discriminate H. }
    destruct (timeout <? d)%N; cbn [negb andb fst snd].
    + split; [reflexivity|]. split; [intros e; apply Hno|].
      intros o. split; [discriminate|]. intros [H _]. discriminate H.
    + destruct (rc =? 0)%Z; cbn [negb andb fst snd].
      * split; [reflexivity|]. split; [intros e; apply Hno|].
        intros o. split.
        -- intros [= <-]. split; [reflexivity|]. eauto.
        -- intros (_ & d' & rc' & err' & [= _ _ -> _]). reflexivity.
      * split; [reflexivity|]. split; [intros e; apply Hno|].
        intros o. split; [discriminate|]. intros [H _]. discriminate H.
  - destruct (timeout <? d)%N eqn:Ht; cbn [fst snd].
    + split; [reflexivity|]. split.
      * intros e. split; [discriminate|].
        intros [(f & H & _)|(d' & rc' & reason' & [= <- _ _] & Hle & _)];
          [discriminate H|]. apply N.ltb_lt in Ht. lia.
      * intros o. split; [discriminate|]. intros [H _]. discriminate H.
    + split; [reflexivity|]. split.
      * intros e. split.
        -- intros [= <-]. right. exists d, rc, reason. apply N.ltb_ge in Ht. done.
        -- intros [(f & H & _)|(d' & rc' & reason' & [= _ _ <-] & _ & ->)];
             [discriminate H | reflexivity].
      * intros o. split; [discriminate|]. intros [H _]. discriminate H.
Qed.
